(** * qibullet/ros_wrapper.py: the ROS wrapper of the virtual Pepper

    A shallow embedding of [RosWrapper] and [PepperRosWrapper].  The wrapper
    is glue between three collaborators that are not part of the file: the
    simulated robot ([virtual_pepper] and its cameras, pybullet), the ROS
    client libraries (rospy, tf2_ros, cv_bridge, roslib, roslaunch) and the
    Python runtime (threads, files, atexit, print).  Every call into a
    collaborator is an event of the trace a method emits, and the answer is
    chosen by an environment; the wrapper object itself is its attribute
    dictionary. *)

From Stdlib Require Import PrimFloat.
From stdpp Require Import gmap strings list.

Set Warnings "-inexact-float".

(** ** Python values *)

(** Numbers as the source writes them: [0] is an int, [0.0] a float. *)
Inductive pynum : Type :=
  | PInt (z : Z)
  | PFloat (f : float).

(** Exception classes the file raises, catches, or can receive from a
    collaborator.  [KeyboardInterrupt] and [SystemExit] derive from
    [BaseException] only, the others from [Exception]. *)
Inductive exn_class : Type :=
  | AssertionError
  | IOError
  | PybulletError
  | AttributeError
  | TypeError
  | ROSInterruptException
  | ROSException
  | RuntimeError
  | KeyboardInterrupt
  | SystemExit.

Record exn : Type := Exn { exn_cls : exn_class; exn_msg : string }.

(** [isinstance(e, Exception)] *)
Definition is_Exception (e : exn) : bool :=
  match exn_cls e with
  | KeyboardInterrupt | SystemExit => false
  | _ => true
  end.

Definition is_AssertionError (e : exn) : bool :=
  match exn_cls e with AssertionError => true | _ => false end.

Definition is_IOError (e : exn) : bool :=
  match exn_cls e with IOError => true | _ => false end.

(** [str(e)] *)
Definition str (e : exn) : string := exn_msg e.

Inductive result (A : Type) : Type :=
  | Ok (a : A)
  | Raise (e : exn).
Arguments Ok {A} a.
Arguments Raise {A} e.

(** ** Handles of collaborator objects *)

Definition Robot := nat.
Definition Camera := nat.
Definition Link := nat.
Definition Publisher := nat.
Definition Broadcaster := nat.
Definition Bridge := nat.
Definition Launcher := nat.
Definition Rate := nat.
Definition File := nat.
Definition Thread := nat.

(** [roslaunch.core.Node(package, node_type)], a description of a node to
    launch. *)
Record Node : Type := { package : string; node_type : string }.

(** A camera frame, a numpy array: its shape and its flattened content. *)
Record Frame : Type := { frame_shape : list Z; frame_data : list Z }.

Record Resolution : Type := { width : Z; height : Z }.

(** What a laser getter hands back; the source tests [isinstance(_, list)]. *)
Inductive laser_value : Type :=
  | LaserList (l : list float)
  | LaserNotList.

(** The third argument of [setAngles]: a list of speeds or one speed. *)
Inductive velocity_arg : Type :=
  | VelList (l : list float)
  | VelScalar (f : float).

(** Bound methods of the wrapper handed to a collaborator. *)
Inductive method_ref : Type :=
  | M_stopWrapper
  | M_spin
  | M_jointAnglesCallback
  | M_velocityCallback
  | M_moveToCallback
  | M_killMoveCallback.

(** ** ROS messages (the fields the file reads or writes) *)

Inductive msg_type : Type :=
  | TImage | TCameraInfo | TJointState | TLaserScan | TOdometry
  | TJointAnglesWithSpeed | TTwist | TPoseStampedWithSpeed | TEmpty.

Record Time : Type := { secs : Z; nsecs : Z }.

Record Header : Type := { stamp : Time; frame_id : string }.

(** [Header()] *)
Definition Header_new : Header :=
  {| stamp := {| secs := 0; nsecs := 0 |}; frame_id := "" |}.

Record JointState : Type :=
  { js_header : Header; js_name : list string; js_position : list pynum }.

Record LaserScan : Type :=
  { ls_header : Header;
    angle_min : float; angle_max : float; angle_increment : float;
    range_min : float; range_max : float;
    ranges : list pynum }.

Record Quaternion : Type := { qx : float; qy : float; qz : float; qw : float }.

Record TransformStamped : Type :=
  { ts_header : Header; ts_child_frame_id : string;
    translation_x : float; translation_y : float; translation_z : pynum;
    rotation : Quaternion }.

Record Odometry : Type :=
  { od_header : Header; od_child_frame_id : string;
    position_x : float; position_y : float; position_z : float;
    orientation : Quaternion;
    twist_linear_x : float; twist_linear_y : float; twist_angular_z : float }.

Record Image : Type :=
  { img_header : Header; encoding : string;
    img_height : Z; img_width : Z; img_data : list Z }.

Record CameraInfo : Type :=
  { ci_header : Header; distortion_model : string;
    ci_width : Z; ci_height : Z;
    ci_D : list float; ci_K : list float; ci_R : list Z; ci_P : list float }.

(** A message handed to [publish]. *)
Inductive ros_msg : Type :=
  | MsgJointState (m : JointState)
  | MsgLaserScan (m : LaserScan)
  | MsgOdometry (m : Odometry)
  | MsgImage (m : Image)
  | MsgCameraInfo (m : CameraInfo).

(** Incoming command messages. *)
Record Vector3 : Type := { v_x : float; v_y : float; v_z : float }.

Record Twist : Type := { linear : Vector3; angular : Vector3 }.

Record JointAnglesWithSpeed : Type :=
  { joint_names : list string; joint_angles : list float;
    speed : float; speeds : list float }.

(** [std_msgs/Empty] *)
Inductive EmptyMsg : Type := Empty_new.

Record Pose : Type := { position : Vector3; pose_orientation : Quaternion }.

Record PoseStampedWithSpeed : Type :=
  { pose_stamped_header : Header; pose_stamped_pose : Pose;
    speed_percentage : float; referenceFrame : Z }.

(** ** Attribute values of the wrapper object *)

Inductive pyval : Type :=
  | VNone
  | VBool (b : bool)
  | VStr (s : string)
  | VNum (n : pynum)
  | VDict (items : list (string * pynum))
  | VRobot (r : Robot)
  | VPublisher (p : Publisher)
  | VBroadcaster (b : Broadcaster)
  | VBridge (b : Bridge)
  | VLauncher (l : Launcher)
  | VThread (t : Thread).

(** [v is None] *)
Definition is_None (v : pyval) : bool :=
  match v with VNone => true | _ => false end.

(** [isinstance(v, Thread)] *)
Definition isinstance_Thread (v : pyval) : bool :=
  match v with VThread _ => true | _ => false end.

(** Truth value of an object, as [not v] and [while v] test it. *)
Definition truthy (v : pyval) : bool :=
  match v with
  | VNone => false
  | VBool b => b
  | VStr s => negb (String.eqb s "")
  | VNum (PInt z) => negb (Z.eqb z 0)
  | VNum (PFloat f) => negb (PrimFloat.eqb f 0%float)
  | VDict items => negb (Nat.eqb (length items) 0)
  | _ => true
  end.

(** [type(v).__name__] *)
Definition type_name (v : pyval) : string :=
  match v with
  | VNone => "NoneType"
  | VBool _ => "bool"
  | VStr _ => "str"
  | VNum (PInt _) => "int"
  | VNum (PFloat _) => "float"
  | VDict _ => "dict"
  | VRobot _ => "PepperVirtual"
  | VPublisher _ => "Publisher"
  | VBroadcaster _ => "TransformBroadcaster"
  | VBridge _ => "CvBridge"
  | VLauncher _ => "ROSLaunch"
  | VThread _ => "Thread"
  end.

(** The message of the [AttributeError] for an attribute that an object
    of the given type does not have. *)
Definition no_attribute (type attr : string) : string :=
  ("'" ++ type ++ "' object has no attribute '" ++ attr ++ "'")%string.

(** The message of the [TypeError] for [v + suffix] when [v] is no
    string. *)
Definition no_add (type : string) : string :=
  ("unsupported operand type(s) for +: '" ++ type ++ "' and 'str'")%string.

(** ** Calls into the collaborators *)

(** Calls that may raise, indexed by the type of what they return. *)
Inductive call : Type -> Type :=
  (* virtual_pepper *)
  | SimJointDictKeys (vp : Robot) : call (list string)
  | SimGetAnglesPosition (vp : Robot) (names : list string) : call (list float)
  | SimLaserIsActive (vp : Robot) : call bool
  | SimGetRightLaserValue (vp : Robot) : call laser_value
  | SimGetFrontLaserValue (vp : Robot) : call laser_value
  | SimGetLeftLaserValue (vp : Robot) : call laser_value
  | SimGetPosition (vp : Robot) : call (float * float * float)
  | SimRobotModel (vp : Robot) : call Z
  | SimGetPhysicsClientId (vp : Robot) : call Z
  | SimGetActiveCamera (vp : Robot) : call (option Camera)
  | SimSetAngles (vp : Robot) (names : list string) (angles : list float)
      (velocity : velocity_arg) : call unit
  | SimMove (vp : Robot) (x y theta : float) : call unit
  | SimMoveTo (vp : Robot) (x y theta : pynum) (frame : option Z)
      (speed : option float) (_async : bool) : call unit
  (* camera objects *)
  | CamGetFrame (c : Camera) : call (option Frame)
  | CamGetCameraLink (c : Camera) : call Link
  | LinkGetName (l : Link) : call string
  | CamGetResolution (c : Camera) : call Resolution
  | CamGetCameraIntrinsics (c : Camera) : call (list float)
  | CamGetCameraId (c : Camera) : call Z
  (* pybullet *)
  | PbGetBaseVelocity (model client : Z)
      : call ((float * float * float) * (float * float * float))
  (* rospy, tf2_ros, cv_bridge, roslib, roslaunch *)
  | RosInitNode (name : string) (anonymous disable_signals : bool) : call unit
  | RosPublisher (topic : string) (ty : msg_type) (queue_size : Z)
      : call Publisher
  | RosSubscriber (topic : string) (ty : msg_type) (cb : method_ref) : call unit
  | RosGetRostime : call Time
  | RosRate (frequency : pyval) : call Rate
  | RateSleep (r : Rate) : call unit
  | PubPublish (p : Publisher) (m : ros_msg) : call unit
  | RosSetParam (name value : string) : call unit
  | TfTransformBroadcaster : call Broadcaster
  | TfSendTransform (b : Broadcaster) (m : TransformStamped) : call unit
  | CvBridgeNew : call Bridge
  | Cv2ToImgmsg (b : Bridge) (frame : option Frame) : call Image
  | RoslibGetPkgDir (pkg : string) : call string
  | RosLaunchNew : call Launcher
  | LauncherStart (l : Launcher) : call unit
  | LauncherLaunch (l : Launcher) (node : Node) : call unit
  | LauncherStop (l : Launcher) : call unit
  (* files *)
  | FileOpen (path mode : string) : call File
  | FileRead (f : File) : call string
  | FileClose (f : File) : call unit
  (* threading: [t.isAlive()], [t.join()].  [join] has no argument in
     Python; [flag] is what [_wrapper_termination] holds in the instance
     when the call is made, which is what the loop of the thread waited
     for, running on the same instance, reads from then on. *)
  | ThreadIsAlive (t : Thread) : call bool
  | ThreadJoin (t : Thread) (flag : option pyval) : call unit.

(** Calls into the interpreter's own runtime that return: [Thread(...)],
    [t.start()], [atexit.register], [print].  As for [join], the [flag] of
    [start] is what [_wrapper_termination] holds in the instance when the
    thread is started. *)
Inductive rcall : Type -> Type :=
  | ThreadNew (target : method_ref) : rcall Thread
  | ThreadStart (t : Thread) (flag : option pyval) : rcall unit
  | AtexitRegister (m : method_ref) : rcall unit
  | Print (s : string) : rcall unit.

(** One entry of a trace: the call and what came back. *)
Inductive event : Type :=
  | Ev {X : Type} (c : call X) (r : result X)
  | REv {X : Type} (c : rcall X) (x : X).

(** The collaborators and the module-level constants that are not defined
    in the file. *)
Record Env (World : Type) : Type :=
  { env : forall X, call X -> World -> result X * World;
    rt_env : forall X, rcall X -> World -> X * World;
    (* set when the module is imported *)
    MISSING_IMPORT : option string;
    (* type(self).__name__, the class of the wrapper instance *)
    class_name : string;
    (* PepperBaseController *)
    MAX_LINEAR_VELOCITY : float;
    MIN_LINEAR_VELOCITY : float;
    (* PepperVirtual *)
    ID_CAMERA_TOP : Z;
    ID_CAMERA_BOTTOM : Z;
    ID_CAMERA_DEPTH : Z;
    (* pybullet's conversions between Euler angles and quaternions *)
    getEulerFromQuaternion : float -> float -> float -> float
                             -> float * float * float;
    getQuaternionFromEuler : float -> float -> float
                             -> float * float * float * float }.
Arguments env {World} _ {X} _ _.
Arguments rt_env {World} _ {X} _ _.
Arguments MISSING_IMPORT {World} _.
Arguments class_name {World} _.
Arguments MAX_LINEAR_VELOCITY {World} _.
Arguments MIN_LINEAR_VELOCITY {World} _.
Arguments ID_CAMERA_TOP {World} _.
Arguments ID_CAMERA_BOTTOM {World} _.
Arguments ID_CAMERA_DEPTH {World} _.
Arguments getEulerFromQuaternion {World} _ _ _ _ _.
Arguments getQuaternionFromEuler {World} _ _ _ _.

(** ** The wrapper object and the monad of its methods *)

(** The wrapper instance is its attribute dictionary, [self.__dict__]. *)
Abbreviation Self := (gmap string pyval).

(** What running a method gives: its result, the instance and the world
    afterwards, and the calls it made, in order. *)
Record Out (World A : Type) : Type :=
  mkOut { res : result A; self_of : Self; world_of : World;
          trace : list event }.
Arguments mkOut {World A} _ _ _ _.
Arguments res {World A} _.
Arguments self_of {World A} _.
Arguments world_of {World A} _.
Arguments trace {World A} _.

Definition M (World A : Type) : Type := Self -> World -> Out World A.

Definition ret {World A} (a : A) : M World A :=
  fun s w => mkOut (Ok a) s w [].

Definition raise {World A} (e : exn) : M World A :=
  fun s w => mkOut (Raise e) s w [].

Definition bind {World A B} (m : M World A) (f : A -> M World B) : M World B :=
  fun s w =>
    let o := m s w in
    match res o with
    | Ok a =>
        let o' := f a (self_of o) (world_of o) in
        mkOut (res o') (self_of o') (world_of o') (trace o ++ trace o')
    | Raise e => mkOut (Raise e) (self_of o) (world_of o) (trace o)
    end.

Notation "x <- m ;; k" := (bind m (fun x => k))
  (at level 100, m at next level, right associativity).
Notation "m ;; k" := (bind m (fun _ => k))
  (at level 100, right associativity).

(** [try: m  except <catches> as e: h e] *)
Definition try_except {World A} (m : M World A) (catches : exn -> bool)
    (h : exn -> M World A) : M World A :=
  fun s w =>
    let o := m s w in
    match res o with
    | Ok _ => o
    | Raise e =>
        if catches e then
          let o' := h e (self_of o) (world_of o) in
          mkOut (res o') (self_of o') (world_of o') (trace o ++ trace o')
        else o
    end.

(** [try: m  finally: fin], which is what a [with] block does with the
    manager's exit. *)
Definition finally_ {World A} (m : M World A) (fin : M World unit)
    : M World A :=
  fun s w =>
    let o := m s w in
    let o' := fin (self_of o) (world_of o) in
    mkOut (match res o' with Ok _ => res o | Raise e' => Raise e' end)
          (self_of o') (world_of o') (trace o ++ trace o').

(** [self.name = v] *)
Definition setattr {World} (name : string) (v : pyval) : M World unit :=
  fun s w => mkOut (Ok tt) (<[name := v]> s) w [].

(** [assert b] *)
Definition assert_ {World} (b : bool) : M World unit :=
  if b then ret tt else raise (Exn AssertionError "").

(** Using a value as the object whose attribute [attr] is looked up, a
    method to call mostly; an object of another kind has no such
    attribute. *)
Definition as_robot {World} (attr : string) (v : pyval) : M World Robot :=
  match v with
  | VRobot r => ret r
  | _ => raise (Exn AttributeError (no_attribute (type_name v) attr))
  end.
Definition as_publisher {World} (attr : string) (v : pyval)
    : M World Publisher :=
  match v with
  | VPublisher p => ret p
  | _ => raise (Exn AttributeError (no_attribute (type_name v) attr))
  end.
Definition as_broadcaster {World} (attr : string) (v : pyval)
    : M World Broadcaster :=
  match v with
  | VBroadcaster b => ret b
  | _ => raise (Exn AttributeError (no_attribute (type_name v) attr))
  end.
Definition as_bridge {World} (attr : string) (v : pyval) : M World Bridge :=
  match v with
  | VBridge b => ret b
  | _ => raise (Exn AttributeError (no_attribute (type_name v) attr))
  end.
Definition as_launcher {World} (attr : string) (v : pyval)
    : M World Launcher :=
  match v with
  | VLauncher l => ret l
  | _ => raise (Exn AttributeError (no_attribute (type_name v) attr))
  end.
Definition as_thread {World} (attr : string) (v : pyval) : M World Thread :=
  match v with
  | VThread t => ret t
  | _ => raise (Exn AttributeError (no_attribute (type_name v) attr))
  end.
(** [v + suffix] for a string suffix *)
Definition str_add {World} (v : pyval) (suffix : string) : M World string :=
  match v with
  | VStr s => ret (s ++ suffix)%string
  | _ => raise (Exn TypeError (no_add (type_name v)))
  end.

(** [o is not None] for what a collaborator returned *)
Definition not_None {A} (o : option A) : bool :=
  match o with Some _ => true | None => false end.

(** [l.insert(i, x)]; past the end it appends. *)
Definition py_insert {A} (i : nat) (x : A) (l : list A) : list A :=
  take i l ++ x :: drop i l.

Definition TOP_OPTICAL_FRAME : string := "CameraTop_optical_frame".
Definition BOTTOM_OPTICAL_FRAME : string := "CameraBottom_optical_frame".
Definition DEPTH_OPTICAL_FRAME : string := "CameraDepth_optical_frame".

(** ** The methods *)

Section Wrapper.
Context {World : Type} (E : Env World).

Local Abbreviation M := (M World).

(** A call into a collaborator: the environment answers, the call and
    its answer are recorded. *)
Definition ext {X} (c : call X) : M X :=
  fun s w =>
    let (r, w') := env E c w in
    mkOut r s w' [Ev c r].

Definition rt {X} (c : rcall X) : M X :=
  fun s w =>
    let (x, w') := rt_env E c w in
    mkOut (Ok x) s w' [REv c x].

(** [print(s)] *)
Definition print (s : string) : M unit := rt (Print s).

(** [self.name]: a missing attribute raises. *)
Definition getattr (name : string) : M pyval :=
  fun s w =>
    match s !! name with
    | Some v => mkOut (Ok v) s w []
    | None =>
        mkOut (Raise (Exn AttributeError (no_attribute (class_name E) name)))
          s w []
    end.

(** What [_wrapper_termination] holds in the instance, as a thread that
    shares the instance finds it; not a statement of the source. *)
Definition shared_flag : M (option pyval) :=
  fun s w => mkOut (Ok (s !! "_wrapper_termination")) s w [].

(** [if MISSING_IMPORT is not None: raise pybullet.error(MISSING_IMPORT)] *)
Definition check_import : M unit :=
  match MISSING_IMPORT E with
  | Some m => raise (Exn PybulletError m)
  | None => ret tt
  end.

(** *** class RosWrapper *)

Definition RosWrapper__init__ : M unit :=
  check_import ;;
  setattr "spin_thread" VNone ;;
  setattr "_wrapper_termination" (VBool false) ;;
  (b <- ext CvBridgeNew ;; setattr "image_bridge" (VBridge b)) ;;
  setattr "front_info_msg" (VDict []) ;;
  setattr "bottom_info_msg" (VDict []) ;;
  setattr "depth_info_msg" (VDict []) ;;
  setattr "roslauncher" VNone ;;
  (tb <- ext TfTransformBroadcaster ;;
   setattr "transform_broadcaster" (VBroadcaster tb)) ;;
  rt (AtexitRegister M_stopWrapper).

(** [self._wrapper_termination = True] *)
Definition set_termination : M unit :=
  setattr "_wrapper_termination" (VBool true).

(** The [try] block of [stopWrapper]. *)
Definition join_spin_thread : M unit :=
  (v <- getattr "spin_thread" ;; assert_ (negb (is_None v))) ;;
  (v <- getattr "spin_thread" ;; assert_ (isinstance_Thread v)) ;;
  (v <- getattr "spin_thread" ;; t <- as_thread "isAlive" v ;;
   alive <- ext (ThreadIsAlive t) ;; assert_ alive) ;;
  (v <- getattr "spin_thread" ;; t <- as_thread "join" v ;;
   flag <- shared_flag ;; ext (ThreadJoin t flag)).

(** The [try] statement of [stopWrapper]. *)
Definition join_if_alive : M unit :=
  try_except join_spin_thread is_AssertionError (fun _ => ret tt).

Definition stopWrapper : M unit :=
  set_termination ;;
  join_if_alive ;;
  l <- getattr "roslauncher" ;;
  if negb (is_None l) then
    (l <- getattr "roslauncher" ;; l <- as_launcher "stop" l ;;
     ext (LauncherStop l)) ;;
    print "stopping roslauncher"
  else ret tt.

(** *** class PepperRosWrapper *)

Definition PepperRosWrapper__init__ : M unit := RosWrapper__init__.

(** [self.<attr> = rospy.Publisher(self.ros_namespace + suffix, ty,
    queue_size=10)] *)
Definition advertise_ns (attr suffix : string) (ty : msg_type) : M unit :=
  ns <- getattr "ros_namespace" ;;
  topic <- str_add ns suffix ;;
  p <- ext (RosPublisher topic ty 10) ;;
  setattr attr (VPublisher p).

(** [self.<attr> = rospy.Publisher(topic, ty, queue_size=10)] *)
Definition advertise (attr topic : string) (ty : msg_type) : M unit :=
  p <- ext (RosPublisher topic ty 10) ;;
  setattr attr (VPublisher p).

(** The node [launchWrapper] asks the launcher for. *)
Definition robot_state_publisher : Node :=
  {| package := "robot_state_publisher";
     node_type := "robot_state_publisher" |}.

(** The [try] block of [launchWrapper]. *)
Definition launch_robot_state_publisher : M unit :=
  package_path <- ext (RoslibGetPkgDir "naoqi_driver") ;;
  file <- ext (FileOpen (package_path ++ "/share/urdf/pepper.urdf") "r") ;;
  robot_description <- finally_ (ext (FileRead file)) (ext (FileClose file)) ;;
  ext (RosSetParam "/robot_description" robot_description) ;;
  (l <- ext RosLaunchNew ;; setattr "roslauncher" (VLauncher l)) ;;
  (l <- getattr "roslauncher" ;; l <- as_launcher "start" l ;;
   ext (LauncherStart l)) ;;
  (l <- getattr "roslauncher" ;; l <- as_launcher "launch" l ;;
   ext (LauncherLaunch l robot_state_publisher)) ;;
  setattr "_wrapper_termination" (VBool false) ;;
  (t <- rt (ThreadNew M_spin) ;; setattr "spin_thread" (VThread t)) ;;
  (v <- getattr "spin_thread" ;; t <- as_thread "start" v ;;
   flag <- shared_flag ;; rt (ThreadStart t flag)).

(** The default of [frequency]. *)
Definition default_frequency : pynum := PInt 200.

(** The [try] statement of [launchWrapper]. *)
Definition start_robot_state_publisher : M unit :=
  try_except launch_robot_state_publisher is_IOError
    (fun e => print ("Could not retrieve robot descrition: " ++ str e)).

Definition launchWrapper (virtual_pepper : Robot) (ros_namespace : string)
    (frequency : pynum) : M unit :=
  check_import ;;
  setattr "virtual_pepper" (VRobot virtual_pepper) ;;
  setattr "ros_namespace" (VStr ros_namespace) ;;
  setattr "frequency" (VNum frequency) ;;
  ext (RosInitNode "pybullet_pepper" true false) ;;
  advertise_ns "front_cam_pub" "/camera/front/image_raw" TImage ;;
  advertise_ns "front_info_pub" "/camera/front/camera_info" TCameraInfo ;;
  advertise_ns "bottom_cam_pub" "/camera/bottom/image_raw" TImage ;;
  advertise_ns "bottom_info_pub" "/camera/bottom/camera_info" TCameraInfo ;;
  advertise_ns "depth_cam_pub" "/camera/depth/image_raw" TImage ;;
  advertise_ns "depth_info_pub" "/camera/depth/camera_info" TCameraInfo ;;
  advertise_ns "laser_pub" "/laser" TLaserScan ;;
  advertise "joint_states_pub" "/joint_states" TJointState ;;
  advertise "odom_pub" "odom" TOdometry ;;
  ext (RosSubscriber "/joint_angles" TJointAnglesWithSpeed
         M_jointAnglesCallback) ;;
  ext (RosSubscriber "/cmd_vel" TTwist M_velocityCallback) ;;
  ext (RosSubscriber "/move_base_simple/goal" TPoseStampedWithSpeed
         M_moveToCallback) ;;
  ext (RosSubscriber "/move_base_simple/cancel" TEmpty M_killMoveCallback) ;;
  start_robot_state_publisher.

(** [self.virtual_pepper.<attr>]: the robot, as the object whose
    attribute [attr] is looked up *)
Definition the_robot (attr : string) : M Robot :=
  v <- getattr "virtual_pepper" ;; as_robot attr v.

(** [self.<attr>.publish(m)] *)
Definition publish_on (attr : string) (m : ros_msg) : M unit :=
  v <- getattr attr ;; p <- as_publisher "publish" v ;;
  ext (PubPublish p m).

(** [scan.ranges.extend(list(reversed(v)))], then the blind zone
    [scan.ranges.extend([-1]*8)] when one follows, if [v] is a list *)
Definition extend_ranges (rs : list pynum) (v : laser_value)
    (blind_zone : bool) : list pynum :=
  match v with
  | LaserList l =>
      (rs ++ map PFloat (reverse l))
      ++ (if blind_zone then replicate 8 (PInt (-1)) else [])
  | LaserNotList => rs
  end.

Definition _updateLasers : M unit :=
  vp <- the_robot "laser_manager" ;;
  active <- ext (SimLaserIsActive vp) ;;
  if negb active then ret tt
  else
    stamp_ <- ext RosGetRostime ;;
    right_scan <- (vp <- the_robot "getRightLaserValue" ;;
                   ext (SimGetRightLaserValue vp)) ;;
    front_scan <- (vp <- the_robot "getFrontLaserValue" ;;
                   ext (SimGetFrontLaserValue vp)) ;;
    left_scan <- (vp <- the_robot "getLeftLaserValue" ;;
                  ext (SimGetLeftLaserValue vp)) ;;
    let rs := extend_ranges [] right_scan true in
    let rs := extend_ranges rs front_scan true in
    let rs := extend_ranges rs left_scan false in
    publish_on "laser_pub"
      (MsgLaserScan
         {| ls_header := {| stamp := stamp_; frame_id := "base_footprint" |};
            angle_min := (-2.0944)%float;
            angle_max := 2.0944%float;
            angle_increment :=
              ((2 * 2.0944) / (15.0 + 15.0 + 15.0 + 8.0 + 8.0))%float;
            range_min := 0.1%float;
            range_max := 3.0%float;
            ranges := rs |}).

Definition _broadcastOdom : M unit :=
  p <- (vp <- the_robot "getPosition" ;; ext (SimGetPosition vp)) ;;
  let '(x, y, theta) := p in
  stamp1 <- ext RosGetRostime ;;
  let '(q0, q1, q2, q3) := getQuaternionFromEuler E 0%float 0%float theta in
  let odom_trans :=
    {| ts_header := {| stamp := stamp1; frame_id := "odom" |};
       ts_child_frame_id := "base_link";
       translation_x := x; translation_y := y; translation_z := PInt 0;
       rotation := {| qx := q0; qy := q1; qz := q2; qw := q3 |} |} in
  (v <- getattr "transform_broadcaster" ;;
   tb <- as_broadcaster "sendTransform" v ;;
   ext (TfSendTransform tb odom_trans)) ;;
  stamp2 <- ext RosGetRostime ;;
  model <- (vp <- the_robot "robot_model" ;; ext (SimRobotModel vp)) ;;
  client <- (vp <- the_robot "getPhysicsClientId" ;;
             ext (SimGetPhysicsClientId vp)) ;;
  vel <- ext (PbGetBaseVelocity model client) ;;
  let '((vx, vy, vz), (wx, wy, wz)) := vel in
  publish_on "odom_pub"
    (MsgOdometry
       {| od_header := {| stamp := stamp2; frame_id := "odom" |};
          od_child_frame_id := "base_link";
          position_x := x; position_y := y; position_z := 0.0%float;
          orientation := rotation odom_trans;
          twist_linear_x := vx; twist_linear_y := vy;
          twist_angular_z := wz |}).

(** [camera.getCameraLink().getName()] *)
Definition camera_link_name (camera : Camera) : M string :=
  l <- ext (CamGetCameraLink camera) ;; ext (LinkGetName l).

(** The [try] block of [_broadcastCamera]. *)
Definition broadcast_active_camera : M unit :=
  camera <- (vp <- the_robot "getActiveCamera" ;;
             ext (SimGetActiveCamera vp)) ;;
  match camera with
  | None => assert_ false
  | Some camera =>
      (f <- ext (CamGetFrame camera) ;; assert_ (not_None f)) ;;
      msg0 <- (v <- getattr "image_bridge" ;;
               b <- as_bridge "cv2_to_imgmsg" v ;;
               f <- ext (CamGetFrame camera) ;; ext (Cv2ToImgmsg b f)) ;;
      name1 <- camera_link_name camera ;;
      name2 <- camera_link_name camera ;;
      w_ <- (r <- ext (CamGetResolution camera) ;; ret (width r)) ;;
      h_ <- (r <- ext (CamGetResolution camera) ;; ret (height r)) ;;
      K <- ext (CamGetCameraIntrinsics camera) ;;
      let P := py_insert 7 0.0%float (py_insert 3 0.0%float K)
               ++ [0.0%float] in
      let camera_info_msg :=
        {| ci_header := {| stamp := stamp Header_new; frame_id := name2 |};
           distortion_model := "plumb_bob";
           ci_width := w_; ci_height := h_;
           ci_D := [0.0; 0.0; 0.0; 0.0; 0.0]%float;
           ci_K := K;
           ci_R := [1; 0; 0; 0; 1; 0; 0; 0; 1]%Z;
           ci_P := P |} in
      let camera_image_msg (enc : string) :=
        {| img_header := {| stamp := stamp (img_header msg0);
                            frame_id := name1 |};
           encoding := enc;
           img_height := img_height msg0; img_width := img_width msg0;
           img_data := img_data msg0 |} in
      id1 <- ext (CamGetCameraId camera) ;;
      if (id1 =? ID_CAMERA_TOP E)%Z then
        publish_on "front_cam_pub" (MsgImage (camera_image_msg "bgr8")) ;;
        publish_on "front_info_pub" (MsgCameraInfo camera_info_msg)
      else
        id2 <- ext (CamGetCameraId camera) ;;
        if (id2 =? ID_CAMERA_BOTTOM E)%Z then
          publish_on "bottom_cam_pub" (MsgImage (camera_image_msg "bgr8")) ;;
          publish_on "bottom_info_pub" (MsgCameraInfo camera_info_msg)
        else
          id3 <- ext (CamGetCameraId camera) ;;
          if (id3 =? ID_CAMERA_DEPTH E)%Z then
            publish_on "depth_cam_pub"
              (MsgImage (camera_image_msg "16UC1")) ;;
            publish_on "depth_info_pub" (MsgCameraInfo camera_info_msg)
          else ret tt
  end.

Definition _broadcastCamera : M unit :=
  try_except broadcast_active_camera is_AssertionError (fun _ => ret tt).

(** [getAnglesPosition] is taken to return a list that nothing else holds:
    [+=] extends that list where it is, and the message carries it. *)
Definition _getJointStateMsg : M JointState :=
  stamp_ <- ext RosGetRostime ;;
  name <- (vp <- the_robot "joint_dict" ;; ext (SimJointDictKeys vp)) ;;
  position_ <- (vp <- the_robot "getAnglesPosition" ;;
                ext (SimGetAnglesPosition vp name)) ;;
  ret {| js_header := {| stamp := stamp_; frame_id := frame_id Header_new |};
         js_name := name ++ ["WheelFL"; "WheelFR"; "WheelB"];
         js_position := map PFloat position_ ++ [PInt 0; PInt 0; PInt 0] |}.

Definition _jointAnglesCallback (msg : JointAnglesWithSpeed) : M unit :=
  let joint_list := joint_names msg in
  let position_list := joint_angles msg in
  let velocity :=
    if negb (length (speeds msg) =? 0) then VelList (speeds msg)
    else VelScalar (speed msg) in
  vp <- the_robot "setAngles" ;;
  ext (SimSetAngles vp joint_list position_list velocity).

Definition _velocityCallback (msg : Twist) : M unit :=
  vp <- the_robot "move" ;;
  ext (SimMove vp (v_x (linear msg)) (v_y (linear msg)) (v_z (angular msg))).

Definition _moveToCallback (msg : PoseStampedWithSpeed) : M unit :=
  let x := v_x (position (pose_stamped_pose msg)) in
  let y := v_y (position (pose_stamped_pose msg)) in
  let theta :=
    (getEulerFromQuaternion E
       (qx (pose_orientation (pose_stamped_pose msg)))
       (qy (pose_orientation (pose_stamped_pose msg)))
       (qz (pose_orientation (pose_stamped_pose msg)))
       (qw (pose_orientation (pose_stamped_pose msg)))).2 in
  let speed_ :=
    (speed_percentage msg * MAX_LINEAR_VELOCITY E
     + MIN_LINEAR_VELOCITY E)%float in
  let frame := referenceFrame msg in
  vp <- the_robot "moveTo" ;;
  ext (SimMoveTo vp (PFloat x) (PFloat y) (PFloat theta)
         (Some frame) (Some speed_) true).

Definition _killMoveCallback (msg : EmptyMsg) : M unit :=
  vp <- the_robot "moveTo" ;;
  ext (SimMoveTo vp (PInt 0) (PInt 0) (PInt 0) None None true).

(** [self.joint_states_pub.publish(self._getJointStateMsg())] *)
Definition publish_joint_states : M unit :=
  v <- getattr "joint_states_pub" ;; p <- as_publisher "publish" v ;;
  m <- _getJointStateMsg ;;
  ext (PubPublish p (MsgJointState m)).

(** The body of the loop of [_spin]. *)
Definition spin_body (rate : Rate) : M unit :=
  ext (RateSleep rate) ;;
  publish_joint_states ;;
  _updateLasers ;;
  _broadcastOdom ;;
  _broadcastCamera.

(** Where the loop stands when the observation ends. *)
Inductive loop_state : Type :=
  | LoopLeft      (* the condition was found false: the loop is over *)
  | LoopRunning.  (* the loop is about to run one more iteration *)

(** [while not self._wrapper_termination: body], observed for as many
    iterations as [sched] is long.  The flag is written by [stopWrapper] on
    another thread; [sched] tells, for each iteration, whether that write
    ([set_termination]) lands during it. *)
Fixpoint spin_while (rate : Rate) (sched : list bool) : M loop_state :=
  flag <- getattr "_wrapper_termination" ;;
  if negb (truthy flag) then
    match sched with
    | [] => ret LoopRunning
    | stop_lands :: sched' =>
        spin_body rate ;;
        (if stop_lands : bool then set_termination else ret tt) ;;
        spin_while rate sched'
    end
  else ret LoopLeft.

(** The [try] statement of [_spin]; the handler ends the method. *)
Definition spin_loop (rate : Rate) (sched : list bool) : M loop_state :=
  try_except (spin_while rate sched) is_Exception
    (fun e => print ("Stopping the ROS wrapper: " ++ str e) ;;
              ret LoopLeft).

Definition _spin (sched : list bool) : M loop_state :=
  rate <- (f <- getattr "frequency" ;; ext (RosRate f)) ;;
  spin_loop rate sched.

End Wrapper.


(** ** What a trace shows *)

(** A call into a collaborator raised. *)
Definition raised (e : event) : bool :=
  match e with
  | Ev _ (Raise _) => true
  | _ => false
  end.

(** No call of the trace raised. *)
Definition clean (tr : list event) : bool :=
  forallb (fun e => negb (raised e)) tr.

(** The messages handed to [publish], with the publisher. *)
Definition published (tr : list event) : list (Publisher * ros_msg) :=
  omap (fun e => match e with
                 | Ev c _ =>
                     match c with
                     | PubPublish p m => Some (p, m)
                     | _ => None
                     end
                 | REv _ _ => None
                 end) tr.

(** The transforms handed to [sendTransform]. *)
Definition transforms (tr : list event) : list TransformStamped :=
  omap (fun e => match e with
                 | Ev c _ =>
                     match c with
                     | TfSendTransform _ m => Some m
                     | _ => None
                     end
                 | REv _ _ => None
                 end) tr.

(** A control call on the simulated robot. *)
Definition is_command (e : event) : bool :=
  match e with
  | Ev c _ =>
      match c with
      | SimSetAngles _ _ _ _ | SimMove _ _ _ _
      | SimMoveTo _ _ _ _ _ _ _ => true
      | _ => false
      end
  | REv _ _ => false
  end.

(** The topics a trace advertises, and the subscriptions it makes. *)
Definition advertised (tr : list event) : list (string * msg_type) :=
  omap (fun e => match e with
                 | Ev c _ =>
                     match c with
                     | RosPublisher topic ty _ => Some (topic, ty)
                     | _ => None
                     end
                 | REv _ _ => None
                 end) tr.

Definition subscribed (tr : list event)
    : list (string * msg_type * method_ref) :=
  omap (fun e => match e with
                 | Ev c _ =>
                     match c with
                     | RosSubscriber topic ty cb => Some (topic, ty, cb)
                     | _ => None
                     end
                 | REv _ _ => None
                 end) tr.

(** The threads joined and the launchers stopped. *)
Definition joins (tr : list event) : list Thread :=
  omap (fun e => match e with
                 | Ev c _ =>
                     match c with ThreadJoin t _ => Some t | _ => None end
                 | REv _ _ => None
                 end) tr.

(** What the flag held at each join. *)
Definition join_flags (tr : list event) : list (option pyval) :=
  omap (fun e => match e with
                 | Ev c _ =>
                     match c with ThreadJoin _ f => Some f | _ => None end
                 | REv _ _ => None
                 end) tr.

Definition launcher_stops (tr : list event) : list Launcher :=
  omap (fun e => match e with
                 | Ev c _ =>
                     match c with LauncherStop l => Some l | _ => None end
                 | REv _ _ => None
                 end) tr.

(** The rates slept on, one entry per [rate.sleep()]. *)
Definition sleeps (tr : list event) : list Rate :=
  omap (fun e => match e with
                 | Ev c _ =>
                     match c with RateSleep r => Some r | _ => None end
                 | REv _ _ => None
                 end) tr.

(** What the simulator answered about the lasers and the camera. *)
Definition laser_active_answers (tr : list event) : list bool :=
  omap (fun e => match e with
                 | Ev c r =>
                     match c in call X return result X -> option bool with
                     | SimLaserIsActive _ =>
                         fun r => match r with Ok b => Some b | _ => None end
                     | _ => fun _ => None
                     end r
                 | REv _ _ => None
                 end) tr.

Definition active_camera_answers (tr : list event) : list (option Camera) :=
  omap (fun e => match e with
                 | Ev c r =>
                     match c in call X
                           return result X -> option (option Camera) with
                     | SimGetActiveCamera _ =>
                         fun r => match r with Ok b => Some b | _ => None end
                     | _ => fun _ => None
                     end r
                 | REv _ _ => None
                 end) tr.

Definition frame_answers (tr : list event) : list (option Frame) :=
  omap (fun e => match e with
                 | Ev c r =>
                     match c in call X
                           return result X -> option (option Frame) with
                     | CamGetFrame _ =>
                         fun r => match r with Ok b => Some b | _ => None end
                     | _ => fun _ => None
                     end r
                 | REv _ _ => None
                 end) tr.

Definition camera_id_answers (tr : list event) : list Z :=
  omap (fun e => match e with
                 | Ev c r =>
                     match c in call X return result X -> option Z with
                     | CamGetCameraId _ =>
                         fun r => match r with Ok b => Some b | _ => None end
                     | _ => fun _ => None
                     end r
                 | REv _ _ => None
                 end) tr.

(** A read of the simulated robot's sensors or pose. *)
Definition is_sensor_read (e : event) : bool :=
  match e with
  | Ev c _ =>
      match c with
      | SimJointDictKeys _ | SimGetAnglesPosition _ _
      | SimLaserIsActive _ | SimGetRightLaserValue _
      | SimGetFrontLaserValue _ | SimGetLeftLaserValue _
      | SimGetPosition _ | SimRobotModel _ | SimGetPhysicsClientId _
      | SimGetActiveCamera _ | CamGetFrame _ | CamGetCameraLink _
      | LinkGetName _ | CamGetResolution _ | CamGetCameraIntrinsics _
      | CamGetCameraId _ | PbGetBaseVelocity _ _ => true
      | _ => false
      end
  | REv _ _ => false
  end.

(** No sensor is read in the trace. *)
Definition sensorless (tr : list event) : bool :=
  forallb (fun e => negb (is_sensor_read e)) tr.

(** What [stopWrapper] may do besides writing the flag: test and join a
    thread, stop a launcher, print. *)
Definition is_shutdown_step (e : event) : bool :=
  match e with
  | Ev c _ =>
      match c with
      | ThreadIsAlive _ | ThreadJoin _ _ | LauncherStop _ => true
      | _ => false
      end
  | REv c _ => match c with Print _ => true | _ => false end
  end.

(** ** The wiring the wrapper is meant to have *)

(** The topics advertised for a namespace, in the order of [launchWrapper]. *)
Definition the_topics (ros_namespace : string) : list (string * msg_type) :=
  [ ((ros_namespace ++ "/camera/front/image_raw")%string, TImage);
    ((ros_namespace ++ "/camera/front/camera_info")%string, TCameraInfo);
    ((ros_namespace ++ "/camera/bottom/image_raw")%string, TImage);
    ((ros_namespace ++ "/camera/bottom/camera_info")%string, TCameraInfo);
    ((ros_namespace ++ "/camera/depth/image_raw")%string, TImage);
    ((ros_namespace ++ "/camera/depth/camera_info")%string, TCameraInfo);
    ((ros_namespace ++ "/laser")%string, TLaserScan);
    ("/joint_states", TJointState);
    ("odom", TOdometry) ].

(** The attribute that holds the publisher of each of them. *)
Definition the_publisher_attrs : list string :=
  [ "front_cam_pub"; "front_info_pub"; "bottom_cam_pub"; "bottom_info_pub";
    "depth_cam_pub"; "depth_info_pub"; "laser_pub"; "joint_states_pub";
    "odom_pub" ].

(** The topics subscribed, with the callback of each. *)
Definition the_subscriptions : list (string * msg_type * method_ref) :=
  [ ("/joint_angles", TJointAnglesWithSpeed, M_jointAnglesCallback);
    ("/cmd_vel", TTwist, M_velocityCallback);
    ("/move_base_simple/goal", TPoseStampedWithSpeed, M_moveToCallback);
    ("/move_base_simple/cancel", TEmpty, M_killMoveCallback) ].


(** An attribute holds the publisher that a trace advertised on a topic. *)
Definition wired (s : Self) (t : list event) (attr : string)
    (topic : string * msg_type) : Prop :=
  exists p, s !! attr = Some (VPublisher p) /\
            Ev (RosPublisher topic.1 topic.2 10) (Ok p) ∈ t.

(** What [launchWrapper], run from instance [s], is meant to leave: only
    the fixed topics, in order; no sensor read; the robot held as soon as a
    subscription is made; and, when it returns, every topic advertised and
    subscribed, each publisher attribute wired to its topic, the bridge and
    the broadcaster untouched. *)
Definition launch_post {World : Type} (vp : Robot) (ns : string) (s : Self)
    : result unit -> Self -> World -> list event -> Prop :=
  fun r s' _ t =>
    advertised t `prefix_of` the_topics ns /\
    subscribed t `prefix_of` the_subscriptions /\
    sensorless t = true /\
    (subscribed t <> [] -> s' !! "virtual_pepper" = Some (VRobot vp)) /\
    (r = Ok tt ->
       advertised t = the_topics ns /\
       subscribed t = the_subscriptions /\
       s' !! "image_bridge" = s !! "image_bridge" /\
       s' !! "transform_broadcaster" = s !! "transform_broadcaster" /\
       Forall2 (wired s' t) the_publisher_attrs (the_topics ns)).

(** The collaborator objects a launched wrapper holds. *)
Record handles : Type :=
  { h_robot : Robot;
    h_bridge : Bridge;
    h_broadcaster : Broadcaster;
    h_front_cam_pub : Publisher; h_front_info_pub : Publisher;
    h_bottom_cam_pub : Publisher; h_bottom_info_pub : Publisher;
    h_depth_cam_pub : Publisher; h_depth_info_pub : Publisher;
    h_laser_pub : Publisher;
    h_joint_states_pub : Publisher;
    h_odom_pub : Publisher }.

(** The instance has the attributes the constructor and [launchWrapper]
    give it, holding the objects [h]. *)
Record launched (s : Self) (h : handles) : Prop :=
  { l_robot : s !! "virtual_pepper" = Some (VRobot (h_robot h));
    l_bridge : s !! "image_bridge" = Some (VBridge (h_bridge h));
    l_broadcaster :
      s !! "transform_broadcaster" = Some (VBroadcaster (h_broadcaster h));
    l_front_cam : s !! "front_cam_pub" = Some (VPublisher (h_front_cam_pub h));
    l_front_info :
      s !! "front_info_pub" = Some (VPublisher (h_front_info_pub h));
    l_bottom_cam :
      s !! "bottom_cam_pub" = Some (VPublisher (h_bottom_cam_pub h));
    l_bottom_info :
      s !! "bottom_info_pub" = Some (VPublisher (h_bottom_info_pub h));
    l_depth_cam : s !! "depth_cam_pub" = Some (VPublisher (h_depth_cam_pub h));
    l_depth_info :
      s !! "depth_info_pub" = Some (VPublisher (h_depth_info_pub h));
    l_laser : s !! "laser_pub" = Some (VPublisher (h_laser_pub h));
    l_joint_states :
      s !! "joint_states_pub" = Some (VPublisher (h_joint_states_pub h));
    l_odom : s !! "odom_pub" = Some (VPublisher (h_odom_pub h)) }.

(** The instance has the attributes the constructor gives it, and
    [roslauncher] is [None] or a launcher. *)
Definition constructed (s : Self) : Prop :=
  is_Some (s !! "spin_thread") /\
  (s !! "roslauncher" = Some VNone \/
   exists l, s !! "roslauncher" = Some (VLauncher l)).

(** ** What an iteration of the loop is meant to publish *)

(** No control call on the simulated robot in the trace. *)
Definition quiet (tr : list event) : bool :=
  forallb (fun e => negb (is_command e)) tr.

Section Published.
Context {World : Type} (E : Env World).

(** The quaternion of a rotation by [theta] about the vertical axis. *)
Definition yaw_quaternion (theta : float) : Quaternion :=
  let '(q0, q1, q2, q3) := getQuaternionFromEuler E 0%float 0%float theta in
  {| qx := q0; qy := q1; qz := q2; qw := q3 |}.

(** The ranges of a scan: the right, front and left readings, each
    reversed, with a blind zone of eight [-1] after the right and the front
    ones; a reading that is not a list contributes nothing. *)
Definition scan_ranges (right_scan front_scan left_scan : laser_value)
    : list pynum :=
  let part (v : laser_value) (blind : list pynum) :=
    match v with
    | LaserList l => map PFloat (reverse l) ++ blind
    | LaserNotList => []
    end in
  part right_scan (replicate 8 (PInt (-1)))
  ++ part front_scan (replicate 8 (PInt (-1)))
  ++ part left_scan [].

(** The payload of a published message was read from the simulated robot
    [vp] by calls of the trace [t]. *)
Definition msg_sourced (vp : Robot) (t : list event) (m : ros_msg) : Prop :=
  match m with
  | MsgJointState j =>
      exists keys pos,
        Ev (SimJointDictKeys vp) (Ok keys) ∈ t /\
        Ev (SimGetAnglesPosition vp keys) (Ok pos) ∈ t /\
        js_name j = keys ++ ["WheelFL"; "WheelFR"; "WheelB"] /\
        js_position j = map PFloat pos ++ [PInt 0; PInt 0; PInt 0]
  | MsgLaserScan l =>
      exists right_scan front_scan left_scan,
        Ev (SimGetRightLaserValue vp) (Ok right_scan) ∈ t /\
        Ev (SimGetFrontLaserValue vp) (Ok front_scan) ∈ t /\
        Ev (SimGetLeftLaserValue vp) (Ok left_scan) ∈ t /\
        ranges l = scan_ranges right_scan front_scan left_scan
  | MsgOdometry o =>
      exists x y theta model client vx vy vz wx wy wz,
        Ev (SimGetPosition vp) (Ok (x, y, theta)) ∈ t /\
        Ev (SimRobotModel vp) (Ok model) ∈ t /\
        Ev (SimGetPhysicsClientId vp) (Ok client) ∈ t /\
        Ev (PbGetBaseVelocity model client)
           (Ok ((vx, vy, vz), (wx, wy, wz))) ∈ t /\
        position_x o = x /\ position_y o = y /\
        orientation o = yaw_quaternion theta /\
        twist_linear_x o = vx /\ twist_linear_y o = vy /\
        twist_angular_z o = wz
  | MsgImage i =>
      exists camera frame bridge converted,
        img_data i = img_data converted /\
        img_height i = img_height converted /\
        img_width i = img_width converted /\
        Ev (Cv2ToImgmsg bridge frame) (Ok converted) ∈ t /\
        Ev (SimGetActiveCamera vp) (Ok (Some camera)) ∈ t /\
        Ev (CamGetFrame camera) (Ok frame) ∈ t
  | MsgCameraInfo ci =>
      exists camera K r1 r2,
        ci_K ci = K /\ ci_width ci = width r1 /\ ci_height ci = height r2 /\
        Ev (SimGetActiveCamera vp) (Ok (Some camera)) ∈ t /\
        Ev (CamGetCameraIntrinsics camera) (Ok K) ∈ t /\
        Ev (CamGetResolution camera) (Ok r1) ∈ t /\
        Ev (CamGetResolution camera) (Ok r2) ∈ t
  end.

(** The same for the transform handed to [sendTransform]. *)
Definition tf_sourced (vp : Robot) (t : list event) (m : TransformStamped)
    : Prop :=
  exists x y theta,
    Ev (SimGetPosition vp) (Ok (x, y, theta)) ∈ t /\
    translation_x m = x /\ translation_y m = y /\
    rotation m = yaw_quaternion theta.

(** Every message and transform the trace sends out was read during the
    trace. *)
Definition all_sourced (vp : Robot) (t : list event) : Prop :=
  (forall p m, (p, m) ∈ published t -> msg_sourced vp t m) /\
  (forall m, m ∈ transforms t -> tf_sourced vp t m).

(** What each statement of the loop body sends out when no call raises. *)
Definition joint_states_delivered (h : handles) (t : list event) : Prop :=
  exists j, published t = [(h_joint_states_pub h, MsgJointState j)].

Definition lasers_delivered (h : handles) (t : list event) : Prop :=
  exists active,
    laser_active_answers t = [active] /\
    if active : bool
    then exists l, published t = [(h_laser_pub h, MsgLaserScan l)]
    else published t = [].

Definition odom_delivered (h : handles) (t : list event) : Prop :=
  exists tf o,
    transforms t = [tf] /\
    frame_id (ts_header tf) = "odom" /\ ts_child_frame_id tf = "base_link" /\
    published t = [(h_odom_pub h, MsgOdometry o)] /\
    frame_id (od_header o) = "odom" /\ od_child_frame_id o = "base_link".

Definition camera_delivered (h : handles) (t : list event) : Prop :=
  forall camera frame id,
    Some camera ∈ active_camera_answers t ->
    Some frame ∈ frame_answers t ->
    (forall id', id' ∈ camera_id_answers t -> id' = id) ->
    id ∈ [ID_CAMERA_TOP E; ID_CAMERA_BOTTOM E; ID_CAMERA_DEPTH E] ->
    exists image_pub info_pub image info,
      published t = [(image_pub, MsgImage image);
                     (info_pub, MsgCameraInfo info)] /\
      (image_pub, info_pub, encoding image) ∈
        [ (h_front_cam_pub h, h_front_info_pub h, "bgr8");
          (h_bottom_cam_pub h, h_bottom_info_pub h, "bgr8");
          (h_depth_cam_pub h, h_depth_info_pub h, "16UC1") ].

(** What one iteration sends out when no call raises: it sleeps, then
    publishes the joint states, the lasers, the odometry and the camera. *)
Definition iteration_delivered (h : handles) (rate : Rate) (t : list event)
    : Prop :=
  exists t_js t_lasers t_odom t_camera,
    t = Ev (RateSleep rate) (Ok tt)
          :: t_js ++ t_lasers ++ t_odom ++ t_camera /\
    joint_states_delivered h t_js /\
    lasers_delivered h t_lasers /\
    odom_delivered h t_odom /\
    camera_delivered h t_camera.

(** The trace of [n] iterations in a row that all deliver. *)
Definition iterations (h : handles) (rate : Rate) (n : nat) (t : list event)
    : Prop :=
  exists ts, length ts = n /\ t = concat ts /\
             Forall (iteration_delivered h rate) ts.

(** What is asked of a statement of the loop body run from instance [s]:
    it leaves the instance alone, makes no control call, sends out only what
    it read, and, when no call raises, returns and delivers. *)
Definition iteration_post (h : handles) (s : Self)
    (delivered : list event -> Prop)
    : result unit -> Self -> World -> list event -> Prop :=
  fun r s' _ t =>
    s' = s /\ quiet t = true /\ all_sourced (h_robot h) t /\
    (clean t = true -> r = Ok tt /\ delivered t).

End Published.

(** ** The values the callbacks hand to the simulator *)

Section Forwarded.
Context {World : Type} (E : Env World).

(** The velocity the joint-angles callback hands over, as the two cases
    of the message: a list of speeds if there is one, else the speed. *)
Definition velocity_of (msg : JointAnglesWithSpeed) : velocity_arg :=
  match speeds msg with
  | [] => VelScalar (speed msg)
  | _ :: _ => VelList (speeds msg)
  end.

(** The yaw of the goal pose and the speed of the move, as the callback
    computes them. *)
Definition goal_theta (msg : PoseStampedWithSpeed) : float :=
  (getEulerFromQuaternion E
     (qx (pose_orientation (pose_stamped_pose msg)))
     (qy (pose_orientation (pose_stamped_pose msg)))
     (qz (pose_orientation (pose_stamped_pose msg)))
     (qw (pose_orientation (pose_stamped_pose msg)))).2.

Definition goal_speed (msg : PoseStampedWithSpeed) : float :=
  (speed_percentage msg * MAX_LINEAR_VELOCITY E
   + MIN_LINEAR_VELOCITY E)%float.

End Forwarded.

(** ** A scripted environment, for running the methods on examples *)

Module Script.

(** The world is the number of calls made so far. *)
Definition World := nat.

Definition a_frame : Frame :=
  {| frame_shape := [1; 2; 3]%Z; frame_data := [10; 20; 30; 40; 50; 60]%Z |}.

Definition an_image : Image :=
  {| img_header := Header_new; encoding := "";
     img_height := 1; img_width := 2;
     img_data := [10; 20; 30; 40; 50; 60]%Z |}.

(** What each call answers when it does not raise; [cam_id] is the id the
    active camera reports and [w] the call's rank. *)
Definition answer (cam_id : Z) (alive : bool) {X} (c : call X) (w : World)
    : X :=
  match c in call X return X with
  | SimJointDictKeys _ => ["HeadYaw"; "HeadPitch"]
  | SimGetAnglesPosition _ names => map (fun _ => 0.5%float) names
  | SimLaserIsActive _ => true
  | SimGetRightLaserValue _ => LaserList [1.0; 1.5]%float
  | SimGetFrontLaserValue _ => LaserList [2.0; 2.5]%float
  | SimGetLeftLaserValue _ => LaserNotList
  | SimGetPosition _ => (1.0, 2.0, 0.5)%float
  | SimRobotModel _ => 1%Z
  | SimGetPhysicsClientId _ => 0%Z
  | SimGetActiveCamera _ => Some 7
  | SimSetAngles _ _ _ _ => tt
  | SimMove _ _ _ _ => tt
  | SimMoveTo _ _ _ _ _ _ _ => tt
  | CamGetFrame _ => Some a_frame
  | CamGetCameraLink _ => 3
  | LinkGetName _ => TOP_OPTICAL_FRAME
  | CamGetResolution _ => {| width := 2; height := 1 |}
  | CamGetCameraIntrinsics _ =>
      [1.0; 0.0; 1.0; 0.0; 1.0; 0.5; 0.0; 0.0; 1.0]%float
  | CamGetCameraId _ => cam_id
  | PbGetBaseVelocity _ _ => ((0.1, 0.2, 0.0), (0.0, 0.0, 0.3))%float
  | RosInitNode _ _ _ => tt
  | RosPublisher _ _ _ => w
  | RosSubscriber _ _ _ => tt
  | RosGetRostime => {| secs := Z.of_nat w; nsecs := 0 |}
  | RosRate _ => w
  | RateSleep _ => tt
  | PubPublish _ _ => tt
  | RosSetParam _ _ => tt
  | TfTransformBroadcaster => w
  | TfSendTransform _ _ => tt
  | CvBridgeNew => w
  | Cv2ToImgmsg _ _ => an_image
  | RoslibGetPkgDir _ => "/opt/ros/share/naoqi_driver"
  | RosLaunchNew => w
  | LauncherStart _ => tt
  | LauncherLaunch _ _ => tt
  | LauncherStop _ => tt
  | FileOpen _ _ => w
  | FileRead _ => "<robot name=pepper/>"
  | FileClose _ => tt
  | ThreadIsAlive _ => alive
  | ThreadJoin _ _ => tt
  end.

Definition rt_answer {X} (c : rcall X) (w : World) : X :=
  match c in rcall X return X with
  | ThreadNew _ => w
  | ThreadStart _ _ => tt
  | AtexitRegister _ => tt
  | Print _ => tt
  end.

(** [faults n = Some e]: the call of rank [n] raises [e]. *)
Definition scripted (missing : option string) (cam_id : Z) (alive : bool)
    (faults : nat -> option exn) : Env World :=
  {| env := fun X c w =>
       (match faults w with
        | Some e => Raise e
        | None => Ok (answer cam_id alive c w)
        end, S w);
     rt_env := fun X c w => (rt_answer c w, S w);
     MISSING_IMPORT := missing;
     class_name := "PepperRosWrapper";
     MAX_LINEAR_VELOCITY := 0.55%float;
     MIN_LINEAR_VELOCITY := 0.1%float;
     ID_CAMERA_TOP := 0;
     ID_CAMERA_BOTTOM := 1;
     ID_CAMERA_DEPTH := 2;
     (* stand-ins for pybullet's conversions: a rotation about z only *)
     getEulerFromQuaternion := fun x y z w => (x, y, z);
     getQuaternionFromEuler := fun r p y => (r, p, y, 1.0%float) |}.

Definition no_fault : nat -> option exn := fun _ => None.

(** Every call answers. *)
Definition nominal : Env World := scripted None 0 true no_fault.

(** ROS shuts down when the call of rank [n] is made. *)
Definition shutdown_at (n : nat) : Env World :=
  scripted None 0 true
    (fun w => if w =? n
              then Some (Exn ROSInterruptException "ROS shutdown request")
              else None).


(** The ROS stack could not be imported. *)
Definition no_ros : Env World :=
  scripted (Some "No module named rospy") 0 true no_fault.

(** The instance after the constructor, and after [launchWrapper] too, in
    the nominal environment. *)
Definition constructed_self : Self :=
  self_of (PepperRosWrapper__init__ nominal ∅ 0).

Definition launched_self : Self :=
  self_of (launchWrapper nominal 5 "/pepper" default_frequency
             constructed_self 3).

Definition launched_handles : handles :=
  {| h_robot := 5; h_bridge := 0; h_broadcaster := 1;
     h_front_cam_pub := 4; h_front_info_pub := 5;
     h_bottom_cam_pub := 6; h_bottom_info_pub := 7;
     h_depth_cam_pub := 8; h_depth_info_pub := 9;
     h_laser_pub := 10; h_joint_states_pub := 11; h_odom_pub := 12 |}.

Definition a_twist : Twist :=
  {| linear := {| v_x := 0.2; v_y := 0.0; v_z := 0.0 |};
     angular := {| v_x := 0.0; v_y := 0.0; v_z := 0.5 |} |}%float.

Definition some_joint_angles : JointAnglesWithSpeed :=
  {| joint_names := ["HeadYaw"; "HeadPitch"];
     joint_angles := [0.1; 0.2]%float;
     speed := 0.5%float; speeds := [] |}.

End Script.

(** ** Postconditions on a run *)

(** [wp m Q s w]: running [m] on instance [s] in world [w] gives a result,
    an instance, a world and a trace that satisfy [Q]. *)
Definition wp {World A} (m : M World A)
    (Q : result A -> Self -> World -> list event -> Prop)
    (s : Self) (w : World) : Prop :=
  Q (res (m s w)) (self_of (m s w)) (world_of (m s w)) (trace (m s w)).

Global Arguments wp : simpl never.

(** ** What a trace shows of threads, launchers, files and hooks *)

(** The threads made, with their target, and the threads started. *)
Definition threads_created (tr : list event) : list (method_ref * Thread) :=
  omap (fun e => match e with
                 | REv c x =>
                     match c in rcall X return X -> option (method_ref * Thread)
                     with
                     | ThreadNew target => fun t => Some (target, t)
                     | _ => fun _ => None
                     end x
                 | Ev _ _ => None
                 end) tr.

Definition threads_started (tr : list event) : list Thread :=
  omap (fun e => match e with
                 | REv c _ =>
                     match c with ThreadStart t _ => Some t | _ => None end
                 | Ev _ _ => None
                 end) tr.

(** The launchers [roslaunch.scriptapi.ROSLaunch()] handed back. *)
Definition launchers_created (tr : list event) : list Launcher :=
  omap (fun e => match e with
                 | Ev c r =>
                     match c in call X return result X -> option Launcher with
                     | RosLaunchNew =>
                         fun r => match r with Ok l => Some l | _ => None end
                     | _ => fun _ => None
                     end r
                 | REv _ _ => None
                 end) tr.

(** The files [open] handed back, and the files closed. *)
Definition files_opened (tr : list event) : list File :=
  omap (fun e => match e with
                 | Ev c r =>
                     match c in call X return result X -> option File with
                     | FileOpen _ _ =>
                         fun r => match r with Ok f => Some f | _ => None end
                     | _ => fun _ => None
                     end r
                 | REv _ _ => None
                 end) tr.

Definition files_closed (tr : list event) : list File :=
  omap (fun e => match e with
                 | Ev c _ =>
                     match c with FileClose f => Some f | _ => None end
                 | REv _ _ => None
                 end) tr.

(** The methods registered with [atexit], and the lines printed. *)
Definition exit_hooks (tr : list event) : list method_ref :=
  omap (fun e => match e with
                 | REv c _ =>
                     match c with AtexitRegister m => Some m | _ => None end
                 | Ev _ _ => None
                 end) tr.

Definition printed (tr : list event) : list string :=
  omap (fun e => match e with
                 | REv c _ =>
                     match c with Print s => Some s | _ => None end
                 | Ev _ _ => None
                 end) tr.

(** The message class of a message handed to [publish]. *)
Definition msg_type_of (m : ros_msg) : msg_type :=
  match m with
  | MsgJointState _ => TJointState
  | MsgLaserScan _ => TLaserScan
  | MsgOdometry _ => TOdometry
  | MsgImage _ => TImage
  | MsgCameraInfo _ => TCameraInfo
  end.

(** ** What [launchWrapper] is meant to leave of the spin thread *)

(** Either no thread was made, and then a call raised (or the import had
    failed); or every call returned, and the trace ends with the launcher
    made, started and asked for the node, then the one thread made, with
    target [_spin], and started, the flag being unset by then. *)
Definition thread_post {World : Type} (E : Env World) (ns : string) (s : Self)
    : result unit -> Self -> World -> list event -> Prop :=
  fun r s' _ t =>
    (threads_created t = [] /\ threads_started t = [] /\
     s' !! "spin_thread" = s !! "spin_thread" /\
     (clean t = true -> MISSING_IMPORT E <> None)) \/
    (exists l th t0,
        r = Ok tt /\ clean t = true /\
        t = t0 ++ [ Ev RosLaunchNew (Ok l);
                    Ev (LauncherStart l) (Ok tt);
                    Ev (LauncherLaunch l robot_state_publisher) (Ok tt);
                    REv (ThreadNew M_spin) th;
                    REv (ThreadStart th (Some (VBool false))) tt ] /\
        threads_created t = [(M_spin, th)] /\ threads_started t = [th] /\
        s' !! "spin_thread" = Some (VThread th) /\
        s' !! "roslauncher" = Some (VLauncher l) /\
        s' !! "_wrapper_termination" = Some (VBool false) /\
        advertised t = the_topics ns /\
        subscribed t = the_subscriptions).

(** When [launchWrapper] returns without having started a thread, an
    [IOError] was raised by a call, it was printed last, and the topics are
    advertised and subscribed all the same. *)
Definition unstarted_post {World : Type} (ns : string) (s : Self)
    : result unit -> Self -> World -> list event -> Prop :=
  fun r s' _ t =>
    r = Ok tt -> threads_started t = [] ->
    exists e,
      let line := ("Could not retrieve robot descrition: " ++ str e)%string in
      printed t = [line] /\
      last t = Some (REv (Print line) tt) /\
      is_IOError e = true /\
      (exists X (c : call X), Ev c (Raise e) ∈ t) /\
      advertised t = the_topics ns /\
      subscribed t = the_subscriptions /\
      s' !! "spin_thread" = s !! "spin_thread" /\
      s' !! "_wrapper_termination" = s !! "_wrapper_termination".

(** The parameters handed to [rospy.set_param]. *)
Definition params_set (tr : list event) : list (string * string) :=
  omap (fun e => match e with
                 | Ev c _ =>
                     match c with
                     | RosSetParam name value => Some (name, value)
                     | _ => None
                     end
                 | REv _ _ => None
                 end) tr.

(** What [launchWrapper] is meant to do with the robot description: the
    file it opens it closes, and the one parameter it sets is the text read
    from the URDF of the [naoqi_driver] package. *)
Definition description_post {World : Type}
    : result unit -> Self -> World -> list event -> Prop :=
  fun _ _ _ t =>
    files_closed t = files_opened t /\
    length (files_opened t) <= 1 /\
    forall name value, (name, value) ∈ params_set t ->
      name = "/robot_description" /\
      exists dir fh,
        Ev (RoslibGetPkgDir "naoqi_driver") (Ok dir) ∈ t /\
        Ev (FileOpen (dir ++ "/share/urdf/pepper.urdf") "r") (Ok fh) ∈ t /\
        Ev (FileRead fh) (Ok value) ∈ t.

(** What [launchWrapper] is meant to leave in [roslauncher]: the launcher
    it made, if it made one. *)
Definition launcher_post {World : Type} (s : Self)
    : result unit -> Self -> World -> list event -> Prop :=
  fun _ s' _ t =>
    s' !! "roslauncher" =
      match launchers_created t with
      | [] => s !! "roslauncher"
      | l :: _ => Some (VLauncher l)
      end /\
    length (launchers_created t) <= 1.

(** ** What the constructor is meant to leave *)

(** The attributes the constructor assigns. *)
Definition init_attrs : list string :=
  [ "spin_thread"; "_wrapper_termination"; "image_bridge"; "front_info_msg";
    "bottom_info_msg"; "depth_info_msg"; "roslauncher";
    "transform_broadcaster" ].

(** The exit hook is registered exactly when the constructor returns, and
    last; the constructor makes no thread and touches no topic; when it
    returns, the instance holds the bridge and the broadcaster it made, no
    thread, no launcher, an unset flag and three empty dictionaries, and its
    other attributes are as before. *)
Definition init_post {World : Type} (s : Self)
    : result unit -> Self -> World -> list event -> Prop :=
  fun r s' _ t =>
    exit_hooks t = match r with Ok _ => [M_stopWrapper] | Raise _ => [] end /\
    threads_created t = [] /\ advertised t = [] /\ subscribed t = [] /\
    (r = Ok tt ->
     exists b tb,
       Ev CvBridgeNew (Ok b) ∈ t /\
       Ev TfTransformBroadcaster (Ok tb) ∈ t /\
       last t = Some (REv (AtexitRegister M_stopWrapper) tt) /\
       s' !! "spin_thread" = Some VNone /\
       s' !! "_wrapper_termination" = Some (VBool false) /\
       s' !! "image_bridge" = Some (VBridge b) /\
       s' !! "front_info_msg" = Some (VDict []) /\
       s' !! "bottom_info_msg" = Some (VDict []) /\
       s' !! "depth_info_msg" = Some (VDict []) /\
       s' !! "roslauncher" = Some VNone /\
       s' !! "transform_broadcaster" = Some (VBroadcaster tb) /\
       forall k, k ∉ init_attrs -> s' !! k = s !! k).

(** ** What a callback is meant to do on any instance *)

(** The run [o] of a callback from instance [s] and world [w], the
    callback being the one that calls the robot's [method]: it leaves the
    instance alone, publishes nothing, sends no transform and reads no
    sensor; its trace is at most one control call.  On an instance that
    holds a robot, the trace is one call and the callback returns what that
    call returns.  On an instance without the attribute [virtual_pepper] it
    raises the [AttributeError] of the instance, and on one that holds
    something else than a robot the [AttributeError] of that object for
    [method], in both cases with an empty trace. *)
Definition command_only {World : Type} (E : Env World) (method : string)
    (s : Self) (w : World) (o : Out World unit) : Prop :=
  self_of o = s /\
  published (trace o) = [] /\ transforms (trace o) = [] /\
  sensorless (trace o) = true /\
  length (trace o) <= 1 /\ forallb is_command (trace o) = true /\
  match s !! "virtual_pepper" with
  | Some (VRobot vp) =>
      exists c : call unit,
        env E c w = (res o, world_of o) /\ trace o = [Ev c (res o)]
  | Some v =>
      o = mkOut (Raise (Exn AttributeError (no_attribute (type_name v) method)))
            s w []
  | None =>
      o = mkOut (Raise (Exn AttributeError
                          (no_attribute (class_name E) "virtual_pepper")))
            s w []
  end.

(** ** The layout of the laser scan *)

(** The eight [-1] the scan puts after the right and the front readings. *)
Definition blind_zone : list pynum := replicate 8 (PInt (-1)).

(** Every message [_updateLasers] publishes from instance [s] goes to the
    publisher in [laser_pub] and is a LaserScan, stamped with a time read
    during the call, whose ranges are made of the three readings. *)
Definition laser_post {World : Type} (s : Self)
    : result unit -> Self -> World -> list event -> Prop :=
  fun _ _ _ t =>
    forall p m, (p, m) ∈ published t ->
      s !! "laser_pub" = Some (VPublisher p) /\
      exists vp l right_scan front_scan left_scan,
        m = MsgLaserScan l /\
        s !! "virtual_pepper" = Some (VRobot vp) /\
        Ev (SimLaserIsActive vp) (Ok true) ∈ t /\
        Ev RosGetRostime (Ok (stamp (ls_header l))) ∈ t /\
        Ev (SimGetRightLaserValue vp) (Ok right_scan) ∈ t /\
        Ev (SimGetFrontLaserValue vp) (Ok front_scan) ∈ t /\
        Ev (SimGetLeftLaserValue vp) (Ok left_scan) ∈ t /\
        frame_id (ls_header l) = "base_footprint" /\
        angle_min l = (-2.0944)%float /\ angle_max l = 2.0944%float /\
        range_min l = 0.1%float /\ range_max l = 3.0%float /\
        angle_increment l = ((angle_max l - angle_min l) / 61)%float /\
        ranges l = scan_ranges right_scan front_scan left_scan.

(** ** The layout of the camera information and of the odometry *)

(** Every CameraInfo [_broadcastCamera] publishes from instance [s] is that
    of the active camera: its frame is the name of the camera's link, its
    stamp is never set, [K] is the camera's intrinsics and [P] is [K] with
    [0.0] put in at places 3 and 7 and at the end. *)
Definition camera_info_post {World : Type} (s : Self)
    : result unit -> Self -> World -> list event -> Prop :=
  fun _ _ _ t =>
    forall p ci, (p, MsgCameraInfo ci) ∈ published t ->
      exists vp camera link K,
        s !! "virtual_pepper" = Some (VRobot vp) /\
        Ev (SimGetActiveCamera vp) (Ok (Some camera)) ∈ t /\
        Ev (LinkGetName link) (Ok (frame_id (ci_header ci))) ∈ t /\
        Ev (CamGetCameraLink camera) (Ok link) ∈ t /\
        Ev (CamGetCameraIntrinsics camera) (Ok K) ∈ t /\
        stamp (ci_header ci) = {| secs := 0; nsecs := 0 |} /\
        distortion_model ci = "plumb_bob" /\
        ci_D ci = [0.0; 0.0; 0.0; 0.0; 0.0]%float /\
        ci_K ci = K /\
        ci_R ci = [1; 0; 0; 0; 1; 0; 0; 0; 1]%Z /\
        ci_P ci = py_insert 7 0.0%float (py_insert 3 0.0%float K)
                  ++ [0.0%float].

(** [_broadcastOdom] sends at most one transform, odom -> base_link, flat
    on the ground; every message it publishes from instance [s] goes to the
    publisher in [odom_pub] and is an Odometry that follows a transform
    sent with success, with the same position, orientation and frames. *)
Definition odom_post {World : Type} (s : Self)
    : result unit -> Self -> World -> list event -> Prop :=
  fun _ _ _ t =>
    length (transforms t) <= 1 /\
    (forall tf, tf ∈ transforms t ->
       frame_id (ts_header tf) = "odom" /\
       ts_child_frame_id tf = "base_link" /\
       translation_z tf = PInt 0 /\
       Ev RosGetRostime (Ok (stamp (ts_header tf))) ∈ t) /\
    (forall p m, (p, m) ∈ published t ->
       s !! "odom_pub" = Some (VPublisher p) /\
       exists od tf tb,
         m = MsgOdometry od /\
         Ev (TfSendTransform tb tf) (Ok tt) ∈ t /\
         s !! "transform_broadcaster" = Some (VBroadcaster tb) /\
         position_x od = translation_x tf /\
         position_y od = translation_y tf /\
         position_z od = 0.0%float /\
         orientation od = rotation tf /\
         frame_id (od_header od) = frame_id (ts_header tf) /\
         od_child_frame_id od = ts_child_frame_id tf /\
         Ev RosGetRostime (Ok (stamp (od_header od))) ∈ t).

(** ** Where the messages of an iteration go *)

(** The attributes whose publisher a message may be handed to: by its
    class and, for an image, its encoding. *)
Definition publisher_attrs (m : ros_msg) : list string :=
  match m with
  | MsgJointState _ => ["joint_states_pub"]
  | MsgLaserScan _ => ["laser_pub"]
  | MsgOdometry _ => ["odom_pub"]
  | MsgImage i =>
      if String.eqb (encoding i) "16UC1" then ["depth_cam_pub"]
      else ["front_cam_pub"; "bottom_cam_pub"]
  | MsgCameraInfo _ => ["front_info_pub"; "bottom_info_pub"; "depth_info_pub"]
  end.

(** [p] is the publisher held in one of the attributes for [m]. *)
Definition routed (s : Self) (p : Publisher) (m : ros_msg) : Prop :=
  exists attr, attr ∈ publisher_attrs m /\ s !! attr = Some (VPublisher p).

(** The classes of the messages of one iteration, in the order of the loop
    body. *)
Definition the_round : list msg_type :=
  [TJointState; TLaserScan; TOdometry; TImage; TCameraInfo].

(** The classes of the messages a trace publishes, in order. *)
Definition published_types (tr : list event) : list msg_type :=
  map (fun pm => msg_type_of pm.2) (published tr).

(** What a statement of the loop body does on any instance [s]: it leaves
    the instance alone, does not sleep, and hands each message to a
    publisher for it, the classes being a part of [kinds], in order. *)
Definition part_post {World : Type} (s : Self) (kinds : list msg_type)
    : result unit -> Self -> World -> list event -> Prop :=
  fun _ s' _ t =>
    s' = s /\ sleeps t = [] /\
    (forall p m, (p, m) ∈ published t -> routed s p m) /\
    published_types t `sublist_of` kinds.

(** The same for the whole body, which sleeps once, on its rate. *)
Definition body_post {World : Type} (s : Self) (rate : Rate)
    : result unit -> Self -> World -> list event -> Prop :=
  fun _ s' _ t =>
    s' = s /\ sleeps t = [rate] /\
    (forall p m, (p, m) ∈ published t -> routed s p m) /\
    published_types t `sublist_of` the_round.

(** And for the loop: as many rounds as it slept, at most one sleep per
    iteration observed; only the flag may have changed. *)
Definition loop_post {World : Type} (s : Self) (rate : Rate) (n : nat)
    : result loop_state -> Self -> World -> list event -> Prop :=
  fun _ s' _ t =>
    (forall k, k <> "_wrapper_termination" -> s' !! k = s !! k) /\
    (exists k, k <= n /\ sleeps t = replicate k rate) /\
    (forall p m, (p, m) ∈ published t -> routed s p m) /\
    published_types t
      `sublist_of` concat (replicate (length (sleeps t)) the_round).

(** What [_spin] does on any instance [s], observed for [n] iterations:
    every sleep is on the rate [rospy.Rate] made from the frequency, there
    is at most one sleep per iteration and one round of messages per sleep,
    each message goes to a publisher for it, and only the flag may have
    changed. *)
Definition spin_post {World : Type} (s : Self) (n : nat)
    : result loop_state -> Self -> World -> list event -> Prop :=
  fun _ s' _ t =>
    (forall k, k <> "_wrapper_termination" -> s' !! k = s !! k) /\
    length (sleeps t) <= n /\
    (forall r, r ∈ sleeps t ->
       exists f, s !! "frequency" = Some f /\ Ev (RosRate f) (Ok r) ∈ t) /\
    (forall p m, (p, m) ∈ published t -> routed s p m) /\
    published_types t
      `sublist_of` concat (replicate (length (sleeps t)) the_round).

(** The topics a message may go out on under a namespace: by its class
    and, for an image, its encoding. *)
Definition topics_for (ns : string) (m : ros_msg) : list string :=
  match m with
  | MsgJointState _ => ["/joint_states"]
  | MsgLaserScan _ => [(ns ++ "/laser")%string]
  | MsgOdometry _ => ["odom"]
  | MsgImage i =>
      if String.eqb (encoding i) "16UC1"
      then [(ns ++ "/camera/depth/image_raw")%string]
      else [(ns ++ "/camera/front/image_raw")%string;
            (ns ++ "/camera/bottom/image_raw")%string]
  | MsgCameraInfo _ =>
      [(ns ++ "/camera/front/camera_info")%string;
       (ns ++ "/camera/bottom/camera_info")%string;
       (ns ++ "/camera/depth/camera_info")%string]
  end.

(** ** More scripted environments *)

Module Faults.

(** The URDF cannot be opened: [open], the call of rank 18 of a launch
    that starts in world 3, raises. *)
Definition no_urdf : Env Script.World :=
  Script.scripted None 0 true
    (fun w => if w =? 18
              then Some (Exn IOError "No such file or directory")
              else None).

(** The nominal answers, but for what the laser manager, the robot and
    the camera say of the lasers, the active camera and its frame. *)
Definition sensor_answer (active : bool) (camera : option Camera)
    (frame : option Frame) {X} (c : call X) (w : Script.World) : X :=
  match c in call X return X -> X with
  | SimLaserIsActive _ => fun _ => active
  | SimGetActiveCamera _ => fun _ => camera
  | CamGetFrame _ => fun _ => frame
  | _ => fun nominal => nominal
  end (Script.answer 0 true c w).

Definition sensors (active : bool) (camera : option Camera)
    (frame : option Frame) : Env Script.World :=
  {| env := fun X c w => (Ok (sensor_answer active camera frame c w), S w);
     rt_env := fun X c w => rt_env Script.nominal c w;
     MISSING_IMPORT := None;
     class_name := class_name Script.nominal;
     MAX_LINEAR_VELOCITY := MAX_LINEAR_VELOCITY Script.nominal;
     MIN_LINEAR_VELOCITY := MIN_LINEAR_VELOCITY Script.nominal;
     ID_CAMERA_TOP := ID_CAMERA_TOP Script.nominal;
     ID_CAMERA_BOTTOM := ID_CAMERA_BOTTOM Script.nominal;
     ID_CAMERA_DEPTH := ID_CAMERA_DEPTH Script.nominal;
     getEulerFromQuaternion := getEulerFromQuaternion Script.nominal;
     getQuaternionFromEuler := getQuaternionFromEuler Script.nominal |}.

End Faults.

(** ** The layout of the camera image *)

(** The attribute an image goes out through, its encoding and the camera
    id that selects them, for Pepper's three cameras. *)
Definition image_routes {World : Type} (E : Env World)
    : list (string * string * Z) :=
  [ ("front_cam_pub", "bgr8", ID_CAMERA_TOP E);
    ("bottom_cam_pub", "bgr8", ID_CAMERA_BOTTOM E);
    ("depth_cam_pub", "16UC1", ID_CAMERA_DEPTH E) ].

(** Every Image [_broadcastCamera] publishes from instance [s] is what the
    bridge made of a frame of the active camera, with the frame set to the
    name of the camera's link and the encoding, like the publisher, chosen
    by the id the camera reported. *)
Definition camera_image_post {World : Type} (E : Env World) (s : Self)
    : result unit -> Self -> World -> list event -> Prop :=
  fun _ _ _ t =>
    forall p i, (p, MsgImage i) ∈ published t ->
      exists attr id vp camera link bridge frame converted,
        s !! attr = Some (VPublisher p) /\
        (attr, encoding i, id) ∈ image_routes E /\
        Ev (CamGetCameraId camera) (Ok id) ∈ t /\
        s !! "virtual_pepper" = Some (VRobot vp) /\
        Ev (SimGetActiveCamera vp) (Ok (Some camera)) ∈ t /\
        s !! "image_bridge" = Some (VBridge bridge) /\
        stamp (img_header i) = stamp (img_header converted) /\
        img_height i = img_height converted /\
        img_width i = img_width converted /\
        img_data i = img_data converted /\
        Ev (Cv2ToImgmsg bridge frame) (Ok converted) ∈ t /\
        Ev (CamGetFrame camera) (Ok frame) ∈ t /\
        Ev (LinkGetName link) (Ok (frame_id (img_header i))) ∈ t /\
        Ev (CamGetCameraLink camera) (Ok link) ∈ t.

(** ** What [stopWrapper] is meant to do *)

(** The error a thread call raised that the handler of [stopWrapper] does
    not name, if there is one: the first raised by [isAlive] or [join]
    that is no [AssertionError]. *)
Definition thread_error (tr : list event) : option exn :=
  head (omap (fun ev =>
                match ev with
                | Ev c r =>
                    match c in call X return result X -> option exn with
                    | ThreadIsAlive _ =>
                        fun r => match r with
                                 | Raise e =>
                                     if is_AssertionError e then None
                                     else Some e
                                 | Ok _ => None
                                 end
                    | ThreadJoin _ _ =>
                        fun r => match r with
                                 | Raise e =>
                                     if is_AssertionError e then None
                                     else Some e
                                 | Ok _ => None
                                 end
                    | _ => fun _ => None
                    end r
                | REv _ _ => None
                end) tr).

(** On a constructed instance [s], from world [w]: the flag is set and
    nothing else of the instance changes; a join finds the flag set; the
    thread in [spin_thread] is joined exactly when it answers that it is
    alive; the launcher in [roslauncher] is stopped unless a thread call
    raised an error that is no [AssertionError], which then is the result;
    the join comes before the stop, and nothing else is called. *)
Definition stop_post {World : Type} (E : Env World) (s : Self) (w : World)
    : result unit -> Self -> World -> list event -> Prop :=
  fun r s' _ t =>
    s' = <["_wrapper_termination" := VBool true]> s /\
    Forall (fun flag => flag = Some (VBool true)) (join_flags t) /\
    joins t =
      match s !! "spin_thread" with
      | Some (VThread th) =>
          match (env E (ThreadIsAlive th) w).1 with
          | Ok true => [th]
          | _ => []
          end
      | _ => []
      end /\
    launcher_stops t =
      match thread_error t, s !! "roslauncher" with
      | None, Some (VLauncher l) => [l]
      | _, _ => []
      end /\
    forallb is_shutdown_step t = true /\
    (exists t1 t2, t = t1 ++ t2 /\ launcher_stops t1 = [] /\ joins t2 = []) /\
    (forall e, thread_error t = Some e -> r = Raise e) /\
    (forall e, r = Raise e ->
       thread_error t = Some e \/
       exists l, Ev (LauncherStop l) (Raise e) ∈ t).

(** ** Where errors are caught *)

(** The places calls are made from, by the [try] statements around them:
    none; the thread check of [stopWrapper]; the set-up block of
    [launchWrapper]; the loop of [_spin]; the [try] of [_broadcastCamera],
    which is inside that loop. *)
Inductive site : Type :=
  | Unguarded
  | ThreadCheck
  | SetUp
  | Loop
  | CameraTry.

(** Where each call is made from. *)
Definition site_of {X} (c : call X) : site :=
  match c with
  (* the constructor *)
  | CvBridgeNew | TfTransformBroadcaster => Unguarded
  (* [launchWrapper] before its [try] *)
  | RosInitNode _ _ _ | RosPublisher _ _ _ | RosSubscriber _ _ _ => Unguarded
  (* [launchWrapper] in its [try] *)
  | RoslibGetPkgDir _ | FileOpen _ _ | FileRead _ | FileClose _
  | RosSetParam _ _ | RosLaunchNew | LauncherStart _ | LauncherLaunch _ _ =>
      SetUp
  (* [stopWrapper] *)
  | ThreadIsAlive _ | ThreadJoin _ _ => ThreadCheck
  | LauncherStop _ => Unguarded
  (* the callbacks *)
  | SimSetAngles _ _ _ _ | SimMove _ _ _ _ | SimMoveTo _ _ _ _ _ _ _ =>
      Unguarded
  (* [_spin] before its [try] *)
  | RosRate _ => Unguarded
  (* [_broadcastCamera] *)
  | SimGetActiveCamera _ | CamGetFrame _ | Cv2ToImgmsg _ _
  | CamGetCameraLink _ | LinkGetName _ | CamGetResolution _
  | CamGetCameraIntrinsics _ | CamGetCameraId _ => CameraTry
  | PubPublish _ (MsgImage _) | PubPublish _ (MsgCameraInfo _) => CameraTry
  (* the rest of the loop body *)
  | RateSleep _ | RosGetRostime | SimJointDictKeys _
  | SimGetAnglesPosition _ _ | SimLaserIsActive _ | SimGetRightLaserValue _
  | SimGetFrontLaserValue _ | SimGetLeftLaserValue _ | SimGetPosition _
  | SimRobotModel _ | SimGetPhysicsClientId _ | PbGetBaseVelocity _ _
  | TfSendTransform _ _
  | PubPublish _ (MsgJointState _) | PubPublish _ (MsgLaserScan _)
  | PubPublish _ (MsgOdometry _) => Loop
  end.

(** The [except] clauses of the file. *)
Inductive clause : Type :=
  | ExceptAssertionError   (* [except AssertionError: pass] *)
  | ExceptIOError          (* [except IOError as e: print(...)] *)
  | ExceptException.       (* [except Exception as e: print(...)] *)


(** The clause names the class of the error. *)
Definition names (k : clause) (e : exn) : bool :=
  match k with
  | ExceptAssertionError => is_AssertionError e
  | ExceptIOError => is_IOError e
  | ExceptException => is_Exception e
  end.






(** The call is made from inside the [try] of [_broadcastCamera]. *)
Definition in_camera_try {X} (c : call X) : bool :=
  match site_of c with CameraTry => true | _ => false end.

(** Every error raised in the trace is an [AssertionError] raised inside
    the [try] of [_broadcastCamera]. *)
Definition harmless (t : list event) : bool :=
  forallb (fun ev =>
             match ev with
             | Ev c r =>
                 match r with
                 | Raise e => in_camera_try c && is_AssertionError e
                 | Ok _ => true
                 end
             | REv _ _ => true
             end) t.

(** ** How a statement of the loop body ends *)

(** The trace ends with a call of the loop body that raised [e], the calls
    before it having returned; [e] is no [AssertionError] if the call is
    inside the [try] of [_broadcastCamera]. *)
Definition stops (t : list event) (e : exn) : Prop :=
  exists t0 X (c : call X),
    t = t0 ++ [Ev c (Raise e)] /\ clean t0 = true /\
    (site_of c = Loop \/
     (site_of c = CameraTry /\ is_AssertionError e = false)).

(** The trace ends with a call inside the [try] of [_broadcastCamera]
    that raised an [AssertionError], the calls before it having
    returned. *)
Definition swallowed (t : list event) : Prop :=
  exists t0 X (c : call X) e,
    t = t0 ++ [Ev c (Raise e)] /\ clean t0 = true /\
    site_of c = CameraTry /\ is_AssertionError e = true.

(** A statement of the loop body, run from instance [s]: it leaves the
    instance alone and prints nothing; when it returns, either no call
    raised and it delivered [D], or [S] holds of its trace; when it raises
    [e], it stopped at the call that raised [e]. *)
Definition ends_post {World : Type} (s : Self) (D S : list event -> Prop)
    : result unit -> Self -> World -> list event -> Prop :=
  fun r s' _ t =>
    s' = s /\ printed t = [] /\
    match r with
    | Ok _ => (clean t = true /\ D t) \/ S t
    | Raise e => stops t e
    end.

(** No statement but [_broadcastCamera] swallows an error. *)
Definition never : list event -> Prop := fun _ => False.

(** What a statement of the loop body does with an error, [cam] telling
    whether it is [_broadcastCamera]: it prints nothing; when it returns,
    no call raised, or it is [_broadcastCamera] and swallowed an
    [AssertionError]; when it raises, it stopped at the call that raised. *)
Definition shape_post {World : Type} (cam : bool)
    : result unit -> Self -> World -> list event -> Prop :=
  fun r _ _ t =>
    printed t = [] /\
    match r with
    | Ok _ => clean t = true \/ (cam = true /\ swallowed t)
    | Raise e => stops t e
    end.

(** The same with the calls before the one that raised allowed to have
    raised an [AssertionError] inside the [try] of [_broadcastCamera]: how
    the loop is left by an error. *)
Definition aborts (t : list event) (e : exn) : Prop :=
  exists t0 X (c : call X),
    t = t0 ++ [Ev c (Raise e)] /\ harmless t0 = true /\
    (site_of c = Loop \/
     (site_of c = CameraTry /\ is_AssertionError e = false)).

(** An iteration in which [_broadcastCamera] swallowed an
    [AssertionError]: the sleep, the joint states, the lasers and the
    odometry, delivered with no call raising, and then the calls of
    [_broadcastCamera] up to the one that raised. *)
Definition camera_swallowed (h : handles) (rate : Rate) (t : list event)
    : Prop :=
  exists t_js t_lasers t_odom t_camera,
    t = Ev (RateSleep rate) (Ok tt)
          :: t_js ++ t_lasers ++ t_odom ++ t_camera /\
    clean (t_js ++ t_lasers ++ t_odom) = true /\
    joint_states_delivered h t_js /\
    lasers_delivered h t_lasers /\
    odom_delivered h t_odom /\
    swallowed t_camera.

(** How the loop body ends, from a launched instance [s]: it leaves the
    instance alone, prints nothing and sleeps once; when it returns, either
    no call raised and the iteration delivered, or [_broadcastCamera]
    swallowed an [AssertionError] after the rest was delivered; when it
    raises, it stopped at the call that raised. *)
Definition body_ends_post {World : Type} (E : Env World) (h : handles)
    (rate : Rate) (s : Self)
    : result unit -> Self -> World -> list event -> Prop :=
  fun r s' _ t =>
    s' = s /\ printed t = [] /\ sleeps t = [rate] /\
    match r with
    | Ok _ =>
        (clean t = true /\ iteration_delivered E h rate t) \/
        camera_swallowed h rate t
    | Raise e => stops t e
    end.

(** How the loop ends, from a launched instance [s] that has a flag: it
    prints nothing; while it returns, no error was raised but
    [AssertionError]s swallowed by [_broadcastCamera], and the instance is
    as it was but for a flag written meanwhile; when it raises, the
    instance is as it was and the loop stopped at the call that raised. *)
Definition loop_ends_post {World : Type} (s : Self)
    : result loop_state -> Self -> World -> list event -> Prop :=
  fun r s' _ t =>
    printed t = [] /\
    match r with
    | Ok LoopRunning => harmless t = true /\ s' = s
    | Ok LoopLeft =>
        harmless t = true /\
        (s' = s \/ s' = <["_wrapper_termination" := VBool true]> s)
    | Raise e => s' = s /\ aborts t e
    end.

(** The loop observed for [k] iterations during which the flag is not
    written, from an instance whose flag is unset: as long as no error is
    raised but [AssertionError]s swallowed by [_broadcastCamera], the loop
    is still running, the instance is as it was and the rate was slept on
    [k] times. *)
Definition goes_on_post {World : Type} (s : Self) (rate : Rate) (k : nat)
    : result loop_state -> Self -> World -> list event -> Prop :=
  fun r s' _ t =>
    harmless t = true ->
    r = Ok LoopRunning /\ s' = s /\ sleeps t = replicate k rate.

(** The same when the flag is written during iteration [k + 1]: the loop
    is left at its next test, with the flag set. *)
Definition left_post {World : Type} (s : Self) (rate : Rate) (k : nat)
    : result loop_state -> Self -> World -> list event -> Prop :=
  fun r s' _ t =>
    harmless t = true ->
    r = Ok LoopLeft /\
    s' = <["_wrapper_termination" := VBool true]> s /\
    sleeps t = replicate (S k) rate.

(** ** What becomes of the errors of a run *)



(** ** Environments in which one call raises *)

Module Raising.

(** The call of rank [n] raises [e]. *)
Definition raising_at (n : nat) (e : exn) : Env Script.World :=
  Script.scripted None 0 true (fun w => if w =? n then Some e else None).


(** The call of rank [n] fails an assertion of its own. *)
Definition asserting_at (n : nat) : Env Script.World :=
  raising_at n (Exn AssertionError "").

(** The user interrupts during the call of rank [n]. *)
Definition interrupted_at (n : nat) : Env Script.World :=
  raising_at n (Exn KeyboardInterrupt "").

End Raising.
(** * Proofs *)

(** ** Rules for postconditions *)

Section Outcome.
Context {World : Type}.

Lemma wp_mono {A} (m : M World A) (Q Q' : result A -> Self -> World -> list event -> Prop) s w :
  wp m Q s w -> (forall r s' w' t, Q r s' w' t -> Q' r s' w' t) ->
  wp m Q' s w.
Proof. unfold wp. auto. Qed.

Lemma wp_ret {A} (a : A) (Q : result _ -> Self -> World -> list event -> Prop) s w :
  Q (Ok a) s w [] -> wp (ret a) Q s w.
Proof. exact id. Qed.

Lemma wp_raise {A} e (Q : result A -> Self -> World -> list event -> Prop) s w :
  Q (Raise e) s w [] -> wp (raise e) Q s w.
Proof. exact id. Qed.

Lemma wp_bind {A B} (m : M World A) (f : A -> M World B)
    (Q : result _ -> Self -> World -> list event -> Prop) s w :
  wp m (fun r s' w' t =>
          match r with
          | Ok a => wp (f a) (fun r2 s2 w2 t2 => Q r2 s2 w2 (t ++ t2)) s' w'
          | Raise e => Q (Raise e) s' w' t
          end) s w ->
  wp (bind m f) Q s w.
Proof. unfold wp, bind. cbv zeta. destruct (res (m s w)); auto. Qed.

Lemma wp_try_except {A} (m : M World A) (catches : exn -> bool) h
    (Q : result _ -> Self -> World -> list event -> Prop) s w :
  wp m (fun r s' w' t =>
          match r with
          | Ok a => Q (Ok a) s' w' t
          | Raise e =>
              if catches e
              then wp (h e) (fun r2 s2 w2 t2 => Q r2 s2 w2 (t ++ t2)) s' w'
              else Q (Raise e) s' w' t
          end) s w ->
  wp (try_except m catches h) Q s w.
Proof.
  unfold wp, try_except. cbv zeta.
  destruct (res (m s w)) as [a|e] eqn:Hr; [by rewrite Hr|].
  destruct (catches e); [done|by rewrite Hr].
Qed.

Lemma wp_finally {A} (m : M World A) fin (Q : result _ -> Self -> World -> list event -> Prop) s w :
  wp m (fun r s' w' t =>
          wp fin (fun r2 s2 w2 t2 =>
                    Q (match r2 with Ok _ => r | Raise e' => Raise e' end)
                      s2 w2 (t ++ t2)) s' w') s w ->
  wp (finally_ m fin) Q s w.
Proof. exact id. Qed.

Lemma wp_getattr (E : Env World) name
    (Q : result _ -> Self -> World -> list event -> Prop) (s : Self) w :
  match s !! name with
  | Some v => Q (Ok v) s w []
  | None =>
      Q (Raise (Exn AttributeError (no_attribute (class_name E) name))) s w []
  end ->
  wp (getattr E name) Q s w.
Proof. unfold wp, getattr. by destruct (s !! name). Qed.

Lemma wp_shared_flag
    (Q : result _ -> Self -> World -> list event -> Prop) (s : Self) w :
  Q (Ok (s !! "_wrapper_termination")) s w [] -> wp shared_flag Q s w.
Proof. exact id. Qed.

Lemma wp_setattr name v (Q : result _ -> Self -> World -> list event -> Prop) (s : Self) w :
  Q (Ok tt) (<[name := v]> s) w [] -> wp (setattr name v) Q s w.
Proof. exact id. Qed.

Lemma wp_assert (b : bool) (Q : result _ -> Self -> World -> list event -> Prop) s w :
  (if b then Q (Ok tt) s w [] else Q (Raise (Exn AssertionError "")) s w []) ->
  wp (assert_ b) Q s w.
Proof. unfold wp, assert_. by destruct b. Qed.

Lemma wp_ext (E : Env World) {X} (c : call X)
    (Q : result _ -> Self -> World -> list event -> Prop) s w :
  (forall r w', env E c w = (r, w') -> Q r s w' [Ev c r]) ->
  wp (ext E c) Q s w.
Proof.
  intros H. unfold wp, ext. destruct (env E c w) as [r w'] eqn:Hc.
  by apply H.
Qed.

Lemma wp_rt (E : Env World) {X} (c : rcall X)
    (Q : result _ -> Self -> World -> list event -> Prop) s w :
  (forall x w', rt_env E c w = (x, w') -> Q (Ok x) s w' [REv c x]) ->
  wp (rt E c) Q s w.
Proof.
  intros H. unfold wp, rt. destruct (rt_env E c w) as [x w'] eqn:Hc.
  by apply H.
Qed.

End Outcome.

(** ** Symbolic execution *)

(** Resolve attribute lookups through the assignments made so far. *)
Ltac look :=
  repeat first
    [ rewrite lookup_insert_eq
    | rewrite lookup_insert_ne by (intros ?; discriminate)
    | match goal with
      | H : ?s !! ?k = _ |- context [?s !! ?k] => rewrite H
      end ].

(** One step on a goal [wp m Q s w]. *)
Ltac wp_step :=
  match goal with
  | x : unit |- _ => destruct x
  | |- _ =>
    lazymatch goal with
    | |- wp (bind _ _) _ _ _ => apply wp_bind
    | |- wp (ret _) _ _ _ => apply wp_ret
    | |- wp (raise _) _ _ _ => apply wp_raise
    | |- wp (getattr _ _) _ _ _ => apply wp_getattr; look
    | |- wp shared_flag _ _ _ => apply wp_shared_flag; look
    | |- wp (setattr _ _) _ _ _ => apply wp_setattr
    | |- wp (assert_ _) _ _ _ => apply wp_assert
    | |- wp (try_except _ _ _) _ _ _ => apply wp_try_except
    | |- wp (finally_ _ _) _ _ _ => apply wp_finally
    | |- wp (ext _ _) _ _ _ =>
        let r := fresh "r" in
        apply wp_ext; intros r ? ?; destruct r
    | |- wp (rt _ _) _ _ _ => apply wp_rt; intros ? ? ?
    | |- wp (print _ _) _ _ _ => apply wp_rt; intros ? ? ?
    | |- wp (as_robot _ _) _ _ _ => unfold as_robot
    | |- wp (as_publisher _ _) _ _ _ => unfold as_publisher
    | |- wp (as_broadcaster _ _) _ _ _ => unfold as_broadcaster
    | |- wp (as_bridge _ _) _ _ _ => unfold as_bridge
    | |- wp (as_launcher _ _) _ _ _ => unfold as_launcher
    | |- wp (as_thread _ _) _ _ _ => unfold as_thread
    | |- wp (str_add _ _) _ _ _ => unfold str_add
    | |- wp (the_robot _ _) _ _ _ => unfold the_robot
    | |- wp (publish_on _ _ _) _ _ _ => unfold publish_on
    | |- wp (camera_link_name _ _) _ _ _ => unfold camera_link_name
    | |- wp (check_import _) _ _ _ => unfold check_import
    | |- wp (set_termination) _ _ _ => unfold set_termination
    | |- wp (if negb ?b then _ else _) _ _ _ => destruct b eqn:?; cbn [negb]
    | |- wp (match ?v with _ => _ end) _ _ _ => destruct v eqn:?
    | |- wp (let (_, _) := ?p in _) _ _ _ => destruct p
    | |- match ?s !! ?k with _ => _ end => destruct (s !! k) eqn:?
    | |- if negb (is_None ?v) then _ else _ => destruct v eqn:?
    | |- if isinstance_Thread ?v then _ else _ => destruct v eqn:?
    | |- if not_None ?v then _ else _ => destruct v eqn:?
    | |- if _ (Exn _ _) then _ else _ =>
        cbv [is_AssertionError is_IOError is_Exception exn_cls]
    | |- if ?b then _ else _ => destruct b eqn:?
    end
  end.

Ltac wp_run :=
  repeat (cbv beta iota;
          cbn [truthy negb is_None isinstance_Thread not_None];
          wp_step).

(** Membership in a trace that is written out. *)
Ltac in_trace :=
  cbn [app];
  solve [repeat first [apply list_elem_of_here | apply list_elem_of_further]].

(** ** The callbacks *)

Section Callbacks.
Context {World : Type} (E : Env World).

(** A callback body [self.virtual_pepper.<method>(...)]: one call on the
    robot held by the instance; the callback returns what the call
    returns and leaves the instance alone. *)
Lemma forward_run attr (c : Robot -> call unit) vp (s : Self) (w : World) :
  s !! "virtual_pepper" = Some (VRobot vp) ->
  wp (vp <- the_robot E attr ;; ext E (c vp))
     (fun r s' w' t =>
        s' = s /\ t = [Ev (c vp) r] /\ env E (c vp) w = (r, w')) s w.
Proof. intros Hvp. wp_run; auto. Qed.

Lemma velocityCallback_run msg vp (s : Self) (w : World) :
  s !! "virtual_pepper" = Some (VRobot vp) ->
  let c := SimMove vp (v_x (linear msg)) (v_y (linear msg))
             (v_z (angular msg)) in
  wp (_velocityCallback E msg)
     (fun r s' w' t => s' = s /\ t = [Ev c r] /\ env E c w = (r, w')) s w.
Proof.
  intros Hvp.
  exact (forward_run _ (fun vp => SimMove vp _ _ _) vp s w Hvp).
Qed.

Lemma jointAnglesCallback_run msg vp (s : Self) (w : World) :
  s !! "virtual_pepper" = Some (VRobot vp) ->
  let c := SimSetAngles vp (joint_names msg) (joint_angles msg)
             (velocity_of msg) in
  wp (_jointAnglesCallback E msg)
     (fun r s' w' t => s' = s /\ t = [Ev c r] /\ env E c w = (r, w')) s w.
Proof.
  intros Hvp. unfold _jointAnglesCallback, velocity_of.
  destruct (speeds msg) as [|v vs]; cbn [length Nat.eqb negb];
    exact (forward_run _ (fun vp => SimSetAngles vp _ _ _) vp s w Hvp).
Qed.

Lemma moveToCallback_run msg vp (s : Self) (w : World) :
  s !! "virtual_pepper" = Some (VRobot vp) ->
  let c := SimMoveTo vp
             (PFloat (v_x (position (pose_stamped_pose msg))))
             (PFloat (v_y (position (pose_stamped_pose msg))))
             (PFloat (goal_theta E msg))
             (Some (referenceFrame msg)) (Some (goal_speed E msg)) true in
  wp (_moveToCallback E msg)
     (fun r s' w' t => s' = s /\ t = [Ev c r] /\ env E c w = (r, w')) s w.
Proof.
  intros Hvp.
  exact (forward_run _ (fun vp => SimMoveTo vp _ _ _ _ _ _) vp s w Hvp).
Qed.

Lemma killMoveCallback_run msg vp (s : Self) (w : World) :
  s !! "virtual_pepper" = Some (VRobot vp) ->
  let c := SimMoveTo vp (PInt 0) (PInt 0) (PInt 0) None None true in
  wp (_killMoveCallback E msg)
     (fun r s' w' t => s' = s /\ t = [Ev c r] /\ env E c w = (r, w')) s w.
Proof.
  intros Hvp.
  exact (forward_run _ (fun vp => SimMoveTo vp _ _ _ _ _ _) vp s w Hvp).
Qed.

End Callbacks.

(** ** One iteration of the loop *)

(** Use the attributes of a launched instance. *)
Ltac use_launched H :=
  pose proof (l_robot _ _ H); pose proof (l_bridge _ _ H);
  pose proof (l_broadcaster _ _ H);
  pose proof (l_front_cam _ _ H); pose proof (l_front_info _ _ H);
  pose proof (l_bottom_cam _ _ H); pose proof (l_bottom_info _ _ H);
  pose proof (l_depth_cam _ _ H); pose proof (l_depth_info _ _ H);
  pose proof (l_laser _ _ H); pose proof (l_joint_states _ _ H);
  pose proof (l_odom _ _ H).

(** Split a membership in a list that is written out. *)
Ltac split_in H :=
  repeat (apply elem_of_cons in H as [H|H]);
  try (by apply elem_of_nil in H).

Ltac witness_reads :=
  repeat eexists;
  first
    [ in_trace
    | reflexivity
    | unfold yaw_quaternion;
      match goal with
      | H : getQuaternionFromEuler _ _ _ _ = _ |- _ => rewrite H
      end; reflexivity ].

Ltac sourced_leaf :=
  split;
  [ let p := fresh "p" in let m := fresh "m" in let H := fresh "Hin" in
    intros p m H; cbn in H; split_in H; simplify_eq; cbn
  | let m := fresh "m" in let H := fresh "Hin" in
    intros m H; cbn in H; split_in H; simplify_eq; cbn ].

Ltac block_leaf :=
  cbn [app];
  split; [reflexivity|]; split; [reflexivity|]; split;
  [ sourced_leaf
  | let Hc := fresh "Hc" in
    intros Hc; first [discriminate Hc | split; [reflexivity|]] ].


(** The camera reported one id throughout: every answer is that id. *)
Ltac ids_agree Hid :=
  repeat match goal with
  | H : (?a =? _)%Z = _ |- _ =>
      lazymatch type of Hid with
      | forall id', id' ∈ _ -> id' = ?id =>
          lazymatch a with id => fail | _ => idtac end;
          let Heq := fresh in
          assert (Heq : a = id) by (apply Hid; in_trace);
          rewrite Heq in H
      end
  end.

Section Iteration.
Context {World : Type} (E : Env World).

Lemma scan_ranges_extend r f l :
  extend_ranges (extend_ranges (extend_ranges [] r true) f true) l false
  = scan_ranges r f l.
Proof.
  destruct r, f, l; cbv [scan_ranges extend_ranges];
    rewrite ?app_nil_r, ?app_nil_l, <- ?app_assoc; reflexivity.
Qed.

(** [_getJointStateMsg] returns a message built from the keys and the
    positions it read, unless a call raises. *)
Lemma getJointStateMsg_run vp (s : Self) (w : World) :
  s !! "virtual_pepper" = Some (VRobot vp) ->
  wp (_getJointStateMsg E)
    (fun r s' w' t =>
       match r with
       | Ok m =>
           exists keys positions,
             Ev (SimJointDictKeys vp) (Ok keys) ∈ t /\
             Ev (SimGetAnglesPosition vp keys) (Ok positions) ∈ t /\
             js_name m = keys ++ ["WheelFL"; "WheelFR"; "WheelB"] /\
             js_position m
               = map PFloat positions ++ [PInt 0; PInt 0; PInt 0]
       | Raise _ => clean t = false
       end) s w.
Proof.
  intros Hvp. unfold _getJointStateMsg. wp_run; cbn [app]; try reflexivity.
  eexists _, _. repeat split; in_trace.
Qed.

Lemma publish_joint_states_run h (s : Self) (w : World) :
  launched s h ->
  wp (publish_joint_states E)
    (fun r s' w' t =>
       s' = s /\ quiet t = true /\ all_sourced E (h_robot h) t /\
       (clean t = true -> r = Ok tt /\ joint_states_delivered h t)) s w.
Proof.
  intros Hl. use_launched Hl. unfold publish_joint_states, _getJointStateMsg.
  wp_run; block_leaf.
  all: try witness_reads.
  all: eexists; reflexivity.
Qed.

Lemma updateLasers_run h (s : Self) (w : World) :
  launched s h ->
  wp (_updateLasers E)
    (fun r s' w' t =>
       s' = s /\ quiet t = true /\ all_sourced E (h_robot h) t /\
       (clean t = true -> r = Ok tt /\ lasers_delivered h t)) s w.
Proof.
  intros Hl. use_launched Hl. unfold _updateLasers.
  wp_run; block_leaf.
  all: try (eexists _, _, _; repeat split; [in_trace..|apply scan_ranges_extend]).
  all: try (eexists; split; [reflexivity|cbn; eauto]).
Qed.

Lemma broadcastOdom_run h (s : Self) (w : World) :
  launched s h ->
  wp (_broadcastOdom E)
    (fun r s' w' t =>
       s' = s /\ quiet t = true /\ all_sourced E (h_robot h) t /\
       (clean t = true -> r = Ok tt /\ odom_delivered h t)) s w.
Proof.
  intros Hl. use_launched Hl. unfold _broadcastOdom.
  wp_run; subst; block_leaf.
  all: try witness_reads.
Qed.

Lemma broadcastCamera_run h (s : Self) (w : World) :
  launched s h ->
  wp (_broadcastCamera E)
    (fun r s' w' t =>
       s' = s /\ quiet t = true /\ all_sourced E (h_robot h) t /\
       (clean t = true -> r = Ok tt /\ camera_delivered E h t)) s w.
Proof.
  intros Hl. use_launched Hl.
  unfold _broadcastCamera, broadcast_active_camera.
  wp_run; subst; block_leaf.
  all: try witness_reads.
  all: intros camera frame id Hcam Hframe Hid Hin; cbn in Hcam, Hframe, Hid.
  all: try (split_in Hcam; discriminate).
  all: try (split_in Hframe; by simplify_eq/=).
  all: try (eexists _, _, _, _; split; [reflexivity|cbn; in_trace]).
  all: ids_agree Hid.
  all: repeat match goal with
              | H : (_ =? _)%Z = false |- _ => apply Z.eqb_neq in H
              end.
  all: split_in Hin; congruence.
Qed.

Lemma quiet_app t1 t2 : quiet (t1 ++ t2) = quiet t1 && quiet t2.
Proof. apply forallb_app. Qed.

Lemma clean_app t1 t2 : clean (t1 ++ t2) = clean t1 && clean t2.
Proof. apply forallb_app. Qed.

Lemma published_app t1 t2 : published (t1 ++ t2) = published t1 ++ published t2.
Proof. apply omap_app. Qed.

Lemma transforms_app t1 t2 :
  transforms (t1 ++ t2) = transforms t1 ++ transforms t2.
Proof. apply omap_app. Qed.

Lemma msg_sourced_mono vp (t t' : list event) m :
  (forall e, e ∈ t -> e ∈ t') -> msg_sourced E vp t m -> msg_sourced E vp t' m.
Proof.
  intros Hsub. destruct m; cbn.
  - intros (keys & pos & H). exists keys, pos. intuition auto.
  - intros (a & b & c & H). exists a, b, c. intuition auto.
  - intros (x & y & th & mo & cl & vx & vy & vz & wx & wy & wz & H).
    exists x, y, th, mo, cl, vx, vy, vz, wx, wy, wz. intuition auto.
  - intros (a & b & c & d & H). exists a, b, c, d. intuition auto.
  - intros (a & b & c & d & H). exists a, b, c, d. intuition auto.
Qed.

Lemma tf_sourced_mono vp (t t' : list event) m :
  (forall e, e ∈ t -> e ∈ t') -> tf_sourced E vp t m -> tf_sourced E vp t' m.
Proof. intros Hsub (x & y & th & H). exists x, y, th. intuition auto. Qed.

Lemma all_sourced_app vp t1 t2 :
  all_sourced E vp t1 -> all_sourced E vp t2 -> all_sourced E vp (t1 ++ t2).
Proof.
  intros [Hp1 Ht1] [Hp2 Ht2]. split.
  - intros p m. rewrite published_app, elem_of_app. intros [H|H].
    + apply (msg_sourced_mono vp t1); [|by apply (Hp1 p)].
      intros e He. apply elem_of_app. by left.
    + apply (msg_sourced_mono vp t2); [|by apply (Hp2 p)].
      intros e He. apply elem_of_app. by right.
  - intros m. rewrite transforms_app, elem_of_app. intros [H|H].
    + apply (tf_sourced_mono vp t1); [|by apply Ht1].
      intros e He. apply elem_of_app. by left.
    + apply (tf_sourced_mono vp t2); [|by apply Ht2].
      intros e He. apply elem_of_app. by right.
Qed.

(** Two statements of the loop body in sequence. *)
Lemma iteration_seq h (m1 m2 : M World unit) (D1 D2 : list event -> Prop) :
  (forall s w, launched s h -> wp m1 (iteration_post E h s D1) s w) ->
  (forall s w, launched s h -> wp m2 (iteration_post E h s D2) s w) ->
  forall s w, launched s h ->
    wp (m1 ;; m2)
       (iteration_post E h s
          (fun t => exists t1 t2, t = t1 ++ t2 /\ D1 t1 /\ D2 t2)) s w.
Proof.
  intros H1 H2 s w Hl. apply wp_bind.
  eapply wp_mono; [apply H1, Hl|]. cbv beta.
  intros r s' w' t (-> & Hq & Hs & Hc). destruct r as [[]|e].
  - eapply wp_mono; [apply H2, Hl|]. cbv beta.
    intros r2 s2 w2 t2 (-> & Hq2 & Hs2 & Hc2).
    split; [reflexivity|]. split; [by rewrite quiet_app, Hq, Hq2|].
    split; [by apply all_sourced_app|].
    rewrite clean_app. intros [Ht Ht2]%andb_true_iff.
    destruct (Hc Ht) as [_ HD1], (Hc2 Ht2) as [-> HD2]. eauto 6.
  - split; [reflexivity|]. split; [done|]. split; [done|].
    intros Ht. by destruct (Hc Ht).
Qed.

Lemma sleep_run h rate (s : Self) (w : World) :
  launched s h ->
  wp (ext E (RateSleep rate))
     (iteration_post E h s (fun t => t = [Ev (RateSleep rate) (Ok tt)])) s w.
Proof.
  intros _. wp_run; block_leaf. reflexivity.
Qed.

Lemma spin_body_run h rate (s : Self) (w : World) :
  launched s h ->
  wp (spin_body E rate)
     (iteration_post E h s (iteration_delivered E h rate)) s w.
Proof.
  intros Hl. unfold spin_body.
  eapply wp_mono.
  - revert s w Hl. apply iteration_seq; [intros; by apply sleep_run|].
    apply iteration_seq; [intros; by apply publish_joint_states_run|].
    apply iteration_seq; [intros; by apply updateLasers_run|].
    apply iteration_seq; [intros; by apply broadcastOdom_run|].
    intros; by apply broadcastCamera_run.
  - cbv beta. intros r s' w' t (-> & Hq & Hs & Hc).
    split; [reflexivity|]. split; [done|]. split; [done|].
    intros Ht. destruct (Hc Ht) as [-> HD]. split; [reflexivity|].
    destruct HD as (t1 & t2 & -> & -> & t3 & t4 & -> & Hjs & t5 & t6 & ->
                    & Hlas & t7 & t8 & -> & Hod & Hcam).
    exists t3, t5, t7, t8. auto.
Qed.

End Iteration.

(** ** The loop of [_spin] *)

Section Loop.
Context {World : Type} (E : Env World).

(** Whatever a method does satisfies a postcondition that always holds. *)
Lemma wp_any {A} (m : M World A)
    (Q : result A -> Self -> World -> list event -> Prop) s w :
  (forall r s' w' t, Q r s' w' t) -> wp m Q s w.
Proof. intros H. apply H. Qed.

(** A handler that returns swallows every exception its clause names. *)
Lemma try_except_swallows {A} (m : M World A) (catches : exn -> bool) h
    (s : Self) (w : World) e :
  (forall e' s' w', exists a, res (h e' s' w') = Ok a) ->
  res (try_except m catches h s w) = Raise e -> catches e = false.
Proof.
  intros Hh. unfold try_except. cbv zeta.
  destruct (res (m s w)) as [a|e'] eqn:Hr; [by rewrite Hr|].
  destruct (catches e') eqn:Hc.
  - cbn. destruct (Hh e' (self_of (m s w)) (world_of (m s w))) as [a ->].
    discriminate.
  - rewrite Hr. by intros [= <-].
Qed.

(** When the handler runs, the statement is the guarded part followed by
    the handler. *)
Lemma try_except_caught {A} (m : M World A) (catches : exn -> bool) h
    (s : Self) (w : World) e :
  res (m s w) = Raise e -> catches e = true ->
  try_except m catches h s w =
    let o := m s w in
    let o' := h e (self_of o) (world_of o) in
    mkOut (res o') (self_of o') (world_of o') (trace o ++ trace o').
Proof. intros Hr Hc. unfold try_except. cbv zeta. by rewrite Hr, Hc. Qed.


(** An exception the handler does not name goes through. *)
Lemma try_except_uncaught {A} (m : M World A) (catches : exn -> bool) h
    (s : Self) (w : World) e :
  res (m s w) = Raise e -> catches e = false ->
  try_except m catches h s w = m s w.
Proof. intros Hr Hc. unfold try_except. cbv zeta. by rewrite Hr, Hc. Qed.

(** [_spin] makes a rate from the configured frequency and enters the
    loop with it. *)
Lemma spin_rate sched (s : Self) (w : World) f rate w1 :
  s !! "frequency" = Some f ->
  env E (RosRate f) w = (Ok rate, w1) ->
  res (_spin E sched s w) = res (spin_loop E rate sched s w1) /\
  self_of (_spin E sched s w) = self_of (spin_loop E rate sched s w1) /\
  trace (_spin E sched s w)
    = Ev (RosRate f) (Ok rate) :: trace (spin_loop E rate sched s w1).
Proof.
  intros Hf Hrate. unfold _spin, bind, getattr, ext. rewrite Hf. cbn.
  rewrite Hrate. cbn. done.
Qed.

Lemma spin_while_goes_on h rate k : forall (s : Self) (w : World),
  launched s h -> s !! "_wrapper_termination" = Some (VBool false) ->
  wp (spin_while E rate (replicate k false))
     (fun r s' w' t =>
        clean t = true ->
        r = Ok LoopRunning /\ s' = s /\ iterations E h rate k t) s w.
Proof.
  induction k as [|k IH]; intros s w Hl Hflag; cbn [replicate spin_while].
  - wp_run. intros _. repeat split.
    exists []. repeat split. constructor.
  - wp_run.
    eapply wp_mono; [by apply spin_body_run|]. cbv beta.
    intros r s' w' t (-> & _ & _ & Hc). destruct r as [[]|e].
    + wp_run. eapply wp_mono; [by apply IH|]. cbv beta.
      intros r2 s2 w2 t2 H2. cbn [app]. rewrite clean_app.
      intros [Ht Ht2]%andb_true_iff.
      destruct (Hc Ht) as [_ HD], (H2 Ht2) as (-> & -> & ts & <- & -> & Hts).
      repeat split. exists (t :: ts). repeat split. by constructor.
    + intros Ht. by destruct (Hc Ht).
Qed.

Lemma spin_while_stops h rate rest k : forall (s : Self) (w : World),
  launched s h -> s !! "_wrapper_termination" = Some (VBool false) ->
  wp (spin_while E rate (replicate k false ++ true :: rest))
     (fun r s' w' t =>
        clean t = true ->
        r = Ok LoopLeft /\
        s' = <["_wrapper_termination" := VBool true]> s /\
        iterations E h rate (S k) t) s w.
Proof.
  induction k as [|k IH]; intros s w Hl Hflag;
    cbn [replicate app spin_while].
  - wp_run.
    eapply wp_mono; [by apply spin_body_run|]. cbv beta.
    intros r s' w' t (-> & _ & _ & Hc). destruct r as [[]|e].
    + wp_run. destruct rest; cbn [spin_while]; wp_run; cbn [app]; rewrite !app_nil_r; intros Ht;
        destruct (Hc Ht) as [_ HD]; repeat split;
        exists [t]; cbn; rewrite app_nil_r; repeat split; by constructor.
    + intros Ht. by destruct (Hc Ht).
  - wp_run.
    eapply wp_mono; [by apply spin_body_run|]. cbv beta.
    intros r s' w' t (-> & _ & _ & Hc). destruct r as [[]|e].
    + wp_run. eapply wp_mono; [by apply IH|]. cbv beta.
      intros r2 s2 w2 t2 H2. cbn [app]. rewrite clean_app.
      intros [Ht Ht2]%andb_true_iff.
      destruct (Hc Ht) as [_ HD], (H2 Ht2) as (-> & -> & ts & Hlen & -> & Hts).
      repeat split. exists (t :: ts). cbn. rewrite Hlen. repeat split.
      by constructor.
    + intros Ht. by destruct (Hc Ht).
Qed.

Lemma spin_while_left_flag rate sched : forall (s : Self) (w : World),
  wp (spin_while E rate sched)
     (fun r s' w' t =>
        r = Ok LoopLeft ->
        exists v, s' !! "_wrapper_termination" = Some v /\ truthy v = true)
     s w.
Proof.
  induction sched as [|b sched IH]; intros s w; cbn [spin_while].
  - wp_run; try discriminate. eauto.
  - wp_run; try discriminate; [by eauto|].
    apply wp_any. intros [[]|e] s' w' t; [|discriminate].
    wp_run; (eapply wp_mono; [apply IH|]); cbv beta; auto.
Qed.

(** The loop never lets an [Exception] out, and reports the one that ends
    it. *)
Lemma spin_loop_swallows rate sched (s : Self) (w : World) e :
  res (spin_loop E rate sched s w) = Raise e -> is_Exception e = false.
Proof.
  apply try_except_swallows. intros e' s' w'.
  exists LoopLeft. unfold bind, print, rt.
  by destruct (rt_env E (Print _) w').
Qed.

Lemma spin_loop_reports rate sched (s : Self) (w : World) e :
  res (spin_while E rate sched s w) = Raise e -> is_Exception e = true ->
  exists w',
    spin_loop E rate sched s w =
      mkOut (Ok LoopLeft) (self_of (spin_while E rate sched s w)) w'
        (trace (spin_while E rate sched s w)
         ++ [REv (Print ("Stopping the ROS wrapper: " ++ str e)) tt]).
Proof.
  intros Hr Hc. unfold spin_loop.
  rewrite (try_except_caught _ _ _ s w e Hr Hc). cbv zeta.
  unfold bind, print, rt.
  destruct (rt_env E (Print _) (world_of _)) as [[] w']. eauto.
Qed.




End Loop.

(** ** [stopWrapper] *)

Section Stop.
Context {World : Type} (E : Env World).

Lemma stopWrapper_run (s : Self) (w : World) :
  constructed s -> wp (stopWrapper E) (stop_post E s w) s w.
Proof.
  intros [[v Hv] Hl]. unfold stopWrapper, join_if_alive, join_spin_thread.
  destruct Hl as [Hl|[l Hl]]; wp_run; cbn [app]; unfold stop_post.
  all: rewrite ?Hv, ?Hl.
  all: repeat match goal with
              | H : env _ (ThreadIsAlive _) _ = _ |- _ =>
                  rewrite H; clear H
              end; cbn [fst].
  all: unfold thread_error; cbn [omap list_omap head];
    repeat match goal with
           | H : is_AssertionError _ = _ |- _ => rewrite H
           end; cbn [omap list_omap head].
  all: rewrite ?Hv, ?Hl.
  all: split; [reflexivity|]; split; [cbn; repeat constructor|].
  all: split; [reflexivity|]; split; [reflexivity|]; split; [reflexivity|].
  all: split;
    [ first
        [ eexists [], _; split; [reflexivity|split; reflexivity]
        | eexists _, []; split; [symmetry; apply app_nil_r|split; reflexivity]
        | eexists [_; _], _; split; [reflexivity|split; reflexivity] ]
    | ].
  all: split;
    [ intros e' He; first [discriminate He | by injection He as <-]
    | intros e' He; try discriminate He; injection He as <-;
      first [by left | right; eexists; in_trace] ].
Qed.

(** [stopWrapper] reads no sensor and keeps a constructed instance
    constructed. *)
Lemma stopWrapper_sensorless (s : Self) (w : World) :
  wp (stopWrapper E) (fun _ _ _ t => sensorless t = true) s w.
Proof.
  unfold stopWrapper, join_if_alive, join_spin_thread. wp_run; reflexivity.
Qed.

End Stop.

(** ** The constructor and [launchWrapper] *)

Section Launch.
Context {World : Type} (E : Env World).

(** A sequence stops at the first statement that raises. *)
Lemma bind_raises {A B} (m : M World A) (f : A -> M World B) e s w s' w' t :
  m s w = mkOut (Raise e) s' w' t ->
  bind m f s w = mkOut (Raise e) s' w' t.
Proof. intros H. unfold bind. rewrite H. reflexivity. Qed.

Lemma check_import_raises m (s : Self) (w : World) :
  MISSING_IMPORT E = Some m ->
  check_import E s w = mkOut (Raise (Exn PybulletError m)) s w [].
Proof. intros Hm. unfold check_import. rewrite Hm. reflexivity. Qed.

(** The constructor reads no sensor; when it returns, the instance is
    constructed, its flag is unset, and it holds a bridge and a
    broadcaster. *)
Lemma init_run (s : Self) (w : World) :
  wp (RosWrapper__init__ E)
    (fun r s' w' t =>
       sensorless t = true /\
       (r = Ok tt ->
          constructed s' /\
          s' !! "_wrapper_termination" = Some (VBool false) /\
          exists b tb,
            s' !! "image_bridge" = Some (VBridge b) /\
            s' !! "transform_broadcaster" = Some (VBroadcaster tb))) s w.
Proof.
  unfold RosWrapper__init__. wp_run; cbn [app].
  all: split; [reflexivity|]; try (intros; discriminate).
  intros _. unfold constructed. look. eauto 10.
Qed.

Lemma launchWrapper_run vp ns f (s : Self) (w : World) :
  wp (launchWrapper E vp ns f) (launch_post vp ns s) s w.
Proof.
  unfold launchWrapper, advertise_ns, advertise, start_robot_state_publisher,
    launch_robot_state_publisher.
  wp_run; cbn [app]; unfold launch_post.
  all: split; [eexists; reflexivity|].
  all: split; [eexists; reflexivity|].
  all: split; [reflexivity|].
  all: split; [first [by intros [] | intros _; look; reflexivity]|].
  all: try (intros; discriminate).
  all: intros _; repeat split; [look; reflexivity..|].
  all: unfold wired; repeat constructor; eexists.
  all: split; [look; reflexivity|in_trace].
Qed.

(** [launchWrapper] keeps a constructed instance constructed. *)
Lemma launchWrapper_keeps_constructed vp ns f (s : Self) (w : World) :
  constructed s ->
  wp (launchWrapper E vp ns f) (fun _ s' _ _ => constructed s') s w.
Proof.
  intros [[v Hv] Hl].
  unfold launchWrapper, advertise_ns, advertise, start_robot_state_publisher,
    launch_robot_state_publisher.
  wp_run; unfold constructed; look.
  all: split; [eauto|first [exact Hl|eauto]].
Qed.

(** After the constructor, a [launchWrapper] that returns leaves a launched
    instance, holding the robot it was given. *)
Lemma launch_gives_launched vp ns f (s : Self) (w : World) b tb :
  s !! "image_bridge" = Some (VBridge b) ->
  s !! "transform_broadcaster" = Some (VBroadcaster tb) ->
  res (launchWrapper E vp ns f s w) = Ok tt ->
  exists h,
    h_robot h = vp /\ launched (self_of (launchWrapper E vp ns f s w)) h.
Proof.
  intros Hb Htb Hr.
  destruct (launchWrapper_run vp ns f s w) as (_ & _ & _ & Hvp & Hok).
  destruct (Hok Hr) as (_ & Hsub & Hb' & Htb' & Hw).
  rewrite Hsub in Hvp. specialize (Hvp ltac:(discriminate)).
  unfold the_publisher_attrs, the_topics in Hw.
  repeat match goal with
         | H : Forall2 _ (_ :: _) (_ :: _) |- _ =>
             apply Forall2_cons in H as [[? [? _]] H]
         end.
  eexists {| h_robot := vp; h_bridge := b; h_broadcaster := tb |}.
  split; [reflexivity|]. constructor; cbn; try eassumption; congruence.
Qed.

End Launch.

(** ** How the statements of the loop body end *)

Section Ends.
Context {World : Type} (E : Env World).

(** Two postconditions of one run. *)
Lemma wp_conj {A} (m : M World A)
    (Q1 Q2 : result A -> Self -> World -> list event -> Prop) s w :
  wp m Q1 s w -> wp m Q2 s w ->
  wp m (fun r s' w' t => Q1 r s' w' t /\ Q2 r s' w' t) s w.
Proof. unfold wp. auto. Qed.

Lemma stops_intro (l : list event) e t0 {X} (c : call X) :
  l = t0 ++ [Ev c (Raise e)] -> clean t0 = true ->
  (site_of c = Loop \/
   (site_of c = CameraTry /\ is_AssertionError e = false)) ->
  stops l e.
Proof. intros. exists t0, X, c. auto. Qed.

Lemma swallowed_intro (l : list event) e t0 {X} (c : call X) :
  l = t0 ++ [Ev c (Raise e)] -> clean t0 = true ->
  site_of c = CameraTry -> is_AssertionError e = true ->
  swallowed l.
Proof. intros. exists t0, X, c, e. auto. Qed.

End Ends.

(** The trace, written out, ends with the call that raised. *)
Ltac ends_at_raise :=
  lazymatch goal with
  | |- stops ?l ?e =>
      let t0 := eval cbn in (removelast l) in
      eapply (stops_intro l e t0);
      [ reflexivity | reflexivity
      | first [ left; reflexivity
              | right; split; [reflexivity|assumption] ] ]
  | |- swallowed ?l =>
      let t0 := eval cbn in (removelast l) in
      eapply (swallowed_intro l _ t0);
      [ reflexivity | reflexivity | reflexivity | assumption ]
  end.

Ltac shape_leaf :=
  cbn [app]; unfold shape_post; split; [reflexivity|];
  first [ left; reflexivity
        | right; split; [reflexivity|]; ends_at_raise
        | ends_at_raise ].

Section Shapes.
Context {World : Type} (E : Env World).

Lemma sleep_shape h rate (s : Self) (w : World) :
  launched s h -> wp (ext E (RateSleep rate)) (shape_post false) s w.
Proof. intros _. wp_run; shape_leaf. Qed.

Lemma publish_joint_states_shape h (s : Self) (w : World) :
  launched s h -> wp (publish_joint_states E) (shape_post false) s w.
Proof.
  intros Hl. use_launched Hl. unfold publish_joint_states, _getJointStateMsg.
  wp_run; shape_leaf.
Qed.

Lemma updateLasers_shape h (s : Self) (w : World) :
  launched s h -> wp (_updateLasers E) (shape_post false) s w.
Proof. intros Hl. use_launched Hl. unfold _updateLasers. wp_run; shape_leaf. Qed.

Lemma broadcastOdom_shape h (s : Self) (w : World) :
  launched s h -> wp (_broadcastOdom E) (shape_post false) s w.
Proof.
  intros Hl. use_launched Hl. unfold _broadcastOdom. wp_run; shape_leaf.
Qed.

Lemma broadcastCamera_shape h (s : Self) (w : World) :
  launched s h -> wp (_broadcastCamera E) (shape_post true) s w.
Proof.
  intros Hl. use_launched Hl.
  unfold _broadcastCamera, broadcast_active_camera. wp_run; shape_leaf.
Qed.

End Shapes.
(** ** The flag and the loop *)

Section StopAnywhere.
Context {World : Type} (E : Env World).

(** [stopWrapper] writes the flag and nothing else, on any instance and
    whatever happens next. *)
Lemma stopWrapper_writes_flag (s : Self) (w : World) :
  self_of (stopWrapper E s w) = <["_wrapper_termination" := VBool true]> s.
Proof.
  assert (H : wp (stopWrapper E)
                (fun _ s' _ _ =>
                   s' = <["_wrapper_termination" := VBool true]> s) s w).
  { unfold stopWrapper, join_if_alive, join_spin_thread. wp_run; reflexivity. }
  exact H.
Qed.

(** With the flag set, the loop is left at its first test. *)
Lemma spin_while_flagged rate sched (s : Self) (w : World) v :
  s !! "_wrapper_termination" = Some v -> truthy v = true ->
  spin_while E rate sched s w = mkOut (Ok LoopLeft) s w [].
Proof.
  intros Hflag Hv. destruct sched; cbn [spin_while];
    unfold bind, getattr; rewrite Hflag; cbn; by rewrite Hv.
Qed.

Lemma spin_loop_flagged rate sched (s : Self) (w : World) v :
  s !! "_wrapper_termination" = Some v -> truthy v = true ->
  spin_loop E rate sched s w = mkOut (Ok LoopLeft) s w [].
Proof.
  intros Hflag Hv. unfold spin_loop, try_except.
  by rewrite (spin_while_flagged rate sched s w v Hflag Hv).
Qed.

End StopAnywhere.

(** ** Rounds of messages *)

(** A list that is written out is a part of another one. *)
Ltac part_of :=
  solve [repeat first [apply sublist_nil_l | apply sublist_skip
                      | apply sublist_cons]].

(** The publisher a message went to is the one an attribute holds. *)
Ltac find_route :=
  match goal with
  | H : ?s !! ?a = Some (VPublisher ?p) |- routed ?s ?p _ =>
      exists a; split; [cbn; in_trace | exact H]
  end.

Ltac part_leaf :=
  cbn [app]; unfold part_post;
  split; [reflexivity|]; split; [reflexivity|]; split;
  [ intros ? ? Hin; cbn in Hin; split_in Hin; simplify_eq; find_route
  | cbn; part_of ].

Section Rounds.
Context {World : Type} (E : Env World).

Lemma publish_joint_states_part (s : Self) (w : World) :
  wp (publish_joint_states E) (part_post s [TJointState]) s w.
Proof.
  unfold publish_joint_states, _getJointStateMsg. wp_run; part_leaf.
Qed.

Lemma updateLasers_part (s : Self) (w : World) :
  wp (_updateLasers E) (part_post s [TLaserScan]) s w.
Proof. unfold _updateLasers. wp_run; part_leaf. Qed.

Lemma broadcastOdom_part (s : Self) (w : World) :
  wp (_broadcastOdom E) (part_post s [TOdometry]) s w.
Proof. unfold _broadcastOdom. wp_run; part_leaf. Qed.

Lemma broadcastCamera_part (s : Self) (w : World) :
  wp (_broadcastCamera E) (part_post s [TImage; TCameraInfo]) s w.
Proof.
  unfold _broadcastCamera, broadcast_active_camera. wp_run; part_leaf.
Qed.

Lemma sleeps_app t1 t2 : sleeps (t1 ++ t2) = sleeps t1 ++ sleeps t2.
Proof. apply omap_app. Qed.

Lemma published_types_app t1 t2 :
  published_types (t1 ++ t2) = published_types t1 ++ published_types t2.
Proof. unfold published_types. by rewrite published_app, map_app. Qed.

(** Two statements of the loop body in sequence, on any instance. *)
Lemma part_seq (m1 m2 : M World unit) k1 k2 :
  (forall s w, wp m1 (part_post s k1) s w) ->
  (forall s w, wp m2 (part_post s k2) s w) ->
  forall s w, wp (m1 ;; m2) (part_post s (k1 ++ k2)) s w.
Proof.
  intros H1 H2 s w. apply wp_bind.
  eapply wp_mono; [apply H1|]. cbv beta.
  intros r s' w' t (-> & Hsl & Hro & Hty). destruct r as [[]|e].
  - eapply wp_mono; [apply H2|]. cbv beta.
    intros r2 s2 w2 t2 (-> & Hsl2 & Hro2 & Hty2).
    split; [reflexivity|]. split; [by rewrite sleeps_app, Hsl, Hsl2|].
    split.
    + intros p m. rewrite published_app, elem_of_app. intros [H|H]; eauto.
    + rewrite published_types_app. by apply sublist_app.
  - split; [reflexivity|]. split; [done|]. split; [done|].
    by apply sublist_inserts_r.
Qed.

Lemma spin_body_round rate (s : Self) (w : World) :
  wp (spin_body E rate) (body_post s rate) s w.
Proof.
  unfold spin_body. apply wp_bind. apply wp_ext. intros r w' _.
  destruct r as [[]|e].
  - eapply wp_mono.
    + apply (part_seq _ _ [TJointState] [TLaserScan; TOdometry; TImage;
                                          TCameraInfo]);
        [intros; apply publish_joint_states_part|].
      apply (part_seq _ _ [TLaserScan] [TOdometry; TImage; TCameraInfo]);
        [intros; apply updateLasers_part|].
      apply (part_seq _ _ [TOdometry] [TImage; TCameraInfo]);
        [intros; apply broadcastOdom_part|].
      intros; apply broadcastCamera_part.
    + cbv beta. intros r2 s2 w2 t2 (-> & Hsl & Hro & Hty).
      split; [reflexivity|]. split; [by rewrite sleeps_app, Hsl|].
      split; [intros p m; rewrite published_app; exact (Hro p m)|].
      rewrite published_types_app. exact Hty.
  - split; [reflexivity|]. split; [reflexivity|].
    split; [by intros ? ? H; apply elem_of_nil in H|apply sublist_nil_l].
Qed.

Lemma routed_flag (s : Self) v p m :
  routed (<["_wrapper_termination" := v]> s) p m -> routed s p m.
Proof.
  intros (attr & Hin & Hp). exists attr. split; [exact Hin|].
  rewrite lookup_insert_ne in Hp; [exact Hp|].
  intros <-. destruct m; cbn in Hin;
    try (destruct (String.eqb _ _)); split_in Hin; discriminate.
Qed.

Lemma routed_same (s s' : Self) p m :
  (forall k, k <> "_wrapper_termination" -> s' !! k = s !! k) ->
  routed s' p m -> routed s p m.
Proof.
  intros Heq (attr & Hin & Hp). exists attr. split; [exact Hin|].
  rewrite <- Heq; [exact Hp|].
  intros ->. destruct m; cbn in Hin;
    try (destruct (String.eqb _ _)); split_in Hin; discriminate.
Qed.

Lemma spin_while_rounds rate sched : forall (s : Self) (w : World),
  wp (spin_while E rate sched) (loop_post s rate (length sched)) s w.
Proof.
  induction sched as [|b sched IH]; intros s w; cbn [spin_while length].
  - wp_run; unfold loop_post; cbn.
    all: split; [done|]; split; [by exists 0|]; split;
      [by intros ? ? H; apply elem_of_nil in H|apply sublist_nil_l].
  - apply wp_bind, wp_getattr.
    destruct (s !! "_wrapper_termination") as [v|] eqn:Hflag.
    2: { unfold loop_post. cbn. split; [done|]. split; [exists 0; split; [lia|done]|].
         split; [by intros ? ? H; apply elem_of_nil in H|apply sublist_nil_l]. }
    destruct (truthy v) eqn:Hv; cbn [negb].
    { apply wp_ret. unfold loop_post. cbn. split; [done|].
      split; [exists 0; split; [lia|done]|].
      split; [by intros ? ? H; apply elem_of_nil in H|apply sublist_nil_l]. }
    apply wp_bind. eapply wp_mono; [apply spin_body_round|]. cbv beta.
    intros r s' w' t (-> & Hsl & Hro & Hty). destruct r as [[]|e].
    + apply wp_bind.
      assert (Hnext : forall (s1 : Self) w1,
                 (forall k, k <> "_wrapper_termination" -> s1 !! k = s !! k) ->
                 wp (spin_while E rate sched)
                   (fun r2 s2 w2 t2 =>
                      loop_post s rate (S (length sched)) r2 s2 w2
                        ([] ++ t ++ [] ++ t2)) s1 w1).
      { intros s1 w1 Hs1. eapply wp_mono; [apply IH|]. cbv beta.
        intros r2 s2 w2 t2 (Hfr & (k & Hk & Hsl2) & Hro2 & Hty2).
        cbn [app]. unfold loop_post.
        split; [intros k' Hk'; by rewrite Hfr, Hs1|].
        split; [exists (S k); split; [lia|by rewrite sleeps_app, Hsl, Hsl2]|].
        split.
        - intros p m. rewrite published_app, elem_of_app.
          intros [H|H]; [by apply Hro|].
          apply (routed_same s s1); [exact Hs1|by apply Hro2].
        - rewrite published_types_app, sleeps_app, Hsl.
          cbn [app length replicate concat]. by apply sublist_app. }
      destruct b.
      * apply wp_setattr. cbn [app]. apply (Hnext _ w').
        intros k Hk. by rewrite lookup_insert_ne.
      * apply wp_ret. cbn [app]. by apply (Hnext s w').
    + unfold loop_post. cbn [app].
      split; [done|]. split; [exists 1; split; [lia|exact Hsl]|].
      split; [exact Hro|]. rewrite Hsl. cbn [length replicate concat].
      by rewrite app_nil_r.
Qed.

End Rounds.

(** ** How an iteration and the loop end *)

Section LoopEnds.
Context {World : Type} (E : Env World).

Lemma harmless_app t1 t2 : harmless (t1 ++ t2) = harmless t1 && harmless t2.
Proof. apply forallb_app. Qed.

Lemma printed_app t1 t2 : printed (t1 ++ t2) = printed t1 ++ printed t2.
Proof. apply omap_app. Qed.

(** A trace in which no call raised has no error at all. *)
Lemma clean_harmless t : clean t = true -> harmless t = true.
Proof.
  unfold clean, harmless. induction t as [|ev t IH]; [done|].
  cbn [forallb]. intros [Hev Ht]%andb_true_iff. rewrite (IH Ht), andb_true_r.
  by destruct ev as [X c [a|e]|X c x].
Qed.

Lemma swallowed_harmless t : swallowed t -> harmless t = true.
Proof.
  intros (t0 & X & c & e & -> & Hc & Hs & He).
  rewrite harmless_app, (clean_harmless _ Hc).
  unfold harmless, in_camera_try. cbn [forallb]. by rewrite Hs, He.
Qed.

Lemma camera_swallowed_harmless h rate t :
  camera_swallowed h rate t -> harmless t = true.
Proof.
  intros (t1 & t2 & t3 & t4 & -> & Hc & _ & _ & _ & Hsw).
  rewrite (app_assoc t2 t3 t4), (app_assoc t1 (t2 ++ t3) t4).
  change (harmless ([Ev (RateSleep rate) (Ok tt)] ++ (t1 ++ t2 ++ t3) ++ t4)
          = true).
  rewrite (harmless_app [_] _), (harmless_app (t1 ++ t2 ++ t3) t4).
  by rewrite (clean_harmless _ Hc), (swallowed_harmless _ Hsw).
Qed.

Lemma stops_aborts t e : stops t e -> aborts t e.
Proof.
  intros (t0 & X & c & -> & Hc & Hs). exists t0, X, c.
  auto using clean_harmless.
Qed.

(** A loop left by an error has an error that was not swallowed. *)
Lemma aborts_not_harmless t e : aborts t e -> harmless t = false.
Proof.
  intros (t0 & X & c & -> & _ & Hs). rewrite harmless_app.
  apply andb_false_intro2. unfold harmless, in_camera_try. cbn [forallb].
  destruct Hs as [Hs|[Hs He]]; rewrite Hs; [done|by rewrite He].
Qed.

Lemma stops_app t1 t2 e : clean t1 = true -> stops t2 e -> stops (t1 ++ t2) e.
Proof.
  intros H1 (t0 & X & c & -> & Hc & Hs). exists (t1 ++ t0), X, c.
  split; [by rewrite app_assoc|].
  split; [by rewrite clean_app, H1, Hc|exact Hs].
Qed.

Lemma aborts_app t1 t2 e :
  harmless t1 = true -> aborts t2 e -> aborts (t1 ++ t2) e.
Proof.
  intros H1 (t0 & X & c & -> & Hc & Hs). exists (t1 ++ t0), X, c.
  split; [by rewrite app_assoc|].
  split; [by rewrite harmless_app, H1, Hc|exact Hs].
Qed.

(** What a statement of the loop body delivers and how it treats an
    error, put together. *)
Lemma ends_of_plain h (m : M World unit) D (s : Self) w :
  wp m (iteration_post E h s D) s w -> wp m (shape_post false) s w ->
  wp m (ends_post s D never) s w.
Proof.
  unfold wp. intros (Hs & _ & _ & Hc) (Hp & Hr).
  split; [exact Hs|]. split; [exact Hp|].
  destruct (res (m s w)) as [[]|e]; [|exact Hr].
  destruct Hr as [Hcl|[[=] _]]. left. split; [exact Hcl|].
  by destruct (Hc Hcl).
Qed.

Lemma ends_of_camera h (m : M World unit) D (s : Self) w :
  wp m (iteration_post E h s D) s w -> wp m (shape_post true) s w ->
  wp m (ends_post s D swallowed) s w.
Proof.
  unfold wp. intros (Hs & _ & _ & Hc) (Hp & Hr).
  split; [exact Hs|]. split; [exact Hp|].
  destruct (res (m s w)) as [[]|e]; [|exact Hr].
  destruct Hr as [Hcl|[_ Hsw]]; [|by right]. left. split; [exact Hcl|].
  by destruct (Hc Hcl).
Qed.

(** Two statements of the loop body in sequence. *)
Lemma ends_seq h (m1 m2 : M World unit) (D1 D2 S2 : list event -> Prop) :
  (forall s w, launched s h -> wp m1 (ends_post s D1 never) s w) ->
  (forall s w, launched s h -> wp m2 (ends_post s D2 S2) s w) ->
  forall s w, launched s h ->
    wp (m1 ;; m2)
       (ends_post s
          (fun t => exists t1 t2, t = t1 ++ t2 /\ D1 t1 /\ D2 t2)
          (fun t => exists t1 t2,
                      t = t1 ++ t2 /\ clean t1 = true /\ D1 t1 /\ S2 t2))
       s w.
Proof.
  intros H1 H2 s w Hl. apply wp_bind.
  eapply wp_mono; [apply H1, Hl|]. cbv beta.
  intros r s' w' t (-> & Hp & Hr). destruct r as [[]|e].
  - destruct Hr as [[Hc HD1]|[]].
    eapply wp_mono; [apply H2, Hl|]. cbv beta.
    intros r2 s2 w2 t2 (-> & Hp2 & Hr2).
    split; [reflexivity|]. split; [by rewrite printed_app, Hp, Hp2|].
    destruct r2 as [[]|e].
    + destruct Hr2 as [[Hc2 HD2]|HS2].
      * left. split; [by rewrite clean_app, Hc, Hc2|eauto].
      * right. eauto 6.
    + by apply stops_app.
  - split; [reflexivity|]. split; [exact Hp|exact Hr].
Qed.

Lemma spin_body_ends h rate (s : Self) (w : World) :
  launched s h -> wp (spin_body E rate) (body_ends_post E h rate s) s w.
Proof.
  intros Hl. unfold spin_body.
  eapply wp_mono.
  - apply wp_conj; [|apply (spin_body_round E rate s w)].
    revert s w Hl.
    apply ends_seq;
      [intros; apply (ends_of_plain h); [by apply sleep_run
                                        |by eapply sleep_shape]|].
    apply ends_seq;
      [intros; apply (ends_of_plain h); [by apply publish_joint_states_run
                                        |by eapply publish_joint_states_shape]|].
    apply ends_seq;
      [intros; apply (ends_of_plain h); [by apply updateLasers_run
                                        |by eapply updateLasers_shape]|].
    apply ends_seq;
      [intros; apply (ends_of_plain h); [by apply broadcastOdom_run
                                        |by eapply broadcastOdom_shape]|].
    intros; apply (ends_of_camera h);
      [by apply broadcastCamera_run|by eapply broadcastCamera_shape].
  - cbv beta. intros r s' w' t [(-> & Hp & Hr) (_ & Hsl & _)].
    split; [reflexivity|]. split; [exact Hp|]. split; [exact Hsl|].
    destruct r as [[]|e]; [|exact Hr].
    destruct Hr as [[Hc HD]|HS].
    + left. split; [exact Hc|].
      destruct HD as (t1 & t2 & -> & -> & t3 & t4 & -> & Hjs & t5 & t6 & ->
                      & Hlas & t7 & t8 & -> & Hod & Hcam).
      exists t3, t5, t7, t8. auto.
    + right.
      destruct HS as (t1 & t2 & -> & _ & -> & t3 & t4 & -> & Hc3 & Hjs
                      & t5 & t6 & -> & Hc5 & Hlas & t7 & t8 & -> & Hc7 & Hod
                      & Hsw).
      exists t3, t5, t7, t8. split; [reflexivity|].
      split; [by rewrite !clean_app, Hc3, Hc5, Hc7|]. auto.
Qed.

(** The loop, on every schedule. *)
Lemma spin_while_ends h rate sched : forall (s : Self) (w : World) v,
  launched s h -> s !! "_wrapper_termination" = Some v ->
  wp (spin_while E rate sched) (loop_ends_post s) s w.
Proof.
  induction sched as [|b sched IH]; intros s w v Hl Hflag; cbn [spin_while].
  - apply wp_bind, wp_getattr. rewrite Hflag.
    destruct (truthy v); cbn [negb]; apply wp_ret; unfold loop_ends_post;
      cbn; auto.
  - apply wp_bind, wp_getattr. rewrite Hflag.
    destruct (truthy v) eqn:Hv; cbn [negb].
    { apply wp_ret. unfold loop_ends_post. cbn. auto. }
    apply wp_bind. eapply wp_mono; [by apply spin_body_ends|]. cbv beta.
    intros r s' w' t (-> & Hp & _ & Hr). destruct r as [[]|e].
    + assert (Hh : harmless t = true).
      { destruct Hr as [[Hc _]|Hsw];
          [by apply clean_harmless|by eapply camera_swallowed_harmless]. }
      apply wp_bind. destruct b.
      * apply wp_setattr. unfold wp.
        rewrite (spin_while_flagged E rate sched _ w' (VBool true));
          [|apply lookup_insert_eq|done].
        cbn [res self_of world_of trace app]. unfold loop_ends_post.
        rewrite !app_nil_r. auto.
      * apply wp_ret. eapply wp_mono; [by eapply IH|]. cbv beta.
        intros r2 s2 w2 t2 (Hp2 & Hr2). unfold loop_ends_post. cbn [app].
        split; [by rewrite printed_app, Hp, Hp2|].
        destruct r2 as [[|]|e].
        -- destruct Hr2 as [Hh2 Hs2].
           split; [by rewrite harmless_app, Hh, Hh2|exact Hs2].
        -- destruct Hr2 as [Hh2 Hs2].
           split; [by rewrite harmless_app, Hh, Hh2|exact Hs2].
        -- destruct Hr2 as [-> Ha]. split; [reflexivity|by apply aborts_app].
    + unfold loop_ends_post. cbn [app]. split; [exact Hp|].
      split; [reflexivity|by apply stops_aborts].
Qed.

(** The loop while the flag is not written, and when it is. *)
Lemma spin_while_harmless_goes_on h rate k : forall (s : Self) (w : World),
  launched s h -> s !! "_wrapper_termination" = Some (VBool false) ->
  wp (spin_while E rate (replicate k false)) (goes_on_post s rate k) s w.
Proof.
  induction k as [|k IH]; intros s w Hl Hflag; cbn [replicate spin_while].
  - wp_run. unfold goes_on_post. done.
  - wp_run.
    eapply wp_mono; [by apply spin_body_ends|]. cbv beta.
    intros r s' w' t (-> & _ & Hsl & Hr). destruct r as [[]|e].
    + wp_run. eapply wp_mono; [by apply IH|]. cbv beta.
      intros r2 s2 w2 t2 H2. unfold goes_on_post. cbn [app].
      rewrite harmless_app. intros [Ht Ht2]%andb_true_iff.
      destruct (H2 Ht2) as (-> & -> & Hsl2).
      by rewrite sleeps_app, Hsl, Hsl2.
    + unfold goes_on_post. cbn [app]. intros Hh.
      apply stops_aborts, aborts_not_harmless in Hr. congruence.
Qed.

Lemma spin_while_harmless_left h rate rest k : forall (s : Self) (w : World),
  launched s h -> s !! "_wrapper_termination" = Some (VBool false) ->
  wp (spin_while E rate (replicate k false ++ true :: rest))
     (left_post s rate k) s w.
Proof.
  induction k as [|k IH]; intros s w Hl Hflag;
    cbn [replicate app spin_while].
  - wp_run.
    eapply wp_mono; [by apply spin_body_ends|]. cbv beta.
    intros r s' w' t (-> & _ & Hsl & Hr). destruct r as [[]|e].
    + wp_run. unfold wp.
      rewrite (spin_while_flagged E rate rest _ w' (VBool true));
        [|apply lookup_insert_eq|done].
      cbn [res self_of world_of trace app]. unfold left_post.
      rewrite !app_nil_r. intros _. by rewrite Hsl.
    + unfold left_post. cbn [app]. intros Hh.
      apply stops_aborts, aborts_not_harmless in Hr. congruence.
  - wp_run.
    eapply wp_mono; [by apply spin_body_ends|]. cbv beta.
    intros r s' w' t (-> & _ & Hsl & Hr). destruct r as [[]|e].
    + wp_run. eapply wp_mono; [by apply IH|]. cbv beta.
      intros r2 s2 w2 t2 H2. unfold left_post. cbn [app].
      rewrite harmless_app. intros [Ht Ht2]%andb_true_iff.
      destruct (H2 Ht2) as (-> & -> & Hsl2).
      by rewrite sleeps_app, Hsl, Hsl2.
    + unfold left_post. cbn [app]. intros Hh.
      apply stops_aborts, aborts_not_harmless in Hr. congruence.
Qed.

End LoopEnds.

(** ** What becomes of the errors *)

Section LastRaise.








End LastRaise.


Section Verdicts.
Context {World : Type} (E : Env World).









End Verdicts.

(** ** One iteration and the next *)

Section Step.
Context {World : Type} (E : Env World).



End Step.
(** * The claims *)

Section Claims.
Context {World : Type} (E : Env World).

(** C1: once [launchWrapper] has subscribed to the four command topics with
    their callbacks, each callback makes exactly one call, on the robot the
    wrapper was launched with: [move] for a Twist on /cmd_vel, [setAngles]
    for joint angles on /joint_angles, an asynchronous [moveTo] with the
    goal's position, yaw, frame and speed on /move_base_simple/goal, and an
    asynchronous [moveTo(0, 0, 0)] on /move_base_simple/cancel. *)
Theorem commands_are_forwarded vp ns f (s0 : Self) (w0 : World) :
  let o := launchWrapper E vp ns f s0 w0 in
  subscribed (trace o) =
    [ ("/joint_angles", TJointAnglesWithSpeed, M_jointAnglesCallback);
      ("/cmd_vel", TTwist, M_velocityCallback);
      ("/move_base_simple/goal", TPoseStampedWithSpeed, M_moveToCallback);
      ("/move_base_simple/cancel", TEmpty, M_killMoveCallback) ] ->
  forall (s : Self) (w : World),
    s !! "virtual_pepper" = self_of o !! "virtual_pepper" ->
    (forall msg : Twist, exists r,
        trace (_velocityCallback E msg s w) =
          [Ev (SimMove vp (v_x (linear msg)) (v_y (linear msg))
                 (v_z (angular msg))) r]) /\
    (forall msg : JointAnglesWithSpeed, exists velocity r,
        trace (_jointAnglesCallback E msg s w) =
          [Ev (SimSetAngles vp (joint_names msg) (joint_angles msg) velocity)
              r]) /\
    (forall msg : PoseStampedWithSpeed, exists theta r,
        theta =
          (getEulerFromQuaternion E
             (qx (pose_orientation (pose_stamped_pose msg)))
             (qy (pose_orientation (pose_stamped_pose msg)))
             (qz (pose_orientation (pose_stamped_pose msg)))
             (qw (pose_orientation (pose_stamped_pose msg)))).2 /\
        trace (_moveToCallback E msg s w) =
          [Ev (SimMoveTo vp
                 (PFloat (v_x (position (pose_stamped_pose msg))))
                 (PFloat (v_y (position (pose_stamped_pose msg))))
                 (PFloat theta)
                 (Some (referenceFrame msg))
                 (Some (speed_percentage msg * MAX_LINEAR_VELOCITY E
                        + MIN_LINEAR_VELOCITY E)%float)
                 true) r]) /\
    (forall msg : EmptyMsg, exists r,
        trace (_killMoveCallback E msg s w) =
          [Ev (SimMoveTo vp (PInt 0) (PInt 0) (PInt 0) None None true) r]).
Proof.
  cbv zeta. intros Hs.
  destruct (launchWrapper_run E vp ns f s0 w0) as (_ & _ & _ & Hvp & _).
  rewrite Hs in Hvp. specialize (Hvp ltac:(discriminate)).
  intros s w Heq. rewrite Hvp in Heq.
  repeat split; intros msg.
  - destruct (velocityCallback_run E msg vp s w Heq) as (_ & Ht & _). eauto.
  - destruct (jointAnglesCallback_run E msg vp s w Heq) as (_ & Ht & _). eauto.
  - destruct (moveToCallback_run E msg vp s w Heq) as (_ & Ht & _).
    eexists _, _. split; [reflexivity|exact Ht].
  - destruct (killMoveCallback_run E msg vp s w Heq) as (_ & Ht & _). eauto.
Qed.



(** C4, amended: [_spin] makes its rate from the configured frequency and
    runs the loop: sleep on the rate, publish, repeat.  From a launched
    instance with the flag unset: as long as no call raises, but for
    [AssertionError]s inside the [try] of [_broadcastCamera], which are
    swallowed there, the loop is still running after any number of
    iterations during which the flag is not written, having slept once per
    iteration, and it is left right after the iteration during which
    [stopWrapper] writes the flag.  A loop left by its test has the flag
    set.  On every schedule the loop prints nothing, and it raises only at
    a call of its body that raised, outside that [try] or with another
    error than [AssertionError], leaving the instance, the flag included,
    as it was; [_spin] then prints the error and returns if it is an
    [Exception], and raises it if it is not. *)
Theorem spin_loop_ends_on_flag_or_exception h rate (s : Self) (w : World) :
  launched s h ->
  s !! "_wrapper_termination" = Some (VBool false) ->
  (forall k,
      let o := spin_while E rate (replicate k false) s w in
      clean (trace o) = true ->
      res o = Ok LoopRunning /\ self_of o = s /\
      iterations E h rate k (trace o)) /\
  (forall k rest,
      let o := spin_while E rate (replicate k false ++ true :: rest) s w in
      clean (trace o) = true ->
      res o = Ok LoopLeft /\
      self_of o = <["_wrapper_termination" := VBool true]> s /\
      iterations E h rate (S k) (trace o)) /\
  (forall k,
      let o := spin_while E rate (replicate k false) s w in
      harmless (trace o) = true ->
      res o = Ok LoopRunning /\ self_of o = s /\
      sleeps (trace o) = replicate k rate) /\
  (forall k rest,
      let o := spin_while E rate (replicate k false ++ true :: rest) s w in
      harmless (trace o) = true ->
      res o = Ok LoopLeft /\
      self_of o = <["_wrapper_termination" := VBool true]> s /\
      sleeps (trace o) = replicate (S k) rate) /\
  (forall sched,
      let o := spin_while E rate sched s w in
      res o = Ok LoopLeft ->
      exists v,
        self_of o !! "_wrapper_termination" = Some v /\ truthy v = true) /\
  (forall sched,
      let o := spin_while E rate sched s w in
      printed (trace o) = [] /\
      match res o with
      | Ok _ => harmless (trace o) = true /\ spin_loop E rate sched s w = o
      | Raise e =>
          self_of o = s /\
          (exists t0 X (c : call X),
              trace o = t0 ++ [Ev c (Raise e)] /\ harmless t0 = true /\
              (site_of c = Loop \/
               (site_of c = CameraTry /\ is_AssertionError e = false))) /\
          if is_Exception e
          then exists w',
                 spin_loop E rate sched s w =
                   mkOut (Ok LoopLeft) s w'
                     (trace o
                      ++ [REv (Print ("Stopping the ROS wrapper: " ++ str e))
                              tt])
          else spin_loop E rate sched s w = o
      end) /\
  (forall sched f w1,
      s !! "frequency" = Some f ->
      env E (RosRate f) w = (Ok rate, w1) ->
      res (_spin E sched s w) = res (spin_loop E rate sched s w1) /\
      self_of (_spin E sched s w) = self_of (spin_loop E rate sched s w1) /\
      trace (_spin E sched s w)
        = Ev (RosRate f) (Ok rate) :: trace (spin_loop E rate sched s w1)).
Proof.
  intros Hl Hflag.
  split; [intros k; exact (spin_while_goes_on E h rate k s w Hl Hflag)|].
  split; [intros k rest; exact (spin_while_stops E h rate rest k s w Hl Hflag)|].
  split; [intros k; exact (spin_while_harmless_goes_on E h rate k s w Hl Hflag)|].
  split;
    [intros k rest;
     exact (spin_while_harmless_left E h rate rest k s w Hl Hflag)|].
  split; [intros sched; exact (spin_while_left_flag E rate sched s w)|].
  split; [|intros sched f w1; apply spin_rate].
  intros sched o.
  pose proof (spin_while_ends E h rate sched s w _ Hl Hflag) as [Hp Hend].
  change (printed (trace o) = []) in Hp.
  change (match res o with
          | Ok LoopLeft =>
              harmless (trace o) = true /\
              (self_of o = s \/
               self_of o = <["_wrapper_termination" := VBool true]> s)
          | Ok LoopRunning => harmless (trace o) = true /\ self_of o = s
          | Raise e => self_of o = s /\ aborts (trace o) e
          end) in Hend.
  split; [exact Hp|].
  destruct (res o) as [st|e] eqn:Hr.
  - split; [destruct st; tauto|].
    unfold spin_loop, try_except. cbv zeta. fold o. by rewrite Hr.
  - destruct Hend as [Hs Ha]. split; [exact Hs|]. split; [exact Ha|].
    destruct (is_Exception e) eqn:He.
    + destruct (spin_loop_reports E rate sched s w e Hr He) as [w' Heq].
      exists w'. rewrite Heq. fold o. by rewrite Hs.
    + unfold spin_loop. exact (try_except_uncaught _ _ _ s w e Hr He).
Qed.


(** C6: the topics [launchWrapper] advertises and subscribes to are, in
    order, the seven namespace-prefixed names and the six fixed ones, and
    never any other; when the method returns, each publisher attribute
    holds the publisher advertised on its topic. *)
Theorem topics_are_fixed vp ns f (s : Self) (w : World) :
  let o := launchWrapper E vp ns f s w in
  let topics :=
    [ ((ns ++ "/camera/front/image_raw")%string, TImage);
      ((ns ++ "/camera/front/camera_info")%string, TCameraInfo);
      ((ns ++ "/camera/bottom/image_raw")%string, TImage);
      ((ns ++ "/camera/bottom/camera_info")%string, TCameraInfo);
      ((ns ++ "/camera/depth/image_raw")%string, TImage);
      ((ns ++ "/camera/depth/camera_info")%string, TCameraInfo);
      ((ns ++ "/laser")%string, TLaserScan);
      ("/joint_states", TJointState);
      ("odom", TOdometry) ] in
  let subscriptions :=
    [ ("/joint_angles", TJointAnglesWithSpeed, M_jointAnglesCallback);
      ("/cmd_vel", TTwist, M_velocityCallback);
      ("/move_base_simple/goal", TPoseStampedWithSpeed, M_moveToCallback);
      ("/move_base_simple/cancel", TEmpty, M_killMoveCallback) ] in
  advertised (trace o) `prefix_of` topics /\
  subscribed (trace o) `prefix_of` subscriptions /\
  (res o = Ok tt ->
     advertised (trace o) = topics /\
     subscribed (trace o) = subscriptions /\
     Forall2 (wired (self_of o) (trace o))
       [ "front_cam_pub"; "front_info_pub"; "bottom_cam_pub";
         "bottom_info_pub"; "depth_cam_pub"; "depth_info_pub"; "laser_pub";
         "joint_states_pub"; "odom_pub" ] topics).
Proof.
  cbv zeta.
  destruct (launchWrapper_run E vp ns f s w) as (Ha & Hs & _ & _ & Hok).
  split; [exact Ha|]. split; [exact Hs|].
  intros Hr. destruct (Hok Hr) as (Ha' & Hs' & _ & _ & Hw). auto.
Qed.

(** C7: the wrapper keeps no sensor value.  An iteration of the loop leaves
    the instance as it was and makes no control call on the robot; every
    message it publishes and every transform it sends carries what calls of
    that same iteration read from the robot.  The callbacks leave the
    instance as it was too, and the constructor, [launchWrapper] and
    [stopWrapper] read no sensor at all. *)
Theorem wrapper_owns_no_sensor_state h rate (s : Self) (w : World) :
  launched s h ->
  let o := spin_body E rate s w in
  self_of o = s /\
  quiet (trace o) = true /\
  (forall p m, (p, m) ∈ published (trace o) ->
               msg_sourced E (h_robot h) (trace o) m) /\
  (forall m, m ∈ transforms (trace o) ->
             tf_sourced E (h_robot h) (trace o) m) /\
  (forall msg, self_of (_jointAnglesCallback E msg s w) = s) /\
  (forall msg, self_of (_velocityCallback E msg s w) = s) /\
  (forall msg, self_of (_moveToCallback E msg s w) = s) /\
  (forall msg, self_of (_killMoveCallback E msg s w) = s) /\
  (forall (s0 : Self) w0,
      sensorless (trace (RosWrapper__init__ E s0 w0)) = true) /\
  (forall vp ns f (s0 : Self) w0,
      sensorless (trace (launchWrapper E vp ns f s0 w0)) = true) /\
  (forall (s0 : Self) w0, sensorless (trace (stopWrapper E s0 w0)) = true).
Proof.
  intros Hl o.
  destruct (spin_body_run E h rate s w Hl) as (Hs & Hq & [Hp Ht] & _).
  pose proof (l_robot _ _ Hl) as Hvp.
  split; [exact Hs|]. split; [exact Hq|]. split; [exact Hp|].
  split; [exact Ht|].
  split; [intros msg; by destruct (jointAnglesCallback_run E msg _ s w Hvp)|].
  split; [intros msg; by destruct (velocityCallback_run E msg _ s w Hvp)|].
  split; [intros msg; by destruct (moveToCallback_run E msg _ s w Hvp)|].
  split; [intros msg; by destruct (killMoveCallback_run E msg _ s w Hvp)|].
  split; [intros s0 w0; by destruct (init_run E s0 w0)|].
  split; [|intros s0 w0; exact (stopWrapper_sensorless E s0 w0)].
  intros vp ns f s0 w0.
  by destruct (launchWrapper_run E vp ns f s0 w0) as (_ & _ & Hsl & _).
Qed.

(** C8: if the ROS stack could not be imported, the constructor (of
    [RosWrapper] and so of [PepperRosWrapper]) and [launchWrapper] raise
    [pybullet.error] with the import error's message; the instance is left
    as it was and no collaborator has been called. *)
Theorem missing_import_raises m (s : Self) (w : World) :
  MISSING_IMPORT E = Some m ->
  RosWrapper__init__ E s w = mkOut (Raise (Exn PybulletError m)) s w [] /\
  PepperRosWrapper__init__ E s w
    = mkOut (Raise (Exn PybulletError m)) s w [] /\
  forall vp ns f,
    launchWrapper E vp ns f s w = mkOut (Raise (Exn PybulletError m)) s w [].
Proof.
  intros Hm.
  unfold PepperRosWrapper__init__, RosWrapper__init__, launchWrapper.
  repeat split; intros; by apply bind_raises, check_import_raises.
Qed.

(** C9: the joint-angles callback, run on an instance that holds a robot
    (as [launchWrapper] makes it before it subscribes), makes one
    [setAngles] call whose velocity is the list [msg.speeds] when that list
    is not empty and the scalar [msg.speed] when it is. *)
Theorem joint_angles_velocity msg vp (s : Self) (w : World) :
  s !! "virtual_pepper" = Some (VRobot vp) ->
  exists r,
    trace (_jointAnglesCallback E msg s w) =
      [Ev (SimSetAngles vp (joint_names msg) (joint_angles msg)
             (match speeds msg with
              | [] => VelScalar (speed msg)
              | _ :: _ => VelList (speeds msg)
              end)) r].
Proof.
  intros Hvp.
  destruct (jointAnglesCallback_run E msg vp s w Hvp) as (_ & Ht & _). eauto.
Qed.

(** C10: [_getJointStateMsg] returns a message when no call raises; the
    names of a message it returns are the keys of the robot's [joint_dict]
    followed by WheelFL, WheelFR, WheelB, its positions are what
    [getAnglesPosition] answered for those keys followed by three zeros,
    and the two lists have the same length when the robot answered one
    position per key. *)
Theorem joint_state_names_and_positions vp (s : Self) (w : World) :
  s !! "virtual_pepper" = Some (VRobot vp) ->
  let o := _getJointStateMsg E s w in
  (clean (trace o) = true -> exists m, res o = Ok m) /\
  forall m, res o = Ok m ->
    exists keys positions,
      Ev (SimJointDictKeys vp) (Ok keys) ∈ trace o /\
      Ev (SimGetAnglesPosition vp keys) (Ok positions) ∈ trace o /\
      js_name m = keys ++ ["WheelFL"; "WheelFR"; "WheelB"] /\
      js_position m = map PFloat positions ++ [PInt 0; PInt 0; PInt 0] /\
      (length positions = length keys ->
       length (js_name m) = length (js_position m)).
Proof.
  intros Hvp o. pose proof (getJointStateMsg_run E vp s w Hvp) as H.
  unfold wp in H. fold o in H. split.
  - intros Hc. destruct (res o) as [m|e]; [eauto|congruence].
  - intros m Hm. rewrite Hm in H.
    destruct H as (keys & positions & Hk & Hp & Hn & Hpos).
    exists keys, positions. repeat split; try done.
    intros Hlen. rewrite Hn, Hpos, !length_app, length_map, Hlen. done.
Qed.

End Claims.

(** * The claims on the scripted environment *)

(** The instance built by the constructor and [launchWrapper] in the
    nominal environment is launched and constructed, with its flag unset. *)
Lemma launched_self_launched :
  launched Script.launched_self Script.launched_handles.
Proof. constructor; vm_compute; reflexivity. Qed.

Lemma launched_self_constructed : constructed Script.launched_self.
Proof.
  split; [exists (VThread 25)|right; exists 22]; vm_compute; reflexivity.
Qed.

Lemma launched_self_flag :
  Script.launched_self !! "_wrapper_termination" = Some (VBool false).
Proof. vm_compute; reflexivity. Qed.

Lemma commands_are_forwarded_witness :
  subscribed (trace (launchWrapper Script.nominal 5 "/pepper"
                       default_frequency Script.constructed_self 3)) =
    [ ("/joint_angles", TJointAnglesWithSpeed, M_jointAnglesCallback);
      ("/cmd_vel", TTwist, M_velocityCallback);
      ("/move_base_simple/goal", TPoseStampedWithSpeed, M_moveToCallback);
      ("/move_base_simple/cancel", TEmpty, M_killMoveCallback) ] /\
  exists r,
    trace (_velocityCallback Script.nominal Script.a_twist
             Script.launched_self 40) =
      [Ev (SimMove 5 0.2 0.0 0.5) r].
Proof.
  assert (H : subscribed (trace (launchWrapper Script.nominal 5 "/pepper"
                                   default_frequency Script.constructed_self
                                   3)) = the_subscriptions)
    by (vm_compute; reflexivity).
  split; [exact H|].
  destruct (commands_are_forwarded Script.nominal 5 "/pepper"
              default_frequency Script.constructed_self 3 H
              Script.launched_self 40 eq_refl) as (Hv & _).
  exact (Hv Script.a_twist).
Defined.



(** The camera fails an assertion of its own while it is asked for its
    frame: the iteration returns all the same, having published the joint
    states, the lasers and the odometry. *)
Lemma iteration_swallows_camera_assertion :
  let o := spin_body (Raising.asserting_at 120) 3 Script.launched_self 100 in
  res o = Ok tt /\ clean (trace o) = false /\
  last (trace o) = Some (Ev (CamGetFrame 7) (Raise (Exn AssertionError ""))) /\
  map fst (published (trace o)) = [11; 10; 12].
Proof. vm_compute. repeat split. Qed.



(** ROS shuts down during the first sleep: [_spin] returns, having printed
    the exception, and the flag is still unset. *)
Lemma spin_ends_with_flag_unset :
  let o := _spin (Script.shutdown_at 101) [false; false; false]
             Script.launched_self 100 in
  res o = Ok LoopLeft /\
  self_of o !! "_wrapper_termination" = Some (VBool false) /\
  trace o =
    [ Ev (RosRate (VNum (PInt 200))) (Ok 100);
      Ev (RateSleep 100)
         (Raise (Exn ROSInterruptException "ROS shutdown request"));
      REv (Print "Stopping the ROS wrapper: ROS shutdown request") tt ].
Proof. vm_compute. repeat split. Qed.

(** The camera fails an assertion of its own during the first iteration:
    nothing is printed and the loop is still running after the second
    one; a keyboard interrupt during the first sleep leaves [_spin]
    unprinted, with the flag unset. *)
Lemma spin_goes_on_or_is_interrupted :
  let o := _spin (Raising.asserting_at 121) [false; false]
             Script.launched_self 100 in
  let o' := _spin (Raising.interrupted_at 101) [false; false]
              Script.launched_self 100 in
  res o = Ok LoopRunning /\ clean (trace o) = false /\
  sleeps (trace o) = [100; 100] /\ printed (trace o) = [] /\
  res o' = Raise (Exn KeyboardInterrupt "") /\ printed (trace o') = [] /\
  self_of o' !! "_wrapper_termination" = Some (VBool false).
Proof. vm_compute. repeat split. Qed.

Lemma spin_loop_ends_on_flag_or_exception_witness :
  launched Script.launched_self Script.launched_handles /\
  Script.launched_self !! "_wrapper_termination" = Some (VBool false) /\
  clean (trace (spin_while Script.nominal 3 [false; true]
                  Script.launched_self 100)) = true /\
  res (spin_while Script.nominal 3 [false; true] Script.launched_self 100)
    = Ok LoopLeft.
Proof.
  assert (Hc : clean (trace (spin_while Script.nominal 3 [false; true]
                               Script.launched_self 100)) = true)
    by (vm_compute; reflexivity).
  split; [exact launched_self_launched|].
  split; [exact launched_self_flag|]. split; [exact Hc|].
  destruct (spin_loop_ends_on_flag_or_exception Script.nominal
              Script.launched_handles 3 Script.launched_self 100
              launched_self_launched launched_self_flag) as (_ & Hstop & _).
  exact (proj1 (Hstop 1 [] Hc)).
Defined.



Lemma topics_are_fixed_witness :
  let o := launchWrapper Script.nominal 5 "/pepper" default_frequency
             Script.constructed_self 3 in
  res o = Ok tt /\
  advertised (trace o) =
    [ ("/pepper/camera/front/image_raw", TImage);
      ("/pepper/camera/front/camera_info", TCameraInfo);
      ("/pepper/camera/bottom/image_raw", TImage);
      ("/pepper/camera/bottom/camera_info", TCameraInfo);
      ("/pepper/camera/depth/image_raw", TImage);
      ("/pepper/camera/depth/camera_info", TCameraInfo);
      ("/pepper/laser", TLaserScan);
      ("/joint_states", TJointState);
      ("odom", TOdometry) ].
Proof.
  cbv zeta.
  assert (H : res (launchWrapper Script.nominal 5 "/pepper" default_frequency
                     Script.constructed_self 3) = Ok tt)
    by (vm_compute; reflexivity).
  split; [exact H|].
  destruct (topics_are_fixed Script.nominal 5 "/pepper" default_frequency
              Script.constructed_self 3) as (_ & _ & Hok).
  exact (proj1 (Hok H)).
Defined.

Lemma wrapper_owns_no_sensor_state_witness :
  launched Script.launched_self Script.launched_handles /\
  self_of (spin_body Script.nominal 3 Script.launched_self 100)
    = Script.launched_self.
Proof.
  split; [exact launched_self_launched|].
  exact (proj1 (wrapper_owns_no_sensor_state Script.nominal
                  Script.launched_handles 3 Script.launched_self 100
                  launched_self_launched)).
Defined.

Lemma missing_import_raises_witness :
  MISSING_IMPORT Script.no_ros = Some "No module named rospy" /\
  RosWrapper__init__ Script.no_ros ∅ 0
    = mkOut (Raise (Exn PybulletError "No module named rospy")) ∅ 0 [] /\
  launchWrapper Script.no_ros 5 "/pepper" default_frequency ∅ 0
    = mkOut (Raise (Exn PybulletError "No module named rospy")) ∅ 0 [].
Proof.
  assert (H : MISSING_IMPORT Script.no_ros = Some "No module named rospy")
    by reflexivity.
  destruct (missing_import_raises Script.no_ros _ ∅ 0 H) as (Hi & _ & Hl).
  split; [exact H|]. split; [exact Hi|apply Hl].
Defined.

Lemma joint_angles_velocity_witness :
  Script.launched_self !! "virtual_pepper" = Some (VRobot 5) /\
  exists r,
    trace (_jointAnglesCallback Script.nominal Script.some_joint_angles
             Script.launched_self 40) =
      [Ev (SimSetAngles 5 ["HeadYaw"; "HeadPitch"] [0.1; 0.2]%float
             (VelScalar 0.5)) r].
Proof.
  assert (H : Script.launched_self !! "virtual_pepper" = Some (VRobot 5))
    by (vm_compute; reflexivity).
  split; [exact H|].
  exact (joint_angles_velocity Script.nominal Script.some_joint_angles 5
           Script.launched_self 40 H).
Defined.

Lemma joint_state_names_and_positions_witness :
  Script.launched_self !! "virtual_pepper" = Some (VRobot 5) /\
  clean (trace (_getJointStateMsg Script.nominal Script.launched_self 100))
    = true /\
  exists m,
    res (_getJointStateMsg Script.nominal Script.launched_self 100) = Ok m.
Proof.
  assert (H : Script.launched_self !! "virtual_pepper" = Some (VRobot 5))
    by (vm_compute; reflexivity).
  assert (Hc : clean (trace (_getJointStateMsg Script.nominal
                               Script.launched_self 100)) = true)
    by (vm_compute; reflexivity).
  split; [exact H|]. split; [exact Hc|].
  exact (proj1 (joint_state_names_and_positions Script.nominal 5
                  Script.launched_self 100 H) Hc).
Defined.

(** * Further properties *)

(** What the methods do beside what is stated above: how [launchWrapper]
    starts the thread and treats the robot description, what the
    constructor leaves, what the callbacks do on any instance, the layout
    of the messages, the ways out of an iteration, and how the methods
    compose. *)

(** ** [launchWrapper] *)

Section LaunchThread.
Context {World : Type} (E : Env World).

Lemma launchWrapper_thread vp ns f (s : Self) (w : World) :
  wp (launchWrapper E vp ns f) (thread_post E ns s) s w.
Proof.
  unfold launchWrapper, advertise_ns, advertise, start_robot_state_publisher,
    launch_robot_state_publisher.
  wp_run; cbn [app]; unfold thread_post.
  all: first
    [ left; split; [reflexivity|]; split; [reflexivity|];
      split; [look; reflexivity|];
      intros Hc; first [discriminate Hc | congruence]
    | right; eexists _, _, _; split; [reflexivity|]; split; [reflexivity|];
      split;
      [ lazymatch goal with
        | |- ?l = ?t0 ++ _ =>
            let x := eval cbn in (take (length l - 5) l) in
            unify t0 x; look; reflexivity
        end |];
      split; [reflexivity|]; split; [reflexivity|];
      split; [look; reflexivity|]; split; [look; reflexivity|];
      split; [look; reflexivity|]; split; reflexivity ].
Qed.
End LaunchThread.

Section LaunchUnstarted.
Context {World : Type} (E : Env World).

Lemma launchWrapper_unstarted vp ns f (s : Self) (w : World) :
  wp (launchWrapper E vp ns f) (unstarted_post ns s) s w.
Proof.
  unfold launchWrapper, advertise_ns, advertise, start_robot_state_publisher,
    launch_robot_state_publisher.
  wp_run; cbn [app]; unfold unstarted_post.
  all: intros Hr Hth; try discriminate Hr; try discriminate Hth.
  all: eexists; cbv zeta; split; [reflexivity|]; split; [reflexivity|].
  all: split; [assumption|]; split; [eexists _, _; in_trace|].
  all: split; [reflexivity|]; split; [reflexivity|].
  all: split; look; reflexivity.
Qed.
End LaunchUnstarted.

Section LaunchDescription.
Context {World : Type} (E : Env World).

Lemma launchWrapper_description vp ns f (s : Self) (w : World) :
  wp (launchWrapper E vp ns f) description_post s w.
Proof.
  unfold launchWrapper, advertise_ns, advertise, start_robot_state_publisher,
    launch_robot_state_publisher.
  wp_run; cbn [app]; unfold description_post.
  all: split; [reflexivity|]; split; [cbn; lia|].
  all: intros name value Hin; cbn in Hin; split_in Hin; simplify_eq.
  all: split; [reflexivity|]; eexists _, _; repeat split; in_trace.
Qed.

Lemma launchWrapper_launcher vp ns f (s : Self) (w : World) :
  wp (launchWrapper E vp ns f) (launcher_post s) s w.
Proof.
  unfold launchWrapper, advertise_ns, advertise, start_robot_state_publisher,
    launch_robot_state_publisher.
  wp_run; cbn [app]; unfold launcher_post.
  all: split; [cbn; look; reflexivity|cbn; lia].
Qed.

End LaunchDescription.

(** ** The constructor *)

Section Constructor.
Context {World : Type} (E : Env World).

Lemma init_hook (s : Self) (w : World) :
  wp (RosWrapper__init__ E) (init_post s) s w.
Proof.
  unfold RosWrapper__init__. wp_run; cbn [app]; unfold init_post.
  all: split; [reflexivity|]; split; [reflexivity|]; split; [reflexivity|].
  all: split; [reflexivity|]; intros Hr; try discriminate Hr.
  eexists _, _. split; [in_trace|]. split; [in_trace|].
  split; [reflexivity|].
  repeat (split; [look; reflexivity|]).
  intros k Hk. unfold init_attrs in Hk.
  repeat (apply not_elem_of_cons in Hk as [? Hk]).
  by rewrite !lookup_insert_ne.
Qed.

(** On an instance that holds no thread and no launcher, [stopWrapper]
    sets the flag and does nothing else. *)
Lemma stopWrapper_idle (s : Self) (w : World) :
  s !! "spin_thread" = Some VNone ->
  s !! "roslauncher" = Some VNone ->
  stopWrapper E s w
    = mkOut (Ok tt) (<["_wrapper_termination" := VBool true]> s) w [].
Proof.
  intros Hth Hl.
  assert (H : wp (stopWrapper E)
                (fun r s' w' t =>
                   r = Ok tt /\
                   s' = <["_wrapper_termination" := VBool true]> s /\
                   w' = w /\ t = []) s w).
  { unfold stopWrapper, join_if_alive, join_spin_thread. wp_run. done. }
  unfold wp in H. destruct (stopWrapper E s w) as [r s' w' t].
  cbn in H. by destruct H as (-> & -> & -> & ->).
Qed.

End Constructor.

(** ** The callbacks on any instance *)

Section CallbacksAnywhere.
Context {World : Type} (E : Env World).

Lemma forward_any method (c : Robot -> call unit) (s : Self) (w : World) :
  wp (vp <- the_robot E method ;; ext E (c vp))
     (fun r s' w' t =>
        s' = s /\
        match s !! "virtual_pepper" with
        | Some (VRobot vp) => env E (c vp) w = (r, w') /\ t = [Ev (c vp) r]
        | Some v =>
            r = Raise (Exn AttributeError
                         (no_attribute (type_name v) method)) /\
            w' = w /\ t = []
        | None =>
            r = Raise (Exn AttributeError
                         (no_attribute (class_name E) "virtual_pepper")) /\
            w' = w /\ t = []
        end) s w.
Proof.
  destruct (s !! "virtual_pepper") as [v|] eqn:Hvp;
    [destruct v as [| | |n| | | | | | |]; [| | |destruct n|..]|];
    wp_run; (split; [reflexivity|]); auto.
Qed.

Lemma forward_command_only method (c : Robot -> call unit) (s : Self)
    (w : World) :
  (forall vp r, is_command (Ev (c vp) r) = true) ->
  (forall vp r, is_sensor_read (Ev (c vp) r) = false) ->
  (forall vp r, published [Ev (c vp) r] = []) ->
  (forall vp r, transforms [Ev (c vp) r] = []) ->
  command_only E method s w ((vp <- the_robot E method ;; ext E (c vp)) s w).
Proof.
  intros Hcmd Hsens Hpub Htf. pose proof (forward_any method c s w) as H.
  unfold wp in H. unfold command_only.
  destruct ((vp <- the_robot E method ;; ext E (c vp)) s w) as [r s' w' t].
  cbn [res self_of world_of trace] in *.
  destruct H as [-> H].
  destruct (s !! "virtual_pepper") as [v|];
    [destruct v as [| | |n| | | | | | |]; [| | |destruct n|..]|].
  all: try (destruct H as (-> & -> & ->); repeat split; try reflexivity;
            cbn; lia).
  destruct H as [Henv ->].
  split; [reflexivity|]. split; [apply Hpub|]. split; [apply Htf|].
  split; [unfold sensorless; cbn [forallb]; by rewrite Hsens|].
  split; [cbn; lia|].
  split; [cbn [forallb]; by rewrite Hcmd|].
  by eexists.
Qed.

Lemma velocityCallback_command_only msg (s : Self) (w : World) :
  command_only E "move" s w (_velocityCallback E msg s w).
Proof.
  apply (forward_command_only "move" (fun vp => SimMove vp _ _ _));
    reflexivity.
Qed.

Lemma jointAnglesCallback_command_only msg (s : Self) (w : World) :
  command_only E "setAngles" s w (_jointAnglesCallback E msg s w).
Proof.
  apply (forward_command_only "setAngles" (fun vp => SimSetAngles vp _ _ _));
    reflexivity.
Qed.

Lemma moveToCallback_command_only msg (s : Self) (w : World) :
  command_only E "moveTo" s w (_moveToCallback E msg s w).
Proof.
  apply (forward_command_only "moveTo" (fun vp => SimMoveTo vp _ _ _ _ _ _));
    reflexivity.
Qed.

Lemma killMoveCallback_command_only msg (s : Self) (w : World) :
  command_only E "moveTo" s w (_killMoveCallback E msg s w).
Proof.
  apply (forward_command_only "moveTo" (fun vp => SimMoveTo vp _ _ _ _ _ _));
    reflexivity.
Qed.

End CallbacksAnywhere.

(** ** The layout of the messages *)

Section Lasers.
Context {World : Type} (E : Env World).

Lemma updateLasers_layout (s : Self) (w : World) :
  wp (_updateLasers E) (laser_post s) s w.
Proof.
  unfold _updateLasers. wp_run; cbn [app]; unfold laser_post.
  all: intros ? ? Hin; cbn in Hin; split_in Hin; simplify_eq.
  all: split; [assumption|].
  all: eexists _, _, _, _, _; split; [reflexivity|]; split; [eassumption|].
  all: cbn [ls_header stamp frame_id angle_min angle_max range_min range_max
              angle_increment ranges].
  all: repeat (split; [first [in_trace | reflexivity]|]).
  all: apply scan_ranges_extend.
Qed.

Lemma scan_ranges_lists a b c :
  scan_ranges (LaserList a) (LaserList b) (LaserList c)
  = map PFloat (reverse a) ++ blind_zone
    ++ map PFloat (reverse b) ++ blind_zone ++ map PFloat (reverse c).
Proof.
  cbv [scan_ranges blind_zone]. by rewrite app_nil_r, <- !app_assoc.
Qed.

Lemma scan_ranges_length a b c :
  length (scan_ranges (LaserList a) (LaserList b) (LaserList c))
  = length a + length b + length c + 16.
Proof.
  rewrite scan_ranges_lists. unfold blind_zone.
  rewrite !length_app, !length_map, !length_reverse, !length_replicate. lia.
Qed.

End Lasers.

Section CameraInfoLayout.
Context {World : Type} (E : Env World).

Lemma broadcastCamera_info (s : Self) (w : World) :
  wp (_broadcastCamera E) (camera_info_post s) s w.
Proof.
  unfold _broadcastCamera, broadcast_active_camera.
  wp_run; cbn [app]; unfold camera_info_post.
  all: intros ? ? Hin; cbn in Hin; split_in Hin; simplify_eq.
  all: eexists _, _, _, _; split; [eassumption|].
  all: cbn [ci_header stamp frame_id distortion_model ci_D ci_K ci_R ci_P].
  all: repeat (split; [first [in_trace | reflexivity]|]).
  all: reflexivity.
Qed.

Lemma py_insert_length {A} i (x : A) l :
  length (py_insert i x l) = S (length l).
Proof.
  unfold py_insert. rewrite length_app. cbn [length].
  rewrite length_take, length_drop. lia.
Qed.

End CameraInfoLayout.

Section OdomLayout.
Context {World : Type} (E : Env World).

Lemma broadcastOdom_layout (s : Self) (w : World) :
  wp (_broadcastOdom E) (odom_post s) s w.
Proof.
  unfold _broadcastOdom. wp_run; cbn [app]; unfold odom_post.
  all: split; [cbn; lia|].
  all: split.
  all: try (intros ? Hin; cbn in Hin; split_in Hin; simplify_eq;
            cbn [ts_header frame_id stamp ts_child_frame_id translation_z];
            repeat (split; [reflexivity|]); in_trace).
  all: intros ? ? Hin; cbn in Hin; split_in Hin; simplify_eq.
  all: split; [assumption|].
  all: eexists _, _, _; split; [reflexivity|]; split; [in_trace|].
  all: split; [eassumption|].
  all: cbn [od_header frame_id stamp od_child_frame_id position_x position_y
              position_z orientation ts_header ts_child_frame_id
              translation_x translation_y rotation].
  all: repeat (split; [reflexivity|]); in_trace.
Qed.

End OdomLayout.

Section CameraImageLayout.
Context {World : Type} (E : Env World).

Lemma broadcastCamera_image (s : Self) (w : World) :
  wp (_broadcastCamera E) (camera_image_post E s) s w.
Proof.
  unfold _broadcastCamera, broadcast_active_camera.
  wp_run; cbn [app]; unfold camera_image_post.
  all: intros ? ? Hin; cbn in Hin; split_in Hin; simplify_eq.
  all: repeat match goal with
              | H : (_ =? _)%Z = true |- _ => apply Z.eqb_eq in H; subst
              end.
  all: eexists _, _, _, _, _, _, _, _; split; [eassumption|].
  all: cbn [img_header stamp frame_id encoding img_height img_width img_data].
  all: split; [unfold image_routes; in_trace|].
  all: split; [in_trace|]; split; [eassumption|]; split; [in_trace|].
  all: split; [eassumption|].
  all: repeat (split; [reflexivity|]).
  all: repeat (split; [in_trace|]); in_trace.
Qed.

End CameraImageLayout.

(** ** The ways out of an iteration *)

Section Skips.
Context {World : Type} (E : Env World).

(** A run whose result, instance, world and trace are known. *)
Lemma wp_known {A} (m : M World A) (s : Self) (w : World) r s1 w1 t1 :
  wp m (fun r' s' w' t => r' = r /\ s' = s1 /\ w' = w1 /\ t = t1) s w ->
  m s w = mkOut r s1 w1 t1.
Proof.
  unfold wp. destruct (m s w) as [r' s' w' t]. cbn.
  by intros (-> & -> & -> & ->).
Qed.

(** Two answers to the same call in the same world are one answer. *)
Ltac same_answer :=
  repeat match goal with
         | H : env ?E ?c ?w = _, H' : env ?E ?c ?w = _ |- _ =>
             rewrite H in H'; simplify_eq
         end.

Lemma updateLasers_inactive vp (s : Self) (w w1 : World) :
  s !! "virtual_pepper" = Some (VRobot vp) ->
  env E (SimLaserIsActive vp) w = (Ok false, w1) ->
  _updateLasers E s w
    = mkOut (Ok tt) s w1 [Ev (SimLaserIsActive vp) (Ok false)].
Proof.
  intros Hvp Hact. apply wp_known. unfold _updateLasers.
  wp_run; same_answer. done.
Qed.

Lemma broadcastCamera_no_camera vp (s : Self) (w w1 : World) :
  s !! "virtual_pepper" = Some (VRobot vp) ->
  env E (SimGetActiveCamera vp) w = (Ok None, w1) ->
  _broadcastCamera E s w
    = mkOut (Ok tt) s w1 [Ev (SimGetActiveCamera vp) (Ok None)].
Proof.
  intros Hvp Hcam. apply wp_known.
  unfold _broadcastCamera, broadcast_active_camera.
  wp_run; same_answer. done.
Qed.

Lemma broadcastCamera_no_frame vp camera (s : Self) (w w1 w2 : World) :
  s !! "virtual_pepper" = Some (VRobot vp) ->
  env E (SimGetActiveCamera vp) w = (Ok (Some camera), w1) ->
  env E (CamGetFrame camera) w1 = (Ok None, w2) ->
  _broadcastCamera E s w
    = mkOut (Ok tt) s w2 [Ev (SimGetActiveCamera vp) (Ok (Some camera));
                          Ev (CamGetFrame camera) (Ok None)].
Proof.
  intros Hvp Hcam Hframe. apply wp_known.
  unfold _broadcastCamera, broadcast_active_camera.
  wp_run; same_answer. done.
Qed.

End Skips.



(** ** [_spin] *)

Section Spin.
Context {World : Type} (E : Env World).

Lemma spin_rounds sched (s : Self) (w : World) :
  wp (_spin E sched) (spin_post s (length sched)) s w.
Proof.
  unfold _spin. apply wp_bind, wp_bind, wp_getattr.
  destruct (s !! "frequency") as [f|] eqn:Hf.
  2: { unfold spin_post. cbn. split; [done|]. split; [lia|].
       split; [by intros ? H; apply elem_of_nil in H|].
       split; [by intros ? ? H; apply elem_of_nil in H|apply sublist_nil_l]. }
  apply wp_ext. intros r w1 Hrate. destruct r as [rate|e].
  2: { unfold spin_post. cbn. split; [done|]. split; [lia|].
       split; [by intros ? H; apply elem_of_nil in H|].
       split; [by intros ? ? H; apply elem_of_nil in H|apply sublist_nil_l]. }
  unfold spin_loop. apply wp_try_except.
  eapply wp_mono; [apply spin_while_rounds|]. cbv beta.
  intros r s' w' t (Hfr & (k & Hk & Hsl) & Hro & Hty).
  assert (Hpost : forall r' t',
             sleeps t' = sleeps t -> published t' = published t ->
             spin_post s (length sched) r' s' w'
               (([] ++ [Ev (RosRate f) (Ok rate)]) ++ t')).
  { intros r' t' Hs0 Hp0. unfold spin_post. cbn [app].
    assert (Hsl' : sleeps (Ev (RosRate f) (Ok rate) :: t')
                   = replicate k rate).
    { change (Ev (RosRate f) (Ok rate) :: t')
        with ([Ev (RosRate f) (Ok rate)] ++ t').
      by rewrite sleeps_app, Hs0, Hsl. }
    assert (Hpub : published (Ev (RosRate f) (Ok rate) :: t')
                   = published t).
    { change (Ev (RosRate f) (Ok rate) :: t')
        with ([Ev (RosRate f) (Ok rate)] ++ t').
      by rewrite published_app, Hp0. }
    split; [exact Hfr|]. rewrite Hsl'.
    split; [by rewrite length_replicate|].
    split.
    - intros r0 Hr0. apply elem_of_replicate in Hr0 as [-> _].
      exists f. split; [done|]. apply list_elem_of_here.
    - split; [by rewrite Hpub|].
      unfold published_types. rewrite Hpub.
      rewrite Hsl in Hty. exact Hty. }
  destruct r as [a|e].
  - by apply (Hpost (Ok a)).
  - destruct (is_Exception e).
    + apply wp_bind, wp_rt. intros x w2 _. destruct x. apply wp_ret.
      apply (Hpost (Ok LoopLeft)).
      * rewrite sleeps_app. apply app_nil_r.
      * rewrite published_app. apply app_nil_r.
    + by apply (Hpost (Raise e)).
Qed.

End Spin.

Section Compose.
Context {World : Type} (E : Env World).

(** A transform handed to [sendTransform] is among the transforms. *)
Lemma sent_is_transform tb tf r (t : list event) :
  Ev (TfSendTransform tb tf) r ∈ t -> tf ∈ transforms t.
Proof.
  intros Hin. unfold transforms. apply list_elem_of_omap.
  eexists. split; [exact Hin|reflexivity].
Qed.

Lemma one_element {A} (x : A) l : length l <= 1 -> x ∈ l -> l = [x].
Proof.
  destruct l as [|y [|z l]]; cbn; intros Hlen Hin.
  - by apply elem_of_nil in Hin.
  - by apply list_elem_of_singleton in Hin as ->.
  - lia.
Qed.

Lemma rounds_length n : length (concat (replicate n the_round)) = 5 * n.
Proof.
  induction n as [|n IH]; [reflexivity|].
  cbn [replicate concat]. rewrite length_app, IH. cbn. lia.
Qed.

(** The import had not failed if the constructor returned. *)
Lemma init_ok_import (s : Self) (w : World) :
  res (RosWrapper__init__ E s w) = Ok tt -> MISSING_IMPORT E = None.
Proof.
  destruct (MISSING_IMPORT E) as [m|] eqn:Hm; [|done].
  unfold RosWrapper__init__.
  rewrite (bind_raises _ _ _ _ _ _ _ _ (check_import_raises E m s w Hm)).
  discriminate.
Qed.

End Compose.

(** ** The properties *)

Section Launching.
Context {World : Type} (E : Env World).

(** X1: [launchWrapper] starts the spin thread last, and only when all
    went well.  Either it made no thread at all, [spin_thread] is as it
    was, and a call raised (or the ROS import had failed); or every call
    returned and the method returned, and its trace ends with these five
    calls: the launcher is made, started and asked to launch the
    robot_state_publisher node, then the one thread is made, with target
    [_spin], and started.  The flag has been reset by the time the thread
    starts: the thread finds it unset.  The instance then holds that
    thread and that launcher, and all the topics were advertised and
    subscribed. *)
Theorem spin_thread_is_started_last vp ns f (s : Self) (w : World) :
  let o := launchWrapper E vp ns f s w in
  (threads_created (trace o) = [] /\ threads_started (trace o) = [] /\
   self_of o !! "spin_thread" = s !! "spin_thread" /\
   (clean (trace o) = true -> MISSING_IMPORT E <> None)) \/
  (exists l th t0,
      res o = Ok tt /\ clean (trace o) = true /\
      trace o = t0 ++ [ Ev RosLaunchNew (Ok l);
                        Ev (LauncherStart l) (Ok tt);
                        Ev (LauncherLaunch l robot_state_publisher) (Ok tt);
                        REv (ThreadNew M_spin) th;
                        REv (ThreadStart th (Some (VBool false))) tt ] /\
      threads_created (trace o) = [(M_spin, th)] /\
      threads_started (trace o) = [th] /\
      self_of o !! "spin_thread" = Some (VThread th) /\
      self_of o !! "roslauncher" = Some (VLauncher l) /\
      self_of o !! "_wrapper_termination" = Some (VBool false) /\
      advertised (trace o) = the_topics ns /\
      subscribed (trace o) = the_subscriptions).
Proof. exact (launchWrapper_thread E vp ns f s w). Qed.

(** X2: when [launchWrapper] returns without having started a thread, a
    call it made raised an [IOError]: the method printed
    "Could not retrieve robot descrition: " and the error's message as its
    last act, [spin_thread] and the flag are as they were, and the nine
    topics are advertised and the four subscribed all the same. *)
Theorem launch_without_thread_reports_ioerror vp ns f (s : Self) (w : World) :
  let o := launchWrapper E vp ns f s w in
  res o = Ok tt -> threads_started (trace o) = [] ->
  exists e,
    let line := ("Could not retrieve robot descrition: " ++ str e)%string in
    printed (trace o) = [line] /\
    last (trace o) = Some (REv (Print line) tt) /\
    is_IOError e = true /\
    (exists X (c : call X), Ev c (Raise e) ∈ trace o) /\
    advertised (trace o) = the_topics ns /\
    subscribed (trace o) = the_subscriptions /\
    self_of o !! "spin_thread" = s !! "spin_thread" /\
    self_of o !! "_wrapper_termination" = s !! "_wrapper_termination".
Proof. exact (launchWrapper_unstarted E vp ns f s w). Qed.

(** X3: [launchWrapper] closes the file it opens, whatever happens while
    it is read, and opens at most one; the only parameter it sets is
    /robot_description, to the text it read from share/urdf/pepper.urdf
    under the directory [roslib] gave for the naoqi_driver package. *)
Theorem robot_description_is_the_urdf_read vp ns f (s : Self) (w : World) :
  let o := launchWrapper E vp ns f s w in
  files_closed (trace o) = files_opened (trace o) /\
  length (files_opened (trace o)) <= 1 /\
  forall name value, (name, value) ∈ params_set (trace o) ->
    name = "/robot_description" /\
    exists dir fh,
      Ev (RoslibGetPkgDir "naoqi_driver") (Ok dir) ∈ trace o /\
      Ev (FileOpen (dir ++ "/share/urdf/pepper.urdf") "r") (Ok fh)
        ∈ trace o /\
      Ev (FileRead fh) (Ok value) ∈ trace o.
Proof. exact (launchWrapper_description E vp ns f s w). Qed.

(** X4: the constructor registers [stopWrapper] with [atexit] exactly when
    it returns, and as its last act: a constructor that raises leaves no
    exit hook.  It makes no thread and no topic.  When it returns the
    instance holds the bridge and the broadcaster it made, no thread, no
    launcher, an unset flag and three empty dictionaries, its other
    attributes being as before; and [stopWrapper] on that instance, as the
    exit hook would run it, sets the flag and calls nothing. *)
Theorem constructor_registers_exit_hook (s : Self) (w : World) :
  let o := RosWrapper__init__ E s w in
  exit_hooks (trace o)
    = match res o with Ok _ => [M_stopWrapper] | Raise _ => [] end /\
  threads_created (trace o) = [] /\
  advertised (trace o) = [] /\ subscribed (trace o) = [] /\
  (res o = Ok tt ->
   (exists b tb,
       Ev CvBridgeNew (Ok b) ∈ trace o /\
       Ev TfTransformBroadcaster (Ok tb) ∈ trace o /\
       last (trace o) = Some (REv (AtexitRegister M_stopWrapper) tt) /\
       self_of o !! "spin_thread" = Some VNone /\
       self_of o !! "_wrapper_termination" = Some (VBool false) /\
       self_of o !! "image_bridge" = Some (VBridge b) /\
       self_of o !! "front_info_msg" = Some (VDict []) /\
       self_of o !! "bottom_info_msg" = Some (VDict []) /\
       self_of o !! "depth_info_msg" = Some (VDict []) /\
       self_of o !! "roslauncher" = Some VNone /\
       self_of o !! "transform_broadcaster" = Some (VBroadcaster tb) /\
       forall k, k ∉ init_attrs -> self_of o !! k = s !! k) /\
   forall w',
     stopWrapper E (self_of o) w'
       = mkOut (Ok tt)
           (<["_wrapper_termination" := VBool true]> (self_of o)) w' []).
Proof.
  cbv zeta. destruct (init_hook E s w) as (Hh & Hth & Ha & Hs & Hok).
  split; [exact Hh|]. split; [exact Hth|]. split; [exact Ha|].
  split; [exact Hs|]. intros Hr. split; [exact (Hok Hr)|].
  destruct (Hok Hr) as (b & tb & _ & _ & _ & Hsp & _ & _ & _ & _ & _ & Hl & _).
  intros w'. by apply stopWrapper_idle.
Qed.

End Launching.

Section Commands.
Context {World : Type} (E : Env World).

(** X5: on any instance, a command callback leaves the instance alone,
    publishes nothing, sends no transform and reads no sensor: its trace,
    which records the calls on the robot, on ROS and on the runtime, is at
    most one call, a control call on the robot.  (The conversion of the
    goal's quaternion by pybullet, which [_moveToCallback] applies to the
    message before anything else, is a function of the environment here,
    not a call of the trace.)  On an instance that holds a robot the trace
    is that one call and the callback returns what the call returns.  On an
    instance without [virtual_pepper], as before [launchWrapper], it raises
    the [AttributeError] of the instance for that attribute, and on one
    where [virtual_pepper] is no robot the [AttributeError] of that object
    for the method called; the trace is then empty. *)
Theorem callbacks_only_command (s : Self) (w : World) :
  let outcome (method : string) (o : Out World unit) :=
    self_of o = s /\
    published (trace o) = [] /\ transforms (trace o) = [] /\
    sensorless (trace o) = true /\
    length (trace o) <= 1 /\ forallb is_command (trace o) = true /\
    match s !! "virtual_pepper" with
    | Some (VRobot vp) =>
        exists c : call unit,
          env E c w = (res o, world_of o) /\ trace o = [Ev c (res o)]
    | Some v =>
        o = mkOut (Raise (Exn AttributeError
                            ("'" ++ type_name v
                             ++ "' object has no attribute '" ++ method
                             ++ "'")))
              s w []
    | None =>
        o = mkOut (Raise (Exn AttributeError
                            ("'" ++ class_name E
                             ++ "' object has no attribute 'virtual_pepper'")))
              s w []
    end in
  (forall msg, outcome "setAngles" (_jointAnglesCallback E msg s w)) /\
  (forall msg, outcome "move" (_velocityCallback E msg s w)) /\
  (forall msg, outcome "moveTo" (_moveToCallback E msg s w)) /\
  (forall msg, outcome "moveTo" (_killMoveCallback E msg s w)).
Proof.
  cbv zeta.
  split; [intros; apply jointAnglesCallback_command_only|].
  split; [intros; apply velocityCallback_command_only|].
  split; [intros; apply moveToCallback_command_only|].
  intros; apply killMoveCallback_command_only.
Qed.

End Commands.

Section Layouts.
Context {World : Type} (E : Env World).

(** X6: every message [_updateLasers] publishes goes to the publisher in
    [laser_pub] and is a LaserScan in frame base_footprint, stamped with a
    time read during the call, from -2.0944 to 2.0944 rad in steps of the
    field of view over 61, with ranges from 0.1 to 3.0.  Its ranges are the
    right, front and left readings of the call, in that order, each
    reversed, with eight -1 after the right and after the front ones; a
    reading that is not a list is left out together with its eight -1.  So
    there are 61 values when each laser gives 15, and none when no reading
    is a list. *)
Theorem laser_scan_layout (s : Self) (w : World) p m :
  let t := trace (_updateLasers E s w) in
  (p, m) ∈ published t ->
  s !! "laser_pub" = Some (VPublisher p) /\
  exists vp l right_scan front_scan left_scan,
    m = MsgLaserScan l /\
    s !! "virtual_pepper" = Some (VRobot vp) /\
    Ev (SimLaserIsActive vp) (Ok true) ∈ t /\
    Ev RosGetRostime (Ok (stamp (ls_header l))) ∈ t /\
    Ev (SimGetRightLaserValue vp) (Ok right_scan) ∈ t /\
    Ev (SimGetFrontLaserValue vp) (Ok front_scan) ∈ t /\
    Ev (SimGetLeftLaserValue vp) (Ok left_scan) ∈ t /\
    frame_id (ls_header l) = "base_footprint" /\
    angle_min l = (-2.0944)%float /\ angle_max l = 2.0944%float /\
    range_min l = 0.1%float /\ range_max l = 3.0%float /\
    angle_increment l = ((angle_max l - angle_min l) / 61)%float /\
    ranges l =
      match right_scan with
      | LaserList a => map PFloat (reverse a) ++ replicate 8 (PInt (-1))
      | LaserNotList => []
      end
      ++ match front_scan with
         | LaserList b => map PFloat (reverse b) ++ replicate 8 (PInt (-1))
         | LaserNotList => []
         end
      ++ match left_scan with
         | LaserList c => map PFloat (reverse c)
         | LaserNotList => []
         end /\
    (forall a b c,
        right_scan = LaserList a -> front_scan = LaserList b ->
        left_scan = LaserList c ->
        ranges l = map PFloat (reverse a) ++ blind_zone
                   ++ map PFloat (reverse b) ++ blind_zone
                   ++ map PFloat (reverse c) /\
        length (ranges l) = length a + length b + length c + 16 /\
        (length a = 15 -> length b = 15 -> length c = 15 ->
         length (ranges l) = 61)) /\
    (forall a b,
        right_scan = LaserList a -> front_scan = LaserList b ->
        left_scan = LaserNotList ->
        ranges l = map PFloat (reverse a) ++ blind_zone
                   ++ map PFloat (reverse b) ++ blind_zone) /\
    (forall a c,
        right_scan = LaserList a -> front_scan = LaserNotList ->
        left_scan = LaserList c ->
        ranges l = map PFloat (reverse a) ++ blind_zone
                   ++ map PFloat (reverse c)) /\
    (forall b c,
        right_scan = LaserNotList -> front_scan = LaserList b ->
        left_scan = LaserList c ->
        ranges l = map PFloat (reverse b) ++ blind_zone
                   ++ map PFloat (reverse c)) /\
    (right_scan = LaserNotList -> front_scan = LaserNotList ->
     left_scan = LaserNotList -> ranges l = []).
Proof.
  cbv zeta. intros Hin.
  destruct (updateLasers_layout E s w p m Hin)
    as (Hp & vp & l & r & f & lf & -> & Hvp & Hact & Hst & Hr & Hf & Hl
        & Hfr & Hmin & Hmax & Hrmin & Hrmax & Hinc & Hranges).
  split; [exact Hp|]. exists vp, l, r, f, lf.
  repeat (split; [assumption || reflexivity|]).
  split.
  { rewrite Hranges. cbv [scan_ranges].
    destruct r, f, lf; by rewrite ?app_nil_r. }
  split; [|split; [|split; [|split]]].
  - intros a b c -> -> ->. rewrite Hranges.
    split; [apply scan_ranges_lists|].
    split; [apply scan_ranges_length|].
    intros Ha Hb Hc. by rewrite scan_ranges_length, Ha, Hb, Hc.
  - intros a b -> -> ->. rewrite Hranges.
    cbv [scan_ranges blind_zone]. cbn [app].
    by rewrite ?app_nil_r, <- ?app_assoc.
  - intros a c -> -> ->. rewrite Hranges.
    cbv [scan_ranges blind_zone]. cbn [app].
    by rewrite ?app_nil_r, <- ?app_assoc.
  - intros b c -> -> ->. rewrite Hranges.
    cbv [scan_ranges blind_zone]. cbn [app].
    by rewrite ?app_nil_r, <- ?app_assoc.
  - intros -> -> ->. by rewrite Hranges.
Qed.

(** X7: every CameraInfo [_broadcastCamera] publishes is that of the
    active camera: its frame is the name of the camera's link, its stamp
    is left unset, its distortion model is plumb_bob with five zero
    coefficients, [R] is the identity, [K] is the camera's intrinsics and
    [P] is [K] with 0.0 put in at places 3 and 7 and at the end, which for
    nine intrinsics is the 3x4 matrix of [K] and a zero column. *)
Theorem camera_info_layout (s : Self) (w : World) p ci :
  let t := trace (_broadcastCamera E s w) in
  (p, MsgCameraInfo ci) ∈ published t ->
  exists vp camera link K,
    s !! "virtual_pepper" = Some (VRobot vp) /\
    Ev (SimGetActiveCamera vp) (Ok (Some camera)) ∈ t /\
    Ev (LinkGetName link) (Ok (frame_id (ci_header ci))) ∈ t /\
    Ev (CamGetCameraLink camera) (Ok link) ∈ t /\
    Ev (CamGetCameraIntrinsics camera) (Ok K) ∈ t /\
    stamp (ci_header ci) = {| secs := 0; nsecs := 0 |} /\
    distortion_model ci = "plumb_bob" /\
    ci_D ci = [0.0; 0.0; 0.0; 0.0; 0.0]%float /\
    ci_K ci = K /\
    ci_R ci = [1; 0; 0; 0; 1; 0; 0; 0; 1]%Z /\
    ci_P ci = py_insert 7 0.0%float (py_insert 3 0.0%float K)
              ++ [0.0%float] /\
    length (ci_P ci) = length K + 3 /\
    forall k0 k1 k2 k3 k4 k5 k6 k7 k8,
      K = [k0; k1; k2; k3; k4; k5; k6; k7; k8] ->
      ci_P ci = [k0; k1; k2; 0.0; k3; k4; k5; 0.0; k6; k7; k8; 0.0]%float.
Proof.
  cbv zeta. intros Hin.
  destruct (broadcastCamera_info E s w p ci Hin)
    as (vp & camera & link & K & Hvp & Hcam & Hname & Hlink & HK & Hst & Hdm
        & HD & HciK & HR & HP).
  exists vp, camera, link, K.
  repeat (split; [assumption|]). split.
  - rewrite HP, length_app, !py_insert_length. cbn. lia.
  - intros k0 k1 k2 k3 k4 k5 k6 k7 k8 ->. by rewrite HP.
Qed.

(** X8: the three early ways out of an iteration's statements.  On an
    instance that holds a robot, [_updateLasers] returns right after the
    laser manager answered that it is not active, and [_broadcastCamera]
    right after the robot answered that no camera is active, or after the
    active camera answered that it has no frame; each returns normally,
    leaves the instance alone and makes no other call, so that nothing is
    published and not even the time is read. *)
Theorem iteration_skips_return_quietly vp (s : Self) (w : World) :
  s !! "virtual_pepper" = Some (VRobot vp) ->
  (forall w1,
      env E (SimLaserIsActive vp) w = (Ok false, w1) ->
      _updateLasers E s w
        = mkOut (Ok tt) s w1 [Ev (SimLaserIsActive vp) (Ok false)]) /\
  (forall w1,
      env E (SimGetActiveCamera vp) w = (Ok None, w1) ->
      _broadcastCamera E s w
        = mkOut (Ok tt) s w1 [Ev (SimGetActiveCamera vp) (Ok None)]) /\
  (forall camera w1 w2,
      env E (SimGetActiveCamera vp) w = (Ok (Some camera), w1) ->
      env E (CamGetFrame camera) w1 = (Ok None, w2) ->
      _broadcastCamera E s w
        = mkOut (Ok tt) s w2
            [Ev (SimGetActiveCamera vp) (Ok (Some camera));
             Ev (CamGetFrame camera) (Ok None)]).
Proof.
  intros Hvp.
  split; [intros w1; by apply updateLasers_inactive|].
  split; [intros w1; by apply broadcastCamera_no_camera|].
  intros camera w1 w2. by apply broadcastCamera_no_frame.
Qed.

End Layouts.

Section OdometryFollows.
Context {World : Type} (E : Env World).

(** X9: every message [_broadcastOdom] publishes goes to the publisher in
    [odom_pub] and is an Odometry that follows the one transform of the
    call, sent with success on the broadcaster the instance holds: the
    transform is odom -> base_link with no height, and the Odometry has the
    same position, on the ground, the same orientation and the same two
    frames; each of the two is stamped with a time read during the call. *)
Theorem odometry_follows_transform (s : Self) (w : World) p m :
  let t := trace (_broadcastOdom E s w) in
  (p, m) ∈ published t ->
  s !! "odom_pub" = Some (VPublisher p) /\
  exists od tf tb,
    m = MsgOdometry od /\
    transforms t = [tf] /\
    Ev (TfSendTransform tb tf) (Ok tt) ∈ t /\
    s !! "transform_broadcaster" = Some (VBroadcaster tb) /\
    frame_id (ts_header tf) = "odom" /\
    ts_child_frame_id tf = "base_link" /\
    translation_z tf = PInt 0 /\
    Ev RosGetRostime (Ok (stamp (ts_header tf))) ∈ t /\
    position_x od = translation_x tf /\
    position_y od = translation_y tf /\
    position_z od = 0.0%float /\
    orientation od = rotation tf /\
    frame_id (od_header od) = "odom" /\
    od_child_frame_id od = "base_link" /\
    Ev RosGetRostime (Ok (stamp (od_header od))) ∈ t.
Proof.
  cbv zeta. intros Hin.
  destruct (broadcastOdom_layout E s w) as (Hlen & Htf & Hpub).
  destruct (Hpub p m Hin)
    as (Hp & od & tf & tb & -> & Hsent & Htb & Hx & Hy & Hz & Hor & Hfr
        & Hch & Hst).
  pose proof (sent_is_transform _ _ _ _ Hsent) as Hmem.
  destruct (Htf tf Hmem) as (Hf1 & Hc1 & Hz1 & Hst1).
  split; [exact Hp|]. exists od, tf, tb.
  split; [reflexivity|]. split; [by apply one_element|].
  repeat (split; [assumption|]).
  split; [congruence|]. split; [congruence|]. exact Hst.
Qed.

End OdometryFollows.

Section Spinning.
Context {World : Type} (E : Env World).

(** X10: an [Exception] that [_spin] lets out was raised while it made its
    rate, before the loop and its handler: either the instance has no
    [frequency] and the error is the [AttributeError] of the instance for
    that attribute, with no call made, or [rospy.Rate] raised it, and that
    call is the only one made.  In neither case is anything slept,
    published or printed. *)
Theorem spin_raises_only_from_rate sched (s : Self) (w : World) e :
  res (_spin E sched s w) = Raise e -> is_Exception e = true ->
  (s !! "frequency" = None /\
   _spin E sched s w
   = mkOut (Raise (Exn AttributeError
                     ("'" ++ class_name E
                      ++ "' object has no attribute 'frequency'"))) s w [])
  \/
  (exists f w1,
      s !! "frequency" = Some f /\
      env E (RosRate f) w = (Raise e, w1) /\
      _spin E sched s w = mkOut (Raise e) s w1 [Ev (RosRate f) (Raise e)]).
Proof.
  intros Hr He.
  destruct (s !! "frequency") as [f|] eqn:Hf.
  - right. destruct (env E (RosRate f) w) as [[rate|e'] w1] eqn:Hrate.
    + destruct (spin_rate E sched s w f rate w1 Hf Hrate) as (Hres & _).
      rewrite Hres in Hr. apply spin_loop_swallows in Hr. congruence.
    + assert (Heq : _spin E sched s w
                    = mkOut (Raise e') s w1 [Ev (RosRate f) (Raise e')]).
      { unfold _spin, bind, getattr, ext. rewrite Hf. cbn. by rewrite Hrate. }
      rewrite Heq in Hr. cbn in Hr. injection Hr as ->. eauto.
  - left. split; [reflexivity|].
    unfold _spin, bind, getattr. by rewrite Hf.
Qed.

(** X13: once [stopWrapper] has run, on any instance and whatever it
    returned, the loop does nothing: its first test finds the flag set, so
    that it is left with no call made, and a [_spin] started then sleeps on
    nothing, publishes nothing and prints nothing. *)
Theorem stopped_wrapper_never_spins (s : Self) (w : World) rate sched w' :
  let s' := self_of (stopWrapper E s w) in
  spin_loop E rate sched s' w' = mkOut (Ok LoopLeft) s' w' [] /\
  sleeps (trace (_spin E sched s' w')) = [] /\
  published (trace (_spin E sched s' w')) = [] /\
  printed (trace (_spin E sched s' w')) = [].
Proof.
  cbv zeta. rewrite stopWrapper_writes_flag.
  set (s' := <["_wrapper_termination" := VBool true]> s).
  assert (Hflag : s' !! "_wrapper_termination" = Some (VBool true))
    by apply lookup_insert_eq.
  assert (Hloop : forall r w1,
             spin_loop E r sched s' w1 = mkOut (Ok LoopLeft) s' w1 [])
    by (intros; by eapply spin_loop_flagged).
  split; [apply Hloop|].
  destruct (s' !! "frequency") as [f|] eqn:Hf.
  - destruct (env E (RosRate f) w') as [[r|e] w1] eqn:Hrate.
    + destruct (spin_rate E sched s' w' f r w1 Hf Hrate) as (_ & _ & ->).
      by rewrite Hloop.
    + assert (Heq : _spin E sched s' w'
                    = mkOut (Raise e) s' w1 [Ev (RosRate f) (Raise e)]).
      { unfold _spin, bind, getattr, ext. rewrite Hf. cbn. by rewrite Hrate. }
      by rewrite Heq.
  - assert (Heq : _spin E sched s' w'
                  = mkOut (Raise (Exn AttributeError
                                    (no_attribute (class_name E) "frequency")))
                      s' w' []).
    { unfold _spin, bind, getattr. by rewrite Hf. }
    by rewrite Heq.
Qed.

(** X15: [_spin] publishes at most one round of messages per sleep.  Every
    sleep is on the rate [rospy.Rate] made from the instance's frequency,
    there is at most one sleep per iteration, and the classes of the
    messages published are, in order, a part of as many rounds (JointState,
    LaserScan, Odometry, Image, CameraInfo) as there were sleeps: at most
    five messages per sleep, whatever raises. *)
Theorem loop_publishes_one_round_per_sleep sched (s : Self) (w : World) :
  let t := trace (_spin E sched s w) in
  length (sleeps t) <= length sched /\
  (forall r, r ∈ sleeps t ->
     exists f, s !! "frequency" = Some f /\ Ev (RosRate f) (Ok r) ∈ t) /\
  published_types t
    `sublist_of` concat (replicate (length (sleeps t)) the_round) /\
  length (published t) <= 5 * length (sleeps t).
Proof.
  cbv zeta. destruct (spin_rounds E sched s w) as (_ & Hlen & Hr & _ & Hty).
  split; [exact Hlen|]. split; [exact Hr|]. split; [exact Hty|].
  apply sublist_length in Hty. rewrite rounds_length in Hty.
  unfold published_types in Hty. by rewrite length_map in Hty.
Qed.

End Spinning.

Section Composed.
Context {World : Type} (E : Env World).

(** X11: a wrapper whose constructor returned and whose [launchWrapper],
    run next, had no call raise, is ready to spin: [launchWrapper]
    returned, the instance holds the robot it was given, the bridge and the
    broadcaster the constructor made and a publisher on each of the nine
    topics, its flag is unset, its exit hook is registered, and the one
    thread made, with target [_spin], is started. *)
Theorem constructed_then_launched_is_ready vp ns f (s : Self) (w : World) :
  let o1 := PepperRosWrapper__init__ E s w in
  let o2 := launchWrapper E vp ns f (self_of o1) (world_of o1) in
  res o1 = Ok tt -> clean (trace o2) = true ->
  exists h th,
    res o2 = Ok tt /\
    h_robot h = vp /\ launched (self_of o2) h /\ constructed (self_of o2) /\
    Ev CvBridgeNew (Ok (h_bridge h)) ∈ trace o1 /\
    Ev TfTransformBroadcaster (Ok (h_broadcaster h)) ∈ trace o1 /\
    exit_hooks (trace o1) = [M_stopWrapper] /\
    self_of o2 !! "_wrapper_termination" = Some (VBool false) /\
    self_of o2 !! "spin_thread" = Some (VThread th) /\
    threads_created (trace o2) = [(M_spin, th)] /\
    threads_started (trace o2) = [th].
Proof.
  cbv zeta. unfold PepperRosWrapper__init__. intros Hr1 Hc.
  pose proof (init_ok_import E s w Hr1) as Himp.
  destruct (init_hook E s w) as (Hh & _ & _ & _ & Hok).
  rewrite Hr1 in Hh.
  destruct (Hok Hr1)
    as (b & tb & Hb & Htb & _ & Hsp & _ & Hsb & _ & _ & _ & Hsl & Hstb & _).
  set (s1 := self_of (RosWrapper__init__ E s w)) in *.
  set (w1 := world_of (RosWrapper__init__ E s w)) in *.
  destruct (launchWrapper_thread E vp ns f s1 w1)
    as [(_ & _ & _ & Hno)|(l & th & t0 & Hr2 & _ & _ & Hcr & Hst & Hth & _
                            & Hfl & _)].
  { by destruct (Hno Hc). }
  destruct (launch_gives_launched E vp ns f s1 w1 b tb Hsb Hstb Hr2)
    as (h & Hvp & Hl).
  destruct (launchWrapper_run E vp ns f s1 w1) as (_ & _ & _ & _ & Hrun).
  destruct (Hrun Hr2) as (_ & _ & Hb' & Htb' & _).
  pose proof (l_bridge _ _ Hl) as Hlb. rewrite Hb', Hsb in Hlb.
  pose proof (l_broadcaster _ _ Hl) as Hltb. rewrite Htb', Hstb in Hltb.
  injection Hlb as Hlb. injection Hltb as Hltb.
  exists h, th. split; [exact Hr2|]. split; [exact Hvp|]. split; [exact Hl|].
  split.
  { apply (launchWrapper_keeps_constructed E vp ns f s1 w1).
    split; [by rewrite Hsp|by left]. }
  split; [by rewrite <- Hlb|]. split; [by rewrite <- Hltb|].
  split; [exact Hh|]. split; [exact Hfl|]. split; [exact Hth|].
  split; [exact Hcr|exact Hst].
Qed.

(** X12: [stopWrapper] undoes what [launchWrapper] did.  After a
    [launchWrapper] run on an instance that held no thread and no launcher,
    as the constructor leaves it, and whatever that launch returned,
    [stopWrapper] joins exactly the threads the launch started that answer
    that they are alive, and leaves the flag set; unless [isAlive] or
    [join] raised another error than [AssertionError], which [stopWrapper]
    then raises, having stopped no launcher, it stops exactly the launchers
    the launch made (one or none). *)
Theorem stopWrapper_stops_what_launch_made vp ns f (s : Self) (w w' : World) :
  s !! "spin_thread" = Some VNone -> s !! "roslauncher" = Some VNone ->
  let o := launchWrapper E vp ns f s w in
  let o' := stopWrapper E (self_of o) w' in
  launcher_stops (trace o')
    = match thread_error (trace o') with
      | None => launchers_created (trace o)
      | Some _ => []
      end /\
  (forall e, thread_error (trace o') = Some e -> res o' = Raise e) /\
  joins (trace o')
    = List.filter
        (fun th => match (env E (ThreadIsAlive th) w').1 with
                   | Ok true => true
                   | _ => false
                   end)
        (threads_started (trace o)) /\
  self_of o' !! "_wrapper_termination" = Some (VBool true).
Proof.
  intros Hsp Hsl. cbv zeta.
  set (o := launchWrapper E vp ns f s w).
  assert (Hc : constructed (self_of o)).
  { apply (launchWrapper_keeps_constructed E vp ns f s w).
    split; [by rewrite Hsp|by left]. }
  destruct (stopWrapper_run E (self_of o) w' Hc)
    as (Hs' & _ & Hj & Hst & _ & _ & Herr & _).
  destruct (launchWrapper_launcher E vp ns f s w) as (Hl & Hlen).
  fold o in Hl, Hlen.
  split; [|split; [exact Herr|split]].
  - rewrite Hst, Hl.
    destruct (thread_error (trace (stopWrapper E (self_of o) w')));
      [reflexivity|].
    destruct (launchers_created (trace o)) as [|l [|l' ls]].
    + by rewrite Hsl.
    + reflexivity.
    + cbn in Hlen. lia.
  - rewrite Hj.
    destruct (launchWrapper_thread E vp ns f s w)
      as [(_ & Hno & Hth & _)|(l & th & t0 & _ & _ & _ & _ & Hst1 & Hth & _)];
      fold o in Hno, Hth || fold o in Hst1, Hth.
    + by rewrite Hth, Hsp, Hno.
    + rewrite Hth, Hst1. cbn.
      by destruct ((env E (ThreadIsAlive th) w').1) as [[|]|].
  - rewrite Hs'. apply lookup_insert_eq.
Qed.

(** X16: [stopWrapper] can be run again.  On a constructed instance, the
    first run keeps [spin_thread] and [roslauncher] and sets the flag, so
    that a second run (the exit hook after an explicit stop) leaves the
    instance as the first did, finds the flag set at its join, and stops
    the launcher the instance held from the start once more, under the
    same condition as the first: unless [isAlive] or [join] raises another
    error than [AssertionError] during that run. *)
Theorem stopWrapper_twice_stops_again (s : Self) (w w' : World) :
  constructed s ->
  let o1 := stopWrapper E s w in
  let o2 := stopWrapper E (self_of o1) w' in
  self_of o1 !! "spin_thread" = s !! "spin_thread" /\
  self_of o1 !! "roslauncher" = s !! "roslauncher" /\
  self_of o2 = self_of o1 /\
  Forall (fun flag => flag = Some (VBool true)) (join_flags (trace o2)) /\
  launcher_stops (trace o1)
    = match thread_error (trace o1), s !! "roslauncher" with
      | None, Some (VLauncher l) => [l]
      | _, _ => []
      end /\
  launcher_stops (trace o2)
    = match thread_error (trace o2), s !! "roslauncher" with
      | None, Some (VLauncher l) => [l]
      | _, _ => []
      end /\
  (thread_error (trace o1) = None -> thread_error (trace o2) = None ->
   launcher_stops (trace o2) = launcher_stops (trace o1)).
Proof.
  intros Hc. cbv zeta.
  destruct (stopWrapper_run E s w Hc) as (Hs1 & _ & _ & Hst1 & _).
  assert (Hth : self_of (stopWrapper E s w) !! "spin_thread"
                = s !! "spin_thread")
    by (by rewrite Hs1, lookup_insert_ne).
  assert (Hl : self_of (stopWrapper E s w) !! "roslauncher"
               = s !! "roslauncher")
    by (by rewrite Hs1, lookup_insert_ne).
  assert (Hc1 : constructed (self_of (stopWrapper E s w))).
  { destruct Hc as [Hc1 Hc2]. split; [by rewrite Hth|by rewrite Hl]. }
  destruct (stopWrapper_run E _ w' Hc1) as (Hs2 & Hfl2 & _ & Hst2 & _).
  rewrite Hl in Hst2.
  split; [exact Hth|]. split; [exact Hl|]. split.
  { rewrite Hs2, Hs1. apply insert_insert_eq. }
  split; [exact Hfl2|]. split; [exact Hst1|]. split; [exact Hst2|].
  intros H1 H2. rewrite Hst1, Hst2, H1, H2. reflexivity.
Qed.

(** X14: every message a [_spin] publishes on the instance a
    [launchWrapper] that returned has left goes to a publisher that this
    launch advertised, with the class of the message, on a topic for it:
    JointState on /joint_states, LaserScan on the namespace's /laser,
    Odometry on odom, an Image encoded 16UC1 on the namespace's depth
    image topic and any other Image on its front or bottom image topic,
    CameraInfo on one of its three camera_info topics. *)
Theorem messages_go_to_their_topics vp ns f (s0 : Self) (w0 : World)
    sched w p m :
  let o := launchWrapper E vp ns f s0 w0 in
  res o = Ok tt ->
  (p, m) ∈ published (trace (_spin E sched (self_of o) w)) ->
  exists topic,
    topic ∈ topics_for ns m /\
    Ev (RosPublisher topic (msg_type_of m) 10) (Ok p) ∈ trace o.
Proof.
  cbv zeta. intros Hr Hin.
  destruct (spin_rounds E sched (self_of (launchWrapper E vp ns f s0 w0)) w)
    as (_ & _ & _ & Hro & _).
  destruct (Hro p m Hin) as (attr & Hattr & Hp).
  destruct (launchWrapper_run E vp ns f s0 w0) as (_ & _ & _ & _ & Hrun).
  destruct (Hrun Hr) as (_ & _ & _ & _ & Hw).
  unfold the_publisher_attrs, the_topics in Hw.
  repeat match goal with
         | H : Forall2 _ (_ :: _) (_ :: _) |- _ =>
             apply Forall2_cons in H as [[? [? ?]] H]
         end.
  cbn [fst snd] in *.
  destruct m as [j|l|od|i|ci]; cbn [publisher_attrs topics_for msg_type_of]
    in *;
    try destruct (String.eqb (encoding i) "16UC1");
    split_in Hattr; subst attr;
    match goal with
    | Hk : _ !! ?a = Some (VPublisher ?x),
      Hev : Ev (RosPublisher ?topic _ _) (Ok ?x) ∈ _
      |- context [Ev (RosPublisher _ ?ty _) (Ok p)] =>
        lazymatch type of Hp with
        | _ !! a = _ =>
            lazymatch type of Hev with
            | Ev (RosPublisher _ ty _) _ ∈ _ =>
                rewrite Hp in Hk; injection Hk as <-;
                exists topic; split; [in_trace|exact Hev]
            end
        end
    end.
Qed.

End Composed.

Section Images.
Context {World : Type} (E : Env World).

(** X17: every Image [_broadcastCamera] publishes is what the bridge the
    instance holds made of a frame read from the active camera: it keeps
    the stamp, the size and the data of that conversion, and its frame is
    the name of the camera's link.  Its encoding and its publisher are
    chosen together by the id the camera reported: bgr8 through
    [front_cam_pub] for the top camera, bgr8 through [bottom_cam_pub] for
    the bottom one, 16UC1 through [depth_cam_pub] for the depth one. *)
Theorem image_layout (s : Self) (w : World) p i :
  let t := trace (_broadcastCamera E s w) in
  (p, MsgImage i) ∈ published t ->
  exists attr id vp camera link bridge frame converted,
    s !! attr = Some (VPublisher p) /\
    (attr, encoding i, id)
      ∈ [ ("front_cam_pub", "bgr8", ID_CAMERA_TOP E);
          ("bottom_cam_pub", "bgr8", ID_CAMERA_BOTTOM E);
          ("depth_cam_pub", "16UC1", ID_CAMERA_DEPTH E) ] /\
    Ev (CamGetCameraId camera) (Ok id) ∈ t /\
    s !! "virtual_pepper" = Some (VRobot vp) /\
    Ev (SimGetActiveCamera vp) (Ok (Some camera)) ∈ t /\
    s !! "image_bridge" = Some (VBridge bridge) /\
    stamp (img_header i) = stamp (img_header converted) /\
    img_height i = img_height converted /\
    img_width i = img_width converted /\
    img_data i = img_data converted /\
    Ev (Cv2ToImgmsg bridge frame) (Ok converted) ∈ t /\
    Ev (CamGetFrame camera) (Ok frame) ∈ t /\
    Ev (LinkGetName link) (Ok (frame_id (img_header i))) ∈ t /\
    Ev (CamGetCameraLink camera) (Ok link) ∈ t.
Proof. cbv zeta. intros Hin. exact (broadcastCamera_image E s w p i Hin). Qed.

End Images.

(** * The further properties on the scripted environments *)

Lemma launch_without_thread_reports_ioerror_witness :
  let o := launchWrapper Faults.no_urdf 5 "/pepper" default_frequency
             Script.constructed_self 3 in
  res o = Ok tt /\ threads_started (trace o) = [] /\
  exists e,
    is_IOError e = true /\
    printed (trace o)
      = [("Could not retrieve robot descrition: " ++ str e)%string].
Proof.
  cbv zeta.
  assert (Hr : res (launchWrapper Faults.no_urdf 5 "/pepper"
                      default_frequency Script.constructed_self 3) = Ok tt)
    by (vm_compute; reflexivity).
  assert (Hth : threads_started
                  (trace (launchWrapper Faults.no_urdf 5 "/pepper"
                            default_frequency Script.constructed_self 3))
                = []) by (vm_compute; reflexivity).
  split; [exact Hr|]. split; [exact Hth|].
  destruct (launch_without_thread_reports_ioerror Faults.no_urdf 5 "/pepper"
              default_frequency Script.constructed_self 3 Hr Hth)
    as (e & Hpr & _ & He & _).
  exists e. split; [exact He|exact Hpr].
Defined.

(** In the nominal environment the right and front lasers give two
    values each and the left one gives no list. *)
Lemma laser_scan_layout_witness :
  exists p l,
    (p, MsgLaserScan l) ∈ published (trace (_updateLasers Script.nominal
                                              Script.launched_self 100)) /\
    Script.launched_self !! "laser_pub" = Some (VPublisher p) /\
    ranges l = [ PFloat 1.5; PFloat 1.0;
                 PInt (-1); PInt (-1); PInt (-1); PInt (-1);
                 PInt (-1); PInt (-1); PInt (-1); PInt (-1);
                 PFloat 2.5; PFloat 2.0;
                 PInt (-1); PInt (-1); PInt (-1); PInt (-1);
                 PInt (-1); PInt (-1); PInt (-1); PInt (-1) ].
Proof.
  assert (H : exists p l rest,
             published (trace (_updateLasers Script.nominal
                                 Script.launched_self 100))
             = (p, MsgLaserScan l) :: rest /\
             ranges l = [ PFloat 1.5; PFloat 1.0;
                          PInt (-1); PInt (-1); PInt (-1); PInt (-1);
                          PInt (-1); PInt (-1); PInt (-1); PInt (-1);
                          PFloat 2.5; PFloat 2.0;
                          PInt (-1); PInt (-1); PInt (-1); PInt (-1);
                          PInt (-1); PInt (-1); PInt (-1); PInt (-1) ])
    by (vm_compute; eexists _, _, _; split; reflexivity).
  destruct H as (p & l & rest & Hp & Hr).
  assert (Hin : (p, MsgLaserScan l)
                ∈ published (trace (_updateLasers Script.nominal
                                      Script.launched_self 100)))
    by (rewrite Hp; apply list_elem_of_here).
  exists p, l. split; [exact Hin|]. split; [|exact Hr].
  exact (proj1 (laser_scan_layout Script.nominal Script.launched_self 100
                  p _ Hin)).
Defined.

Lemma camera_info_layout_witness :
  exists p ci,
    (p, MsgCameraInfo ci) ∈ published (trace (_broadcastCamera Script.nominal
                                                Script.launched_self 100)) /\
    length (ci_P ci) = length (ci_K ci) + 3.
Proof.
  assert (H : exists pm p ci rest,
             published (trace (_broadcastCamera Script.nominal
                                 Script.launched_self 100))
             = pm :: (p, MsgCameraInfo ci) :: rest)
    by (vm_compute; eexists _, _, _, _; reflexivity).
  destruct H as (pm & p & ci & rest & Hp).
  assert (Hin : (p, MsgCameraInfo ci)
                ∈ published (trace (_broadcastCamera Script.nominal
                                      Script.launched_self 100)))
    by (rewrite Hp; apply list_elem_of_further, list_elem_of_here).
  exists p, ci. split; [exact Hin|].
  destruct (camera_info_layout Script.nominal Script.launched_self 100 p ci
              Hin)
    as (vp & camera & link & K & _ & _ & _ & _ & _ & _ & _ & _ & HK & _
        & _ & Hlen & _).
  by rewrite HK.
Defined.

Lemma iteration_skips_return_quietly_witness :
  Script.launched_self !! "virtual_pepper" = Some (VRobot 5) /\
  _updateLasers (Faults.sensors false None None) Script.launched_self 100
    = mkOut (Ok tt) Script.launched_self 101
        [Ev (SimLaserIsActive 5) (Ok false)] /\
  _broadcastCamera (Faults.sensors false None None) Script.launched_self 100
    = mkOut (Ok tt) Script.launched_self 101
        [Ev (SimGetActiveCamera 5) (Ok None)] /\
  _broadcastCamera (Faults.sensors true (Some 7) None) Script.launched_self
    100
    = mkOut (Ok tt) Script.launched_self 102
        [Ev (SimGetActiveCamera 5) (Ok (Some 7)); Ev (CamGetFrame 7) (Ok None)].
Proof.
  assert (H : Script.launched_self !! "virtual_pepper" = Some (VRobot 5))
    by (vm_compute; reflexivity).
  split; [exact H|].
  destruct (iteration_skips_return_quietly (Faults.sensors false None None)
              5 Script.launched_self 100 H) as (Hl & Hc & _).
  destruct (iteration_skips_return_quietly
              (Faults.sensors true (Some 7) None)
              5 Script.launched_self 100 H) as (_ & _ & Hf).
  split; [exact (Hl 101 eq_refl)|].
  split; [exact (Hc 101 eq_refl)|exact (Hf 7 101 102 eq_refl eq_refl)].
Defined.

Lemma odometry_follows_transform_witness :
  exists p m,
    (p, m) ∈ published (trace (_broadcastOdom Script.nominal
                                 Script.launched_self 100)) /\
    Script.launched_self !! "odom_pub" = Some (VPublisher p).
Proof.
  assert (H : exists p m rest,
             published (trace (_broadcastOdom Script.nominal
                                 Script.launched_self 100)) = (p, m) :: rest)
    by (vm_compute; eexists _, _, _; reflexivity).
  destruct H as (p & m & rest & Hp).
  assert (Hin : (p, m) ∈ published (trace (_broadcastOdom Script.nominal
                                             Script.launched_self 100)))
    by (rewrite Hp; apply list_elem_of_here).
  exists p, m. split; [exact Hin|].
  exact (proj1 (odometry_follows_transform Script.nominal
                  Script.launched_self 100 p m Hin)).
Defined.

Lemma spin_raises_only_from_rate_witness :
  res (_spin Script.nominal [false] Script.constructed_self 3)
    = Raise (Exn AttributeError
               "'PepperRosWrapper' object has no attribute 'frequency'") /\
  is_Exception (Exn AttributeError
                  "'PepperRosWrapper' object has no attribute 'frequency'")
    = true /\
  trace (_spin Script.nominal [false] Script.constructed_self 3) = [].
Proof.
  assert (Hr : res (_spin Script.nominal [false] Script.constructed_self 3)
               = Raise (Exn AttributeError
                          "'PepperRosWrapper' object has no attribute 'frequency'"))
    by (vm_compute; reflexivity).
  split; [exact Hr|]. split; [reflexivity|].
  destruct (spin_raises_only_from_rate Script.nominal [false]
              Script.constructed_self 3 _ Hr eq_refl)
    as [[_ ->]|(f & w1 & Hf & _)]; [reflexivity|].
  vm_compute in Hf. discriminate Hf.
Defined.

Lemma constructed_then_launched_is_ready_witness :
  let o1 := PepperRosWrapper__init__ Script.nominal ∅ 0 in
  let o2 := launchWrapper Script.nominal 5 "/pepper" default_frequency
              (self_of o1) (world_of o1) in
  res o1 = Ok tt /\ clean (trace o2) = true /\
  exists h th,
    res o2 = Ok tt /\ h_robot h = 5 /\ launched (self_of o2) h /\
    threads_started (trace o2) = [th].
Proof.
  cbv zeta.
  assert (Hr : res (PepperRosWrapper__init__ Script.nominal ∅ 0) = Ok tt)
    by (vm_compute; reflexivity).
  assert (Hc : clean (trace (launchWrapper Script.nominal 5 "/pepper"
                               default_frequency
                               (self_of (PepperRosWrapper__init__
                                           Script.nominal ∅ 0))
                               (world_of (PepperRosWrapper__init__
                                            Script.nominal ∅ 0)))) = true)
    by (vm_compute; reflexivity).
  split; [exact Hr|]. split; [exact Hc|].
  destruct (constructed_then_launched_is_ready Script.nominal 5 "/pepper"
              default_frequency ∅ 0 Hr Hc)
    as (h & th & Hr2 & Hvp & Hl & _ & _ & _ & _ & _ & _ & _ & Hst).
  exists h, th. auto.
Defined.

Lemma stopWrapper_stops_what_launch_made_witness :
  let o := launchWrapper Script.nominal 5 "/pepper" default_frequency
             Script.constructed_self 3 in
  Script.constructed_self !! "spin_thread" = Some VNone /\
  Script.constructed_self !! "roslauncher" = Some VNone /\
  launcher_stops (trace (stopWrapper Script.nominal (self_of o) 40)) = [22] /\
  joins (trace (stopWrapper Script.nominal (self_of o) 40)) = [25].
Proof.
  cbv zeta.
  assert (Hsp : Script.constructed_self !! "spin_thread" = Some VNone)
    by (vm_compute; reflexivity).
  assert (Hsl : Script.constructed_self !! "roslauncher" = Some VNone)
    by (vm_compute; reflexivity).
  split; [exact Hsp|]. split; [exact Hsl|].
  destruct (stopWrapper_stops_what_launch_made Script.nominal 5 "/pepper"
              default_frequency Script.constructed_self 3 40 Hsp Hsl)
    as (Hst & _ & Hj & _).
  split; [rewrite Hst|rewrite Hj]; vm_compute; reflexivity.
Defined.

Lemma messages_go_to_their_topics_witness :
  let o := launchWrapper Script.nominal 5 "/pepper" default_frequency
             Script.constructed_self 3 in
  res o = Ok tt /\
  exists p m topic,
    (p, m) ∈ published (trace (_spin Script.nominal [false] (self_of o)
                                 100)) /\
    topic ∈ topics_for "/pepper" m /\
    Ev (RosPublisher topic (msg_type_of m) 10) (Ok p) ∈ trace o.
Proof.
  cbv zeta.
  assert (Hr : res (launchWrapper Script.nominal 5 "/pepper"
                      default_frequency Script.constructed_self 3) = Ok tt)
    by (vm_compute; reflexivity).
  split; [exact Hr|].
  assert (H : exists p m rest,
             published
               (trace (_spin Script.nominal [false]
                         (self_of (launchWrapper Script.nominal 5 "/pepper"
                                     default_frequency
                                     Script.constructed_self 3)) 100))
             = (p, m) :: rest)
    by (vm_compute; eexists _, _, _; reflexivity).
  destruct H as (p & m & rest & Hp).
  assert (Hin : (p, m)
                ∈ published
                    (trace (_spin Script.nominal [false]
                              (self_of (launchWrapper Script.nominal 5
                                          "/pepper" default_frequency
                                          Script.constructed_self 3)) 100)))
    by (rewrite Hp; apply list_elem_of_here).
  destruct (messages_go_to_their_topics Script.nominal 5 "/pepper"
              default_frequency Script.constructed_self 3 [false] 100 p m
              Hr Hin) as (topic & Htopic & Hev).
  exists p, m, topic. auto.
Defined.

Lemma stopWrapper_twice_stops_again_witness :
  constructed Script.launched_self /\
  launcher_stops
    (trace (stopWrapper Script.nominal
              (self_of (stopWrapper Script.nominal Script.launched_self 100))
              200))
    = [22].
Proof.
  split; [exact launched_self_constructed|].
  destruct (stopWrapper_twice_stops_again Script.nominal Script.launched_self
              100 200 launched_self_constructed)
    as (_ & _ & _ & _ & _ & H & _).
  rewrite H. vm_compute. reflexivity.
Defined.

Lemma image_layout_witness :
  exists p i attr id,
    (p, MsgImage i) ∈ published (trace (_broadcastCamera Script.nominal
                                           Script.launched_self 100)) /\
    Script.launched_self !! attr = Some (VPublisher p) /\
    (attr, encoding i, id) ∈ image_routes Script.nominal.
Proof.
  assert (H : exists p i rest,
             published (trace (_broadcastCamera Script.nominal
                                 Script.launched_self 100))
             = (p, MsgImage i) :: rest)
    by (vm_compute; eexists _, _, _; reflexivity).
  destruct H as (p & i & rest & Hp).
  assert (Hin : (p, MsgImage i)
                ∈ published (trace (_broadcastCamera Script.nominal
                                      Script.launched_self 100)))
    by (rewrite Hp; apply list_elem_of_here).
  destruct (image_layout Script.nominal Script.launched_self 100 p i Hin)
    as (attr & id & vp & camera & link & bridge & frame & converted & Hattr
        & Hroute & _).
  exists p, i, attr, id. split; [exact Hin|]. split; [exact Hattr|].
  exact Hroute.
Defined.
